(** * Vaulto-Swap: token / liquidity search aggregator

    A shallow embedding of the search orchestrator
    ([app/components/search/GlobalSearchBar.tsx]), the liquidity
    aggregation endpoint ([app/api/uniswap/liquidity/route.ts]), the
    subgraph services ([lib/uniswap]) and the CoW orderbook service
    ([services/cowApi] with its polling hook), followed by the properties
    of the specification that are stated about them.

    Conventions of the embedding:
    - a JavaScript string is a [string]; its characters stand for code
      units (the programs only inspect ASCII: hex digits, white space,
      letter case);
    - an integer-valued [number] (chain ids, counts, HTTP statuses,
      decimals) and a [BigInt] are [Z]; a USD amount is a [Q];
    - a computation that may throw returns a [completion];
    - network replies, the clock and the environment variables are inputs
      of the functions that consume them; calls that a property counts are
      recorded in an explicit log. *)

From Stdlib Require Import ZArith QArith List String Ascii Bool Lia Permutation.
From Stdlib Require Import Numbers.DecimalString Numbers.DecimalPos.
From Stdlib Require Import Sorting.Sorted.
Import ListNotations.

Open Scope string_scope.
Open Scope list_scope.
Open Scope Z_scope.

(* ================================================================= *)
(** ** JavaScript primitives used by the sources *)

Module JS.

(** A thrown value.  The handlers of the sources only ask whether it is
    an [Error] and, if so, read its [message]. *)
Inductive thrown : Type :=
| ErrorObj (message : string)
| NonError.

(** [error instanceof Error ? error.message : fallback] *)
Definition messageOr (fallback : string) (e : thrown) : string :=
  match e with
  | ErrorObj m => m
  | NonError => fallback
  end.

Inductive completion (A : Type) : Type :=
| Normal (a : A)
| Throw (e : thrown).
Arguments Normal {A} a.
Arguments Throw {A} e.

(** White space and line terminators removed by [String.prototype.trim]
    (those below code unit 256). *)
Definition isWhiteSpace (c : ascii) : bool :=
  existsb (N.eqb (N_of_ascii c)) [9; 10; 11; 12; 13; 32; 160]%N.

Fixpoint trimStart (s : string) : string :=
  match s with
  | EmptyString => EmptyString
  | String c r => if isWhiteSpace c then trimStart r else s
  end.

Fixpoint trimEnd (s : string) : string :=
  match s with
  | EmptyString => EmptyString
  | String c r =>
      match trimEnd r with
      | EmptyString => if isWhiteSpace c then EmptyString else String c EmptyString
      | r' => String c r'
      end
  end.

Definition trim (s : string) : string := trimEnd (trimStart s).

(** A string none of whose characters [trim] would remove. *)
Fixpoint noWhiteSpace (s : string) : bool :=
  match s with
  | EmptyString => true
  | String c r => negb (isWhiteSpace c) && noWhiteSpace r
  end.

(** Truthiness of a string: [!s] holds exactly for the empty string. *)
Definition truthy (s : string) : bool :=
  match s with
  | EmptyString => false
  | String _ _ => true
  end.

(** [toLowerCase] on the ASCII letters; other characters are kept. *)
Definition lowerChar (c : ascii) : ascii :=
  let n := N_of_ascii c in
  if ((65 <=? n) && (n <=? 90))%N then ascii_of_N (n + 32) else c.

Fixpoint toLowerCase (s : string) : string :=
  match s with
  | EmptyString => EmptyString
  | String c r => String (lowerChar c) (toLowerCase r)
  end.

(** [hay.includes(needle)] *)
Fixpoint includes (hay needle : string) : bool :=
  String.prefix needle hay
  || match hay with
     | EmptyString => false
     | String _ r => includes r needle
     end.

(** [s.slice(0, n)] for [0 <= n] and [s.slice(-n)] for [0 < n]. *)
Definition sliceTo (n : nat) (s : string) : string := String.substring 0 n s.
Definition sliceLast (n : nat) (s : string) : string :=
  String.substring (String.length s - n) n s.

(** Decimal rendering of an integer: [String(n)] for an integer-valued
    number and [BigInt.prototype.toString]. *)
Definition Z_toString (z : Z) : string := NilZero.string_of_int (Z.to_int z).

(** *** [BigInt(string)] (StringToBigInt) *)

Definition digitValue (c : ascii) : option Z :=
  let n := N_of_ascii c in
  if ((48 <=? n) && (n <=? 57))%N then Some (Z.of_N (n - 48))
  else if ((97 <=? n) && (n <=? 122))%N then Some (Z.of_N (n - 87))
  else if ((65 <=? n) && (n <=? 90))%N then Some (Z.of_N (n - 55))
  else None.

(** Value of a digit string in the given radix, most significant digit
    first; [None] when a character is not a digit of that radix. *)
Fixpoint digitsValue (radix : Z) (acc : Z) (s : string) : option Z :=
  match s with
  | EmptyString => Some acc
  | String c r =>
      match digitValue c with
      | Some d => if d <? radix then digitsValue radix (radix * acc + d) r else None
      | None => None
      end
  end.

Definition nonEmptyDigits (radix : Z) (s : string) : option Z :=
  match s with
  | EmptyString => None
  | _ => digitsValue radix 0 s
  end.

(** The literal is trimmed; the empty literal is [0n]; a radix prefix
    admits no sign; anything else is a [SyntaxError] ([None]). *)
Definition parseBigInt (s : string) : option Z :=
  match trim s with
  | EmptyString => Some 0
  | String "0" (String ("x" | "X") r) => nonEmptyDigits 16 r
  | String "0" (String ("o" | "O") r) => nonEmptyDigits 8 r
  | String "0" (String ("b" | "B") r) => nonEmptyDigits 2 r
  | String "+" r => nonEmptyDigits 10 r
  | String "-" r => option_map Z.opp (nonEmptyDigits 10 r)
  | t => nonEmptyDigits 10 t
  end.

Definition BigInt (s : string) : completion Z :=
  match parseBigInt s with
  | Some z => Normal z
  | None => Throw (ErrorObj ("Cannot convert " ++ s ++ " to a BigInt")%string)
  end.

(** [a || b] on strings. *)
Definition orElse (a b : string) : string := if truthy a then a else b.

Definition bindC {A B : Type} (c : completion A) (k : A -> completion B) : completion B :=
  match c with
  | Normal a => k a
  | Throw e => Throw e
  end.

(** [try { c } catch (error) { handler error }] without outside calls. *)
Definition catchC {A : Type} (c : completion A) (handler : thrown -> completion A)
  : completion A :=
  match c with
  | Normal a => Normal a
  | Throw e => handler e
  end.

End JS.

Import JS.

(* ================================================================= *)
(** ** Effects: calls to the outside world, with exceptions

    A computation receives the log of the outside calls made so far and
    returns its completion together with the extended log.  The reply to
    a call is supplied by the caller's oracle, which may depend on the
    position of the call in the log. *)

Module Eff.
Section WithCalls.
Context {E : Type}.

Definition M (A : Type) : Type := list E -> completion A * list E.

Definition ret {A} (a : A) : M A := fun log => (Normal a, log).
Definition throw {A} (e : thrown) : M A := fun log => (Throw e, log).
Definition lift {A} (c : completion A) : M A := fun log => (c, log).

Definition bind {A B} (m : M A) (k : A -> M B) : M B :=
  fun log =>
    match m log with
    | (Normal a, log') => k a log'
    | (Throw e, log') => (Throw e, log')
    end.

(** [try { m } catch (error) { handler error }] *)
Definition tryCatch {A} (m : M A) (handler : thrown -> M A) : M A :=
  fun log =>
    match m log with
    | (Normal a, log') => (Normal a, log')
    | (Throw e, log') => handler e log'
    end.

(** An outside call [e] answered by [reply], which sees how many
    calls came before. *)
Definition call {R} (e : E) (reply : nat -> R) : M R :=
  fun log => (Normal (reply (List.length log)), log ++ [e]).

(** [await Promise.all(xs.map(f))] where no [f x] shares state with
    another: the calls are issued in list order. *)
Fixpoint mapM {A B} (f : A -> M B) (xs : list A) : M (list B) :=
  match xs with
  | [] => ret []
  | x :: r =>
      bind (f x) (fun y => bind (mapM f r) (fun ys => ret (y :: ys)))
  end.
End WithCalls.
Arguments M : clear implicits.
End Eff.

Import Eff.

Declare Scope eff_scope.
Delimit Scope eff_scope with eff.
Notation "x <- m ;; k" := (bind m (fun x => k))
  (at level 61, m at next level, right associativity) : eff_scope.
Notation "x <-! c ;; k" := (bindC c (fun x => k))
  (at level 61, c at next level, right associativity) : eff_scope.
Open Scope eff_scope.

(* ================================================================= *)
(** ** CoW Protocol orderbook service ([services/cowApi]) and its hook *)

Module CowApi.

Record CowOrder : Type := {
  sellToken : string;
  buyToken : string;
  sellAmount : string;
  buyAmount : string;
  validTo : Z;
  appData : string;
  feeAmount : string;
  kind : string;
  partiallyFillable : bool;
  sellTokenBalance : string;
  buyTokenBalance : string;
  status : string;
  creationDate : string;
  class : string;
  owner : string;
  uid : string
}.

Inductive Direction : Type := sell | buy.

Record LiquidityData : Type := {
  totalLiquidity : string;
  orderCount : Z;
  direction : Direction
}.

Record PairLiquidity : Type := {
  tokenA : string;
  tokenB : string;
  liquidityAtoB : LiquidityData;
  liquidityBtoA : LiquidityData;
  timestamp : Z
}.

Definition COW_API_BASE : string := "https://api.cow.fi/mainnet/api/v1".

(** What [fetch(url)] yields: a rejection (network failure), or a
    response with its [ok] flag, its [status] and what [response.json()]
    gives: a throw on a malformed body, else the decoded [CowOrder[]],
    [None] standing for [null]. *)
Inductive FetchReply : Type :=
| Rejected (e : thrown)
| Response (ok : bool) (status : Z) (json : completion (option (list CowOrder))).

(** The callback of the [reduce] in [calculateLiquidity]; [BigInt] throws
    on a literal that is no integer, and a throw ends the reduction. *)
Definition addAmount (sum : completion Z) (order : CowOrder) : completion Z :=
  sum <-! sum ;;
  amount <-! BigInt (orElse (sellAmount order) "0") ;;
  Normal (sum + amount).

Definition calculateLiquidity (orders : list CowOrder) : completion LiquidityData :=
  totalLiquidity <-! fold_left addAmount orders (Normal 0) ;;
  Normal {| totalLiquidity := Z_toString totalLiquidity;
            orderCount := Z.of_nat (List.length orders);
            direction := sell |}.

(** A reply that is an upstream failure: no response, a status that is
    not [ok], or a body that does not decode. *)
Definition upstreamFailed (reply : FetchReply) : bool :=
  match reply with
  | Rejected _ => true
  | Response ok _ json =>
      negb ok || match json with Throw _ => true | Normal _ => false end
  end.

(** The orders a reply carries ([null] carries none). *)
Definition deliveredOrders (reply : FetchReply) : list CowOrder :=
  match reply with
  | Response true _ (Normal (Some orders)) => orders
  | _ => []
  end.

Definition zeroLiquidity : LiquidityData :=
  {| totalLiquidity := "0"; orderCount := 0; direction := sell |}.

(** The pair [fetchPairLiquidity] builds from the two directions, [None]
    ([null]) when one of them threw. *)
Definition pairOf (now : Z) (tokenA tokenB : string) (ab ba : completion LiquidityData)
  : option PairLiquidity :=
  match ab, ba with
  | Normal ab, Normal ba =>
      Some {| tokenA := tokenA; tokenB := tokenB;
              liquidityAtoB := ab; liquidityBtoA := ba; timestamp := now |}
  | _, _ => None
  end.

Section WithNetwork.
(** The orderbook API: the reply to the [n]-th request, by URL. *)
Variable network : nat -> string -> FetchReply.
(** [Date.now()] *)
Variable now : Z.

Definition fetch (url : string) : M string FetchReply :=
  call url (fun n => network n url).

Definition ordersUrl (sellToken buyToken : string) : string :=
  (COW_API_BASE ++ "/orders?sellToken=" ++ sellToken ++ "&buyToken=" ++ buyToken)%string.

Definition fetchOrders (sellToken buyToken : string) : M string (list CowOrder) :=
  tryCatch
    (let url := ordersUrl sellToken buyToken in
     response <- fetch url ;;
     match response with
     | Rejected e => throw e
     | Response ok status json =>
         if negb ok
         then throw (ErrorObj ("HTTP error! status: " ++ Z_toString status)%string)
         else
           data <- lift json ;;
           ret (match data with Some orders => orders | None => [] end)
     end)
    (fun error => ret []).

Definition fetchPairLiquidity (tokenA tokenB : string)
  : M string (option PairLiquidity) :=
  tryCatch
    (ordersAtoB <- fetchOrders tokenA tokenB ;;
     ordersBtoA <- fetchOrders tokenB tokenA ;;
     liquidityAtoB <- lift (calculateLiquidity ordersAtoB) ;;
     liquidityBtoA <- lift (calculateLiquidity ordersBtoA) ;;
     ret (Some {| tokenA := tokenA;
                  tokenB := tokenB;
                  liquidityAtoB := liquidityAtoB;
                  liquidityBtoA := liquidityBtoA;
                  timestamp := now |}))
    (fun error => ret None).

(** *** The polling hook [useOrderbookLiquidity] *)

Record HookState : Type := {
  liquidity : option PairLiquidity;
  loading : bool;
  error : option string
}.

(** One run of the [fetchLiquidity] callback, from state [st]. *)
Definition fetchLiquidity (tokenA tokenB : option string) (chainId : Z)
    (enabled : bool) (st : HookState) : M string HookState :=
  let isMainnet := chainId =? 1 in
  match tokenA, tokenB with
  | Some a, Some b =>
      if negb (truthy a) || negb (truthy b) || negb isMainnet || negb enabled
      then ret {| liquidity := None; loading := loading st; error := None |}
      else
        st' <- tryCatch
          (data <- fetchPairLiquidity a b ;;
           ret {| liquidity := data;
                  loading := true;
                  error := match data with
                           | Some _ => None
                           | None => Some "No liquidity data available"
                           end |})
          (fun err =>
             ret {| liquidity := None;
                    loading := true;
                    error := Some "Failed to fetch liquidity data" |}) ;;
        ret {| liquidity := liquidity st'; loading := false; error := error st' |}
  | _, _ => ret {| liquidity := None; loading := loading st; error := None |}
  end.

End WithNetwork.

End CowApi.

(* ================================================================= *)
(** ** Subgraph configuration ([lib/uniswap/subgraphs.ts]) *)

Module Subgraphs.

Inductive VaultoChainId : Type :=
| ETHEREUM | OPTIMISM | BSC | POLYGON | ARBITRUM | AVALANCHE
| BASE | CELO | BLAST | SEPOLIA | ARBITRUM_SEPOLIA.

(** The numeric value of an enum member; at run time a chain id is this
    number. *)
Definition toNumber (c : VaultoChainId) : Z :=
  match c with
  | ETHEREUM => 1
  | OPTIMISM => 10
  | BSC => 56
  | POLYGON => 137
  | ARBITRUM => 42161
  | AVALANCHE => 43114
  | BASE => 8453
  | CELO => 42220
  | BLAST => 81457
  | SEPOLIA => 11155111
  | ARBITRUM_SEPOLIA => 421614
  end.

(** The reverse mapping [VaultoChainId[n]] of the enum object. *)
Definition memberName (c : VaultoChainId) : string :=
  match c with
  | ETHEREUM => "ETHEREUM"
  | OPTIMISM => "OPTIMISM"
  | BSC => "BSC"
  | POLYGON => "POLYGON"
  | ARBITRUM => "ARBITRUM"
  | AVALANCHE => "AVALANCHE"
  | BASE => "BASE"
  | CELO => "CELO"
  | BLAST => "BLAST"
  | SEPOLIA => "SEPOLIA"
  | ARBITRUM_SEPOLIA => "ARBITRUM_SEPOLIA"
  end.

(** The registry object, as its entries in declaration order. *)
Definition UNISWAP_V3_SUBGRAPH_IDS : list (VaultoChainId * string) :=
  [ (ETHEREUM, "5zvR82QoaXYFyDEKLZ9t6v9adgnptxYpKpSbxtgVENFV");
    (OPTIMISM, "Cghf4LfVqPiFw6fp6Y5X5Ubc8UpmUhSfJL82zwiBFLaj");
    (BSC, "F85MNzUGYqgSHSHRGgeVMNsdnW1KtZSVgFULumXRZTw2");
    (POLYGON, "3hCPRGf4z88VC5rsBKU5AA9FBBq5nF3jbKJG7VZCbhjm");
    (ARBITRUM, "3V7ZY6muhxaQL5qvntX1CFXJ32W7BxXZTGTwmpH5J4t3");
    (AVALANCHE, "GVH9h9KZ9CqheUEL93qMbq7QwgoBu32QXQDPR6bev4Eo");
    (BASE, "43Hwfi3dJSoGpyas9VwNoDAv55yjgGrPpNSmbQZArzMG");
    (CELO, "ESdrTJ3twMwWVoQ1hUE2u7PugEHX3QkenudD6aXCkDQ4");
    (BLAST, "2LHovKznvo8YmKC9ZprPjsYAZDCc4K5q4AYz8s3cnQn1");
    (SEPOLIA, "");
    (ARBITRUM_SEPOLIA, "") ].

(** [UNISWAP_V3_SUBGRAPH_IDS[chainId]]: the entry of that key, if any
    ([None] is [undefined]). *)
Definition lookup (chainId : Z) : option (VaultoChainId * string) :=
  find (fun entry => toNumber (fst entry) =? chainId) UNISWAP_V3_SUBGRAPH_IDS.

Definition subgraphIdOf (chainId : Z) : option string := option_map snd (lookup chainId).

(** [chainId in UNISWAP_V3_SUBGRAPH_IDS] *)
Definition hasKey (chainId : Z) : bool :=
  match lookup chainId with
  | Some _ => true
  | None => false
  end.

(** Truthiness of [UNISWAP_V3_SUBGRAPH_IDS[chainId]]. *)
Definition hasSubgraphId (chainId : Z) : bool :=
  match subgraphIdOf chainId with
  | Some id => truthy id
  | None => false
  end.

Definition isChainSupported (chainId : Z) : bool :=
  hasKey chainId && hasSubgraphId chainId.

Section WithEnvironment.
(** [process.env.THE_GRAPH_API_KEY] *)
Variable THE_GRAPH_API_KEY : option string.

Definition getGraphApiKey : completion string :=
  match THE_GRAPH_API_KEY with
  | Some apiKey =>
      if truthy apiKey then Normal apiKey
      else Throw (ErrorObj
        ("THE_GRAPH_API_KEY environment variable is required. " ++
         "Get your API key from https://thegraph.com/studio/apikeys/ " ++
         "and add it to your .env.local file.")%string)
  | None => Throw (ErrorObj
        ("THE_GRAPH_API_KEY environment variable is required. " ++
         "Get your API key from https://thegraph.com/studio/apikeys/ " ++
         "and add it to your .env.local file.")%string)
  end.

Definition buildSubgraphUrl (subgraphId : string) : completion string :=
  apiKey <-! getGraphApiKey ;;
  Normal ("https://gateway.thegraph.com/api/" ++ apiKey ++ "/subgraphs/id/" ++ subgraphId)%string.

Definition getSubgraphUrl (chainId : Z) : completion string :=
  match subgraphIdOf chainId with
  | Some subgraphId =>
      if truthy subgraphId then buildSubgraphUrl subgraphId else Normal ""
  | None => Normal ""
  end.

(** [Object.keys] lists integer keys in ascending order. *)
Definition keysAscending : list VaultoChainId :=
  [ETHEREUM; OPTIMISM; BSC; POLYGON; BASE; ARBITRUM; CELO; AVALANCHE; BLAST;
   ARBITRUM_SEPOLIA; SEPOLIA].

Definition supportedChains : string :=
  String.concat ", "
    (map memberName
       (filter (fun k => hasSubgraphId (toNumber k)) keysAscending)).

Definition getUniswapV3SubgraphEndpoint (chainId : Z) : completion string :=
  url <-! getSubgraphUrl chainId ;;
  if truthy url then Normal url
  else Throw (ErrorObj
    ("No Uniswap v3 subgraph configured for chainId=" ++ Z_toString chainId ++ ". " ++
     "Supported chains: " ++ supportedChains)%string).

End WithEnvironment.

End Subgraphs.

(* ================================================================= *)
(** ** GraphQL client ([lib/uniswap/client.ts]) *)

Module Client.

(** The [variables] objects the two services pass. *)
Inductive Variables : Type :=
| TokenSearchVars (text : string) (first : Z)
| PoolsForTokenVars (token : string) (first : Z).

(** One invocation of the subgraph query function. *)
Record Invocation : Type := {
  inv_chainId : Z;
  inv_query : string;
  inv_variables : Variables
}.

(** Entities of the payload are untyped ([any]) in the source; each field
    is kept as an optional decoded value, [None] standing for a value
    that is absent or falsy (so that [f || d] is [d]). *)
Module RawToken.
Record t : Type := {
  id : option string;
  symbol : option string;
  name : option string;
  decimals : option Z;
  volumeUSD : option Q;
  totalValueLockedUSD : option Q
}.
End RawToken.

Module RawPoolToken.
Record t : Type := {
  id : option string;
  symbol : option string;
  name : option string;
  decimals : option Z
}.
End RawPoolToken.

Module RawPool.
Record t : Type := {
  id : option string;
  feeTier : option Z;
  liquidity : option string;
  sqrtPrice : option string;
  tick : option Z;
  totalValueLockedUSD : option Q;
  volumeUSD : option Q;
  token0 : option RawPoolToken.t;
  token1 : option RawPoolToken.t
}.
End RawPool.

(** The [data] payload; a field the reply lacks is [None]. *)
Record Data : Type := {
  tokens : option (list RawToken.t);
  pools : option (list RawPool.t)
}.

(** [GraphQLResponse<T>]; of each error only the message is read. *)
Record GraphQLResponse : Type := {
  data : option Data;
  errors : option (list string)
}.

(** What [fetch(endpoint, ...)] yields: a rejection (network failure or
    the 10 s timeout), or a response. *)
Inductive FetchReply : Type :=
| Rejected (e : thrown)
| Response (ok : bool) (status : Z) (statusText : string)
    (text : completion string) (json : completion GraphQLResponse).

Section WithEnvironment.
Variable THE_GRAPH_API_KEY : option string.
(** The indexer: the reply to the fetch of the [n]-th invocation. *)
Variable network : nat -> string -> string -> Variables -> FetchReply.

(** The body of [queryUniswapV3Subgraph] for the [n]-th invocation: the
    endpoint is resolved outside the [try]; inside it the reply to the
    fetch is examined, and an [Error] is thrown again with more context. *)
Definition queryResult (n : nat) (chainId : Z) (query : string)
    (variables : Variables) : completion Data :=
  endpoint <-! Subgraphs.getUniswapV3SubgraphEndpoint THE_GRAPH_API_KEY chainId ;;
  catchC
    (match network n endpoint query variables with
     | Rejected e => Throw e
     | Response ok status statusText text json =>
         if negb ok
         then
           let errorText := match text with Normal t => t | Throw _ => statusText end in
           Throw (ErrorObj ("Uniswap subgraph HTTP error: " ++ Z_toString status ++ " " ++
                            statusText ++ ". " ++ errorText)%string)
         else
           json <-! json ;;
           match errors json with
           | Some (e :: es) =>
               let errorMessages := String.concat ", " (e :: es) in
               Throw (ErrorObj ("Uniswap subgraph GraphQL error: " ++ errorMessages ++ ". " ++
                                "Query: " ++ String.substring 0 100 query ++ "...")%string)
           | _ =>
               match data json with
               | None => Throw (ErrorObj "Uniswap subgraph returned no data")
               | Some d => Normal d
               end
           end
     end)
    (fun error =>
       match error with
       | ErrorObj message =>
           Throw (ErrorObj ("Failed to query Uniswap v3 subgraph for chain " ++
                            Z_toString chainId ++ ": " ++ message)%string)
       | NonError => Throw error
       end).

(** An invocation is recorded in the log, whatever its outcome. *)
Definition queryUniswapV3Subgraph (chainId : Z) (query : string)
    (variables : Variables) : M Invocation Data :=
  n <- call {| inv_chainId := chainId; inv_query := query; inv_variables := variables |}
            (fun n => n) ;;
  lift (queryResult n chainId query variables).

End WithEnvironment.

End Client.

(* ================================================================= *)
(** ** Token search ([lib/uniswap/tokenSearch.ts]) *)

Module TokenSearch.

Record UniswapToken : Type := {
  address : string;
  symbol : string;
  name : string;
  decimals : Z;
  tvlUSD : Q;
  volumeUSD : Q
}.

Record TokenSearchResult : Type := {
  chainId : Z;
  tokens : list UniswapToken
}.

Definition TOKEN_SEARCH_QUERY : string := "
  query TokenSearch($text: String!, $first: Int!) {
    tokens(
      where: {
        or: [
          { symbol_contains_nocase: $text }
          { name_contains_nocase: $text }
        ]
      }
      orderBy: totalValueLockedUSD
      orderDirection: desc
      first: $first
    ) {
      id
      symbol
      name
      decimals
      volumeUSD
      totalValueLockedUSD
    }
  }
".

Definition orDefault {A} (field : option A) (d : A) : A :=
  match field with
  | Some v => v
  | None => d
  end.

Definition toUniswapToken (t : Client.RawToken.t) : UniswapToken :=
  {| address := toLowerCase (orDefault (Client.RawToken.id t) "");
     symbol := orDefault (Client.RawToken.symbol t) "";
     name := orDefault (Client.RawToken.name t) "";
     decimals := orDefault (Client.RawToken.decimals t) 18;
     tvlUSD := orDefault (Client.RawToken.totalValueLockedUSD t) 0%Q;
     volumeUSD := orDefault (Client.RawToken.volumeUSD t) 0%Q |}.

(** The tokens [searchTokens] returns for an outcome of its query. *)
Definition foundTokens (outcome : completion Client.Data) : list UniswapToken :=
  match outcome with
  | Normal data => map toUniswapToken (orDefault (Client.tokens data) [])
  | Throw _ => []
  end.

Section WithEnvironment.
Variable THE_GRAPH_API_KEY : option string.
Variable network : nat -> string -> string -> Client.Variables -> Client.FetchReply.

Definition searchTokens (chainId : Z) (text : string) (limit : Z)
  : M Client.Invocation TokenSearchResult :=
  if negb (truthy (trim text))
  then ret {| chainId := chainId; tokens := [] |}
  else
    tryCatch
      (data <- Client.queryUniswapV3Subgraph THE_GRAPH_API_KEY network
                 chainId TOKEN_SEARCH_QUERY
                 (Client.TokenSearchVars (trim text) (Z.min limit 100)) ;;
       let tokens := map toUniswapToken (orDefault (Client.tokens data) []) in
       ret {| chainId := chainId; tokens := tokens |})
      (fun error => ret {| chainId := chainId; tokens := [] |}).

End WithEnvironment.

End TokenSearch.

(* ================================================================= *)
(** ** Pools of a token ([lib/uniswap/pools.ts]) *)

Module Pools.

Import TokenSearch(orDefault).

Module UniswapPoolToken.
Record t : Type := {
  address : string;
  symbol : string;
  name : string;
  decimals : Z
}.
End UniswapPoolToken.

Module UniswapPool.
Record t : Type := {
  poolAddress : string;
  chainId : Z;
  feeTierBps : Z;
  liquidity : string;
  sqrtPrice : string;
  tick : option Z;
  tvlUSD : Q;
  volumeUSD : Q;
  token0 : UniswapPoolToken.t;
  token1 : UniswapPoolToken.t
}.
End UniswapPool.

Record TokenPoolsResult : Type := {
  chainId : Z;
  tokenAddress : string;
  pools : list UniswapPool.t
}.

Definition POOLS_FOR_TOKEN_QUERY : string := "
  query PoolsForToken($token: String!, $first: Int!) {
    pools(
      where: {
        or: [
          { token0: $token }
          { token1: $token }
        ]
      }
      orderBy: totalValueLockedUSD
      orderDirection: desc
      first: $first
    ) {
      id
      feeTier
      liquidity
      sqrtPrice
      tick
      totalValueLockedUSD
      volumeUSD
      token0 {
        id
        symbol
        name
        decimals
      }
      token1 {
        id
        symbol
        name
        decimals
      }
    }
  }
".

(** [p.token0?.f || d]: the token itself may be missing. *)
Definition toPoolToken (tok : option Client.RawPoolToken.t) : UniswapPoolToken.t :=
  let field {A} (f : Client.RawPoolToken.t -> option A) : option A :=
    match tok with
    | Some t => f t
    | None => None
    end in
  {| UniswapPoolToken.address := toLowerCase (orDefault (field Client.RawPoolToken.id) "");
     UniswapPoolToken.symbol := orDefault (field Client.RawPoolToken.symbol) "";
     UniswapPoolToken.name := orDefault (field Client.RawPoolToken.name) "";
     UniswapPoolToken.decimals := orDefault (field Client.RawPoolToken.decimals) 18 |}.

Definition toUniswapPool (chainId : Z) (p : Client.RawPool.t) : UniswapPool.t :=
  {| UniswapPool.poolAddress := toLowerCase (orDefault (Client.RawPool.id p) "");
     UniswapPool.chainId := chainId;
     UniswapPool.feeTierBps := orDefault (Client.RawPool.feeTier p) 0;
     UniswapPool.liquidity := orDefault (Client.RawPool.liquidity p) "0";
     UniswapPool.sqrtPrice := orDefault (Client.RawPool.sqrtPrice p) "0";
     UniswapPool.tick := Client.RawPool.tick p;
     UniswapPool.tvlUSD := orDefault (Client.RawPool.totalValueLockedUSD p) 0%Q;
     UniswapPool.volumeUSD := orDefault (Client.RawPool.volumeUSD p) 0%Q;
     UniswapPool.token0 := toPoolToken (Client.RawPool.token0 p);
     UniswapPool.token1 := toPoolToken (Client.RawPool.token1 p) |}.

(** The pools [getPoolsForToken] returns for an outcome of its query. *)
Definition foundPools (chainId : Z) (outcome : completion Client.Data) : list UniswapPool.t :=
  match outcome with
  | Normal data => map (toUniswapPool chainId) (orDefault (Client.pools data) [])
  | Throw _ => []
  end.

Section WithEnvironment.
Variable THE_GRAPH_API_KEY : option string.
Variable network : nat -> string -> string -> Client.Variables -> Client.FetchReply.

Definition getPoolsForToken (chainId : Z) (tokenAddress : string) (limit : Z)
  : M Client.Invocation TokenPoolsResult :=
  let token := toLowerCase tokenAddress in
  tryCatch
    (data <- Client.queryUniswapV3Subgraph THE_GRAPH_API_KEY network
               chainId POOLS_FOR_TOKEN_QUERY
               (Client.PoolsForTokenVars token (Z.min limit 100)) ;;
     let pools := map (toUniswapPool chainId) (orDefault (Client.pools data) []) in
     ret {| chainId := chainId; tokenAddress := token; pools := pools |})
    (fun error => ret {| chainId := chainId; tokenAddress := token; pools := [] |}).

End WithEnvironment.

End Pools.

(* ================================================================= *)
(** ** Liquidity aggregation endpoint ([app/api/uniswap/liquidity/route.ts]) *)

Module Route.

Import Subgraphs TokenSearch.

(** A decoded JSON value.  Numbers are integers, which is what a chain id
    is; an object is the list of its members in source order. *)
#[warnings="-register-all"]
Inductive JsValue : Type :=
| JNull
| JBool (b : bool)
| JNumber (n : Z)
| JString (s : string)
| JArray (items : list JsValue)
| JObject (members : list (string * JsValue)).

(** [v.key] for a non-null [v]; [None] is [undefined].  Of members with
    the same key the last one counts; only objects carry the keys read
    here. *)
Definition property (v : JsValue) (key : string) : option JsValue :=
  match v with
  | JObject members =>
      option_map snd (find (fun m => String.eqb (fst m) key) (rev members))
  | _ => None
  end.

(** The request as the handler sees it: the outcome of [request.json()]. *)
Record NextRequest : Type := { json : completion JsValue }.

Module PoolToken.
Record t : Type := {
  address : string;
  symbol : string;
  name : string;
  decimals : Z
}.
End PoolToken.

Module Pool.
Record t : Type := {
  poolAddress : string;
  feeTierBps : Z;
  tvlUSD : Q;
  volumeUSD : Q;
  token0 : PoolToken.t;
  token1 : PoolToken.t
}.
End Pool.

Module TokenWithPools.
Record t : Type := {
  address : string;
  symbol : string;
  name : string;
  decimals : Z;
  tvlUSD : Q;
  volumeUSD : Q;
  pools : list Pool.t
}.
End TokenWithPools.

(** The JSON body of a response; a member that the handler does not set
    is [None]. *)
Record Body : Type := {
  error : option string;
  chainId : option Z;
  tokens : option (list TokenWithPools.t)
}.

Record NextResponse : Type := {
  status : Z;
  body : Body
}.

(** [{ ...token, pools }] *)
Definition withPools (token : UniswapToken) (pools : list Pool.t) : TokenWithPools.t :=
  {| TokenWithPools.address := address token;
     TokenWithPools.symbol := symbol token;
     TokenWithPools.name := name token;
     TokenWithPools.decimals := decimals token;
     TokenWithPools.tvlUSD := tvlUSD token;
     TokenWithPools.volumeUSD := volumeUSD token;
     TokenWithPools.pools := pools |}.

Definition toPoolToken (t : Pools.UniswapPoolToken.t) : PoolToken.t :=
  {| PoolToken.address := Pools.UniswapPoolToken.address t;
     PoolToken.symbol := Pools.UniswapPoolToken.symbol t;
     PoolToken.name := Pools.UniswapPoolToken.name t;
     PoolToken.decimals := Pools.UniswapPoolToken.decimals t |}.

Definition toPool (pool : Pools.UniswapPool.t) : Pool.t :=
  {| Pool.poolAddress := Pools.UniswapPool.poolAddress pool;
     Pool.feeTierBps := Pools.UniswapPool.feeTierBps pool;
     Pool.tvlUSD := Pools.UniswapPool.tvlUSD pool;
     Pool.volumeUSD := Pools.UniswapPool.volumeUSD pool;
     Pool.token0 := toPoolToken (Pools.UniswapPool.token0 pool);
     Pool.token1 := toPoolToken (Pools.UniswapPool.token1 pool) |}.

(** [tokens.sort((a, b) => b.tvlUSD - a.tvlUSD)]: the stable sort, largest
    TVL first.  [a] stays ahead of [b] when [b.tvlUSD - a.tvlUSD <= 0].
    (Amounts are rationals: a TVL that is [NaN] has no counterpart.) *)
Fixpoint insertByTvl (a : UniswapToken) (sorted : list UniswapToken) : list UniswapToken :=
  match sorted with
  | [] => [a]
  | b :: rest =>
      if Qle_bool (tvlUSD b) (tvlUSD a) then a :: b :: rest
      else b :: insertByTvl a rest
  end.

Definition sortByTvlDesc (tokens : list UniswapToken) : list UniswapToken :=
  fold_right insertByTvl [] tokens.

(** [parseInt(s, 10)]: leading white space, an optional sign, then the
    longest run of decimal digits; [None] is [NaN]. *)
Fixpoint leadingDigits (acc : option Z) (s : string) : option Z :=
  match s with
  | EmptyString => acc
  | String c r =>
      match digitValue c with
      | Some d =>
          if d <? 10
          then leadingDigits (Some (10 * match acc with Some a => a | None => 0 end + d)) r
          else acc
      | None => acc
      end
  end.

Definition parseInt (s : string) : option Z :=
  match trimStart s with
  | String "-" r => option_map Z.opp (leadingDigits None r)
  | String "+" r => leadingDigits None r
  | t => leadingDigits None t
  end.

(** Whether a string begins with a decimal digit. *)
Definition startsWithDigit (s : string) : bool :=
  match s with
  | EmptyString => false
  | String c _ =>
      match digitValue c with
      | Some d => d <? 10
      | None => false
      end
  end.

(** The request of the GET entry point: what [searchParams.get] returns
    for the two parameters ([None] is [null]). *)
Record GetRequest : Type := {
  chainIdParam : option string;
  queryParam : option string
}.

(** The body object GET hands to the POST handler. *)
Definition bodyOf (chainId : Z) (query : string) : JsValue :=
  JObject [("chainId", JNumber chainId); ("query", JString query)].

Definition respond (status : Z) (body : Body) : NextResponse :=
  {| status := status; body := body |}.

Definition errorOnly (message : string) : Body :=
  {| error := Some message; chainId := None; tokens := None |}.

Section WithEnvironment.
Variable THE_GRAPH_API_KEY : option string.
Variable network : nat -> string -> string -> Client.Variables -> Client.FetchReply.

Let searchTokens := TokenSearch.searchTokens THE_GRAPH_API_KEY network.
Let getPoolsForToken := Pools.getPoolsForToken THE_GRAPH_API_KEY network.

(** The callback mapped over the sorted tokens. *)
Definition enrich (chainId : Z) (token : UniswapToken)
  : M Client.Invocation TokenWithPools.t :=
  tryCatch
    (poolsResult <- getPoolsForToken chainId (address token) 10 ;;
     let pools := map toPool (Pools.pools poolsResult) in
     ret (withPools token pools))
    (fun error => ret (withPools token [])).

Definition POST (request : NextRequest) : M Client.Invocation NextResponse :=
  tryCatch
    (body <- lift (json request) ;;
     match body with
     | JNull =>
         throw (ErrorObj "Cannot destructure property 'chainId' of 'body' as it is null.")
     | _ =>
         match property body "chainId" with
         | Some (JNumber chainId) =>
             if negb (isChainSupported chainId)
             then ret (respond 400
                    {| error := Some ("Chain " ++ Z_toString chainId ++
                                      " is not supported for Uniswap v3 queries")%string;
                       chainId := Some chainId;
                       tokens := Some [] |})
             else
               match property body "query" with
               | Some (JString query) =>
                   searchResult <- searchTokens chainId query 10 ;;
                   match TokenSearch.tokens searchResult with
                   | [] => ret (respond 200
                             {| error := None; chainId := Some chainId; tokens := Some [] |})
                   | _ :: _ =>
                       let sortedTokens :=
                         firstn 10 (sortByTvlDesc (TokenSearch.tokens searchResult)) in
                       tokensWithPools <- mapM (enrich chainId) sortedTokens ;;
                       ret (respond 200
                              {| error := None;
                                 chainId := Some chainId;
                                 tokens := Some tokensWithPools |})
                   end
               | _ => ret (respond 400 (errorOnly "query must be a string"))
               end
         | _ => ret (respond 400 (errorOnly "chainId must be a number"))
         end
     end)
    (fun error =>
       let errorMessage := messageOr "Internal server error" error in
       ret (respond 500
              {| error := Some errorMessage; chainId := Some 0; tokens := Some [] |})).

Definition GET (request : GetRequest) : M Client.Invocation NextResponse :=
  tryCatch
    (match chainIdParam request with
     | None | Some EmptyString =>
         ret (respond 400 (errorOnly "chainId query parameter is required"))
     | Some chainIdParam =>
         match queryParam request with
         | None | Some EmptyString =>
             ret (respond 400 (errorOnly "query parameter is required"))
         | Some query =>
             match parseInt chainIdParam with
             | None => ret (respond 400 (errorOnly "chainId must be a valid number"))
             | Some chainId =>
                 let body := bodyOf chainId query in
                 let mockRequest := {| json := Normal body |} in
                 POST mockRequest
             end
         end
     end)
    (fun error =>
       let errorMessage := messageOr "Internal server error" error in
       ret (respond 500
              {| error := Some errorMessage; chainId := Some 0; tokens := Some [] |})).

(** The pool query issued for [token], and what the endpoint keeps of its
    outcome when it is the [n]-th invocation. *)
Definition poolsInvocation (chainId : Z) (token : UniswapToken) : Client.Invocation :=
  {| Client.inv_chainId := chainId;
     Client.inv_query := Pools.POOLS_FOR_TOKEN_QUERY;
     Client.inv_variables :=
       Client.PoolsForTokenVars (toLowerCase (address token)) (Z.min 10 100) |}.

Definition poolsAt (n : nat) (chainId : Z) (token : UniswapToken) : list Pool.t :=
  map toPool
    (Pools.foundPools chainId
       (Client.queryResult THE_GRAPH_API_KEY network n chainId
          Pools.POOLS_FOR_TOKEN_QUERY
          (Client.PoolsForTokenVars (toLowerCase (address token)) (Z.min 10 100)))).

Fixpoint enrichedFrom (n : nat) (chainId : Z) (batch : list UniswapToken)
  : list TokenWithPools.t :=
  match batch with
  | [] => []
  | token :: rest =>
      withPools token (poolsAt n chainId token) :: enrichedFrom (S n) chainId rest
  end.

End WithEnvironment.

End Route.

(* ================================================================= *)
(** ** Search orchestrator ([app/components/search/GlobalSearchBar.tsx]) *)

Module SearchBar.

Import Subgraphs.

(** [LiquidityPoolResult] and [LiquidityTokenResult] of
    [components/search/types.ts] have the shapes the endpoint serialises. *)
Definition LiquidityPoolResult : Type := Route.Pool.t.
Definition LiquidityTokenResult : Type := Route.TokenWithPools.t.

Record LiquidityApiResponse : Type := {
  chainId : Z;
  tokens : list LiquidityTokenResult;
  error : option string
}.

(** Modelled from the spec: the [Token] record of [@/config/tokens], which
    is not among the sources; it has the fields the orchestrator reads
    (symbol, name, address, an optional ticker, logo and tokenized-stock
    flag). *)
Module Token.
Record t : Type := {
  symbol : string;
  name : string;
  address : string;
  ticker : option string;
  logoURI : option string;
  isTokenizedStock : option bool
}.
End Token.

Inductive ResultType : Type :=
| token | address | transaction | ai_suggestion | command.

(** The [metadata] bag; a key that is not set is [None]. *)
Module Metadata.
Record t : Type := {
  address : option string;
  symbol : option string;
  name : option string;
  chainId : option Z;
  decimals : option Z;
  tvlUSD : option Q;
  volumeUSD : option Q;
  pools : option (list LiquidityPoolResult);
  isTokenizedStock : option bool;
  ticker : option string;
  topPool : option LiquidityPoolResult
}.
End Metadata.

(** What an [action] closure does when invoked, in order. *)
Inductive Effect : Type :=
| ConsoleLog (message : string) (subject : string)
| WindowOpen (url : string) (target : string)
| ScrollIntoView (elementId : string)
| SetIsOpen (open : bool)
| SetQuery (query : string).

Record SearchResult : Type := {
  id : string;
  type : ResultType;
  title : string;
  subtitle : option string;
  icon : option string;
  metadata : option Metadata.t;
  action : option (list Effect);
  score : option Q
}.

(** What an [ok] response decodes to, as far as the orchestrator reads
    it: a body of the declared type [LiquidityApiResponse]; [null]; or
    any other value without a token list (its [tokens] member is missing,
    [null], or no array), with its [error] member when that is a string.
    A body with a token list whose entries are not of the declared type
    has no counterpart. *)
Inductive TokensMember : Type :=
| NoMember
| NullMember
| NotAnArray.

Inductive Decoded : Type :=
| Declared (data : LiquidityApiResponse)
| NullBody
| NoTokenList (error : option string) (tokens : TokensMember).

(** The token list of a body, empty when the body has none. *)
Definition remoteTokens (body : Decoded) : list LiquidityTokenResult :=
  match body with
  | Declared data => tokens data
  | _ => []
  end.

(** The reply to [fetch("/api/uniswap/liquidity", ...)]: a rejection; a
    response that is not [ok], with its status and what [response.json()]
    gives (a throw, or the decoded value, which is read untyped); or an
    [ok] response with what [response.json()] gives. *)
Inductive ApiReply : Type :=
| Rejected (e : thrown)
| NotOk (status : Z) (errorData : completion Route.JsValue)
| Ok (data : completion Decoded).

(** Truthiness of a decoded value, and the string [new Error(v)] takes
    as its message ([Array.prototype.join] renders [null] as empty). *)
Definition truthyValue (v : Route.JsValue) : bool :=
  match v with
  | Route.JNull => false
  | Route.JBool b => b
  | Route.JNumber n => negb (n =? 0)
  | Route.JString s => truthy s
  | Route.JArray _ => true
  | Route.JObject _ => true
  end.

Fixpoint toStringValue (v : Route.JsValue) : string :=
  match v with
  | Route.JNull => "null"
  | Route.JBool true => "true"
  | Route.JBool false => "false"
  | Route.JNumber n => Z_toString n
  | Route.JString s => s
  | Route.JArray items =>
      String.concat ","
        (map (fun item =>
                match item with
                | Route.JNull => EmptyString
                | _ => toStringValue item
                end) items)
  | Route.JObject _ => "[object Object]"
  end.

(** [errorData.error || `HTTP error: ${response.status}`], as the message
    of the [Error] thrown for a response that is not [ok]; reading a
    member of [null] throws a [TypeError] instead. *)
Definition httpErrorOf (status : Z) (errorData : Route.JsValue) : thrown :=
  match errorData with
  | Route.JNull => ErrorObj "Cannot read properties of null (reading 'error')"
  | _ =>
      match Route.property errorData "error" with
      | Some v =>
          if truthyValue v then ErrorObj (toStringValue v)
          else ErrorObj ("HTTP error: " ++ Z_toString status)%string
      | None => ErrorObj ("HTTP error: " ++ Z_toString status)%string
      end
  end.

(** [fetchUniswapLiquidity], after its request was answered by [reply]. *)
Definition fetchUniswapLiquidity (chainId : Z) (reply : ApiReply) : Decoded :=
  let attempt : completion Decoded :=
    match reply with
    | Rejected e => Throw e
    | NotOk status errorData =>
        let errorData :=
          match errorData with
          | Normal v => v
          | Throw _ => Route.JObject []
          end in
        Throw (httpErrorOf status errorData)
    | Ok data => data
    end in
  match attempt with
  | Normal data => data
  | Throw error =>
      Declared
        {| chainId := chainId;
           tokens := [];
           error := Some (messageOr "Failed to fetch liquidity data" error) |}
  end.

(** [apiResponse.error] and [apiResponse.tokens.map] in [performSearch]:
    each throws a [TypeError] on a body that lacks what it reads. *)
Definition readError (apiResponse : Decoded) : completion (option string) :=
  match apiResponse with
  | Declared data => Normal (error data)
  | NullBody => Throw (ErrorObj "Cannot read properties of null (reading 'error')")
  | NoTokenList error _ => Normal error
  end.

Definition readTokens (apiResponse : Decoded) : completion (list LiquidityTokenResult) :=
  match apiResponse with
  | Declared data => Normal (tokens data)
  | NullBody => Throw (ErrorObj "Cannot read properties of null (reading 'tokens')")
  | NoTokenList _ NoMember =>
      Throw (ErrorObj "Cannot read properties of undefined (reading 'map')")
  | NoTokenList _ NullMember =>
      Throw (ErrorObj "Cannot read properties of null (reading 'map')")
  | NoTokenList _ NotAnArray =>
      Throw (ErrorObj "apiResponse.tokens.map is not a function")
  end.

(** [/^0x[a-fA-F0-9]{40}$/.test(s)] *)
Definition isHexDigit (c : ascii) : bool :=
  match digitValue c with
  | Some d => d <? 16
  | None => false
  end.

Fixpoint allHex (s : string) : bool :=
  match s with
  | EmptyString => true
  | String c r => isHexDigit c && allHex r
  end.

Definition isAddressPattern (s : string) : bool :=
  match s with
  | String "0" (String "x" r) => Nat.eqb (String.length r) 40 && allHex r
  | _ => false
  end.

(** Calls that leave the component. *)
Inductive Call : Type :=
| FetchLiquidity (chainId : Z) (query : string)
| GetTokensByChain (chainId : Z).

(** The component state that [performSearch] writes, the [AbortController]
    objects created so far ([true] once aborted; a controller is named by
    its position) with the [abortControllerRef], and the log of outside
    calls. *)
Record State : Type := {
  results : list SearchResult;
  isLoading : bool;
  searchError : option string;
  controllers : list bool;
  abortControllerRef : option nat;
  calls : list Call
}.

Definition initialState : State :=
  {| results := []; isLoading := false; searchError := None;
     controllers := []; abortControllerRef := None; calls := [] |}.

Definition setResults (r : list SearchResult) (st : State) : State :=
  {| results := r; isLoading := isLoading st; searchError := searchError st;
     controllers := controllers st; abortControllerRef := abortControllerRef st;
     calls := calls st |}.

Definition setIsLoading (b : bool) (st : State) : State :=
  {| results := results st; isLoading := b; searchError := searchError st;
     controllers := controllers st; abortControllerRef := abortControllerRef st;
     calls := calls st |}.

Definition setSearchError (e : option string) (st : State) : State :=
  {| results := results st; isLoading := isLoading st; searchError := e;
     controllers := controllers st; abortControllerRef := abortControllerRef st;
     calls := calls st |}.

Definition logCall (c : Call) (st : State) : State :=
  {| results := results st; isLoading := isLoading st; searchError := searchError st;
     controllers := controllers st; abortControllerRef := abortControllerRef st;
     calls := calls st ++ [c] |}.

Fixpoint setNth {A} (n : nat) (a : A) (l : list A) : list A :=
  match l, n with
  | [], _ => []
  | _ :: r, O => a :: r
  | x :: r, S n' => x :: setNth n' a r
  end.

(** [if (ref.current) ref.current.abort(); ref.current = new AbortController()] *)
Definition replaceAbortController (st : State) : State :=
  let aborted :=
    match abortControllerRef st with
    | Some current => setNth current true (controllers st)
    | None => controllers st
    end in
  {| results := results st; isLoading := isLoading st; searchError := searchError st;
     controllers := aborted ++ [false];
     abortControllerRef := Some (List.length aborted);
     calls := calls st |}.

(** An [async] run: finished within the current task, or suspended at its
    [await] with the request sent; [resume] is the rest of the function,
    run when the reply arrives, on the state of that moment. *)
Inductive Async : Type :=
| Done (st : State)
| Await (st : State) (resume : ApiReply -> State -> State).

Definition closeSearch : list Effect := [SetIsOpen false; SetQuery ""].

Definition commandSuggestions : list SearchResult :=
  [ {| id := "cmd-swap";
       type := command;
       title := "Swap tokens";
       subtitle := Some "Start a token swap";
       icon := None;
       metadata := None;
       action := Some (ScrollIntoView "swap-widget" :: closeSearch);
       score := None |};
    {| id := "cmd-holdings";
       type := command;
       title := "View holdings";
       subtitle := Some "Check your portfolio";
       icon := None;
       metadata := None;
       action := Some (WindowOpen "https://holdings.vaulto.ai" "_blank" :: closeSearch);
       score := None |} ].

(** The suggestions step 4 appends for a query. *)
Definition suggestionsFor (searchQuery : string) : list SearchResult :=
  if (String.length searchQuery <? 2)%nat then commandSuggestions else [].

Section Component.
(** [useChainId()] *)
Variable chainId : Z.
(** [getTokensByChain] of [@/config/tokens], the local registry. *)
Variable getTokensByChain : Z -> list Token.t.

Definition topPoolOf (pools : list LiquidityPoolResult) : option LiquidityPoolResult :=
  match pools with
  | [] => None
  | first :: rest =>
      Some (fold_left
              (fun max pool =>
                 if negb (Qle_bool (Route.Pool.tvlUSD pool) (Route.Pool.tvlUSD max))
                 then pool else max)
              rest first)
  end.

Definition liquidityTokenToSearchResult (token : LiquidityTokenResult) : SearchResult :=
  let topPool := topPoolOf (Route.TokenWithPools.pools token) in
  {| id := ("uniswap-token-" ++ Route.TokenWithPools.address token)%string;
     type := SearchBar.token;
     title := Route.TokenWithPools.symbol token;
     subtitle := Some (Route.TokenWithPools.name token);
     icon := None;
     metadata := Some
       {| Metadata.address := Some (Route.TokenWithPools.address token);
          Metadata.symbol := Some (Route.TokenWithPools.symbol token);
          Metadata.name := Some (Route.TokenWithPools.name token);
          Metadata.chainId := Some chainId;
          Metadata.decimals := Some (Route.TokenWithPools.decimals token);
          Metadata.tvlUSD := Some (Route.TokenWithPools.tvlUSD token);
          Metadata.volumeUSD := Some (Route.TokenWithPools.volumeUSD token);
          Metadata.pools := Some (Route.TokenWithPools.pools token);
          Metadata.isTokenizedStock := None;
          Metadata.ticker := None;
          Metadata.topPool := topPool |};
     action := Some (ConsoleLog "Selected token:" (Route.TokenWithPools.address token)
                     :: closeSearch);
     score := None |}.

Definition addressResult (searchQuery : string) : SearchResult :=
  {| id := ("address-" ++ searchQuery)%string;
     type := address;
     title := (sliceTo 6 searchQuery ++ "..." ++ sliceLast 4 searchQuery)%string;
     subtitle := Some "View address";
     icon := None;
     metadata := Some
       {| Metadata.address := Some searchQuery;
          Metadata.symbol := None; Metadata.name := None; Metadata.chainId := None;
          Metadata.decimals := None; Metadata.tvlUSD := None;
          Metadata.volumeUSD := None; Metadata.pools := None;
          Metadata.isTokenizedStock := None; Metadata.ticker := None;
          Metadata.topPool := None |};
     action :=
       (let explorerUrl :=
          if chainId =? 1
          then ("https://etherscan.io/address/" ++ searchQuery)%string
          else ("https://explorer.arbitrum.io/address/" ++ searchQuery)%string in
        Some (WindowOpen explorerUrl "_blank" :: closeSearch));
     score := None |}.

(** The first [filter] of step 3. *)
Definition matchesQuery (searchQuery : string) (token : Token.t) : bool :=
  let queryLower := toLowerCase searchQuery in
  includes (toLowerCase (Token.symbol token)) queryLower
  || includes (toLowerCase (Token.name token)) queryLower
  || includes (toLowerCase (Token.address token)) queryLower
  || match Token.ticker token with
     | Some ticker => truthy ticker && includes (toLowerCase ticker) queryLower
     | None => false
     end.

(** [result.metadata?.address?.toLowerCase() === token.address.toLowerCase()] *)
Definition sameAddress (token : Token.t) (result : SearchResult) : bool :=
  match metadata result with
  | Some md =>
      match Metadata.address md with
      | Some a => String.eqb (toLowerCase a) (toLowerCase (Token.address token))
      | None => false
      end
  | None => false
  end.

Definition localTokenToSearchResult (token : Token.t) : SearchResult :=
  {| id := ("local-token-" ++ Token.address token)%string;
     type := SearchBar.token;
     title := Token.symbol token;
     subtitle := Some (Token.name token);
     icon := Token.logoURI token;
     metadata := Some
       {| Metadata.address := Some (Token.address token);
          Metadata.symbol := Some (Token.symbol token);
          Metadata.name := Some (Token.name token);
          Metadata.chainId := Some chainId;
          Metadata.decimals := None; Metadata.tvlUSD := None;
          Metadata.volumeUSD := None; Metadata.pools := None;
          Metadata.isTokenizedStock := Token.isTokenizedStock token;
          Metadata.ticker := Token.ticker token;
          Metadata.topPool := None |};
     action := Some (ConsoleLog "Selected token:" (Token.address token) :: closeSearch);
     score := None |}.

Definition localTokenMatches (searchQuery : string) (searchResults : list SearchResult)
  : list SearchResult :=
  let localTokens := getTokensByChain chainId in
  map localTokenToSearchResult
    (filter (fun token => negb (existsb (sameAddress token) searchResults))
       (firstn 5 (filter (matchesQuery searchQuery) localTokens))).

(** Steps 3 and 4 of [performSearch] and its last writes, given the
    [searchResults] gathered so far. *)
Definition mergeAndRender (searchQuery : string) (searchResults : list SearchResult)
    (st : State) : State :=
  let st := logCall (GetTokensByChain chainId) st in
  let searchResults := searchResults ++ localTokenMatches searchQuery searchResults in
  let searchResults :=
    if (String.length searchQuery <? 2)%nat
    then searchResults ++ commandSuggestions
    else searchResults in
  let st := setResults searchResults st in
  setIsLoading false st.

(** The [catch] block of [performSearch], followed by its [finally]. *)
Definition searchFailed (error : thrown) (st : State) : State :=
  let st := setSearchError (Some (messageOr "Search failed" error)) st in
  let st := setResults [] st in
  setIsLoading false st.

(** [performSearch].  Inside its [try] block only the reads of the
    endpoint's body can throw ([fetchUniswapLiquidity] catches its own
    failures, and the registry and the entries of a token list are
    typed); a throw runs the [catch] block.  The [finally] block is the
    last [setIsLoading false] of each path. *)
Definition performSearch (searchQuery : string) (st : State) : Async :=
  if negb (truthy (trim searchQuery))
  then Done (setSearchError None (setResults [] st))
  else
    let st := setIsLoading true st in
    let st := setSearchError None st in
    let st := replaceAbortController st in
    if isAddressPattern (trim searchQuery)
    then
      let searchResults := [addressResult searchQuery] in
      let st := setResults searchResults st in
      let st := setIsLoading false st in
      Done (setIsLoading false st)
    else if isChainSupported chainId
    then
      Await (logCall (FetchLiquidity chainId (trim searchQuery)) st)
        (fun reply st =>
           let apiResponse := fetchUniswapLiquidity chainId reply in
           match readError apiResponse with
           | Throw error => searchFailed error st
           | Normal error =>
               let st :=
                 match error with
                 | Some e => if truthy e then setSearchError (Some e) st else st
                 | None => st
                 end in
               match readTokens apiResponse with
               | Throw error => searchFailed error st
               | Normal tokens =>
                   let uniswapTokens := map liquidityTokenToSearchResult tokens in
                   mergeAndRender searchQuery uniswapTokens st
               end
           end)
    else Done (mergeAndRender searchQuery [] st).

(** *** The task queue

    One search surface over time: searches are issued (by the debounce
    timer) and replies are delivered to suspended invocations, each in a
    task of its own.  Invocations are numbered in the order they were
    issued. *)
Inductive Task : Type :=
| Issue (searchQuery : string)
| Deliver (invocation : nat) (reply : ApiReply).

Record Surface : Type := {
  state : State;
  issued : nat;
  suspended : list (nat * (ApiReply -> State -> State))
}.

Definition initialSurface : Surface :=
  {| state := initialState; issued := 0; suspended := [] |}.

Definition runTask (w : Surface) (t : Task) : Surface :=
  match t with
  | Issue searchQuery =>
      match performSearch searchQuery (state w) with
      | Done st =>
          {| state := st; issued := S (issued w); suspended := suspended w |}
      | Await st resume =>
          {| state := st; issued := S (issued w);
             suspended := suspended w ++ [(issued w, resume)] |}
      end
  | Deliver invocation reply =>
      match find (fun p => Nat.eqb (fst p) invocation) (suspended w) with
      | Some (_, resume) =>
          {| state := resume reply (state w);
             issued := issued w;
             suspended := filter (fun p => negb (Nat.eqb (fst p) invocation)) (suspended w) |}
      | None => w
      end
  end.

Definition runTasks (w : Surface) (ts : list Task) : Surface := fold_left runTask ts w.

(** A search that runs alone: its reply, if it asks for one, is delivered
    before anything else happens. *)
Definition searchAlone (reply : ApiReply) (searchQuery : string) (st : State) : State :=
  match performSearch searchQuery st with
  | Done st' => st'
  | Await st' resume => resume reply st'
  end.

End Component.

(** Entries of a result list that carry the address [a], compared the way
    the orchestrator compares addresses (lowercased). *)
Definition hasAddress (a : string) (result : SearchResult) : bool :=
  match metadata result with
  | Some md =>
      match Metadata.address md with
      | Some x => String.eqb (toLowerCase x) (toLowerCase a)
      | None => false
      end
  | None => false
  end.

Definition entriesFor (a : string) (results : list SearchResult) : list SearchResult :=
  filter (hasAddress a) results.

End SearchBar.

(* ================================================================= *)
(** ** [formatLiquidity] of [services/cowApi] *)

Module CowFormat.

(** [\d], and the word characters that [\B] looks at. *)
Definition isDigit (c : ascii) : bool :=
  let n := N_of_ascii c in ((48 <=? n) && (n <=? 57))%N.

Definition isWordChar (c : ascii) : bool :=
  let n := N_of_ascii c in
  ((48 <=? n) && (n <=? 57) || (65 <=? n) && (n <=? 90)
   || (97 <=? n) && (n <=? 122) || (n =? 95))%N.

(** Length of the run of digits a string starts with. *)
Fixpoint digitRun (s : string) : nat :=
  match s with
  | EmptyString => 0
  | String c r => if isDigit c then S (digitRun r) else 0
  end.

(** [(?=(\d{3})+(?!\d))]: the digits ahead are one or more groups of
    three, the last of them followed by no digit. *)
Definition groupsAhead (s : string) : bool :=
  let k := digitRun s in
  (3 <=? k)%nat && (k mod 3 =? 0)%nat.

(** [\B] at a position: the characters before and after it, if any, are
    both word characters or both not. *)
Definition notWordBoundary (prev : option ascii) (s : string) : bool :=
  Bool.eqb
    (match prev with Some c => isWordChar c | None => false end)
    (match s with String c _ => isWordChar c | EmptyString => false end).

(** [s.replace(/\B(?=(\d{3})+(?!\d))/g, ',')] from a position whose
    preceding character is [prev]: a comma goes in at every position the
    pattern matches (the matches are empty). *)
Fixpoint groupFrom (prev : option ascii) (s : string) : string :=
  let here := if notWordBoundary prev s && groupsAhead s then "," else "" in
  match s with
  | EmptyString => here
  | String c r => (here ++ String c (groupFrom (Some c) r))%string
  end.

Definition groupThousands (s : string) : string := groupFrom None s.

(** [s.padStart(n, '0')] *)
Definition padStart (n : nat) (s : string) : string :=
  (string_of_list_ascii (repeat "0"%char (n - String.length s)) ++ s)%string.

(** [0+$] and [\.?0+$] matched at the start of a string. *)
Fixpoint zerosToEnd (s : string) : bool :=
  match s with
  | EmptyString => false
  | String c r =>
      Ascii.eqb c "0" && match r with EmptyString => true | _ => zerosToEnd r end
  end.

Definition pointZerosToEnd (s : string) : bool :=
  match s with
  | String "." r => zerosToEnd r
  | _ => zerosToEnd s
  end.

(** [s.replace(/\.?0+$/, '')]: the leftmost match is removed. *)
Fixpoint stripZeros (s : string) : string :=
  if pointZerosToEnd s then EmptyString
  else match s with
       | EmptyString => EmptyString
       | String c r => String c (stripZeros r)
       end.

(** [BigInt(10 ** decimals)]: the power is a double, the exact power of
    ten for [0 <= decimals <= 22]; other exponents are outside the model
    ([None]). *)
Definition powerOfTen (decimals : Z) : option Z :=
  if (0 <=? decimals) && (decimals <=? 22) then Some (10 ^ decimals) else None.

(** [formatLiquidity]; [/] and [%] on BigInts truncate towards zero. *)
Definition formatLiquidity (amount : string) (decimals : Z) : completion (option string) :=
  bigAmount <-! BigInt amount ;;
  match powerOfTen decimals with
  | None => Normal None
  | Some divisor =>
      let wholePart := Z.quot bigAmount divisor in
      let fractionalPart := Z.rem bigAmount divisor in
      if fractionalPart =? 0
      then Normal (Some (groupThousands (Z_toString wholePart)))
      else
        let fractionalStr := padStart (Z.to_nat decimals) (Z_toString fractionalPart) in
        let trimmedFractional := stripZeros fractionalStr in
        Normal (Some (groupThousands (Z_toString wholePart) ++ "." ++ trimmedFractional)%string)
  end.

(** Strings of decimal digits, and strings of zeros. *)
Fixpoint allDigits (s : string) : bool :=
  match s with
  | EmptyString => true
  | String c r => isDigit c && allDigits r
  end.

Definition zeros (n : nat) : string := string_of_list_ascii (repeat "0"%char n).

(** *** Reading a displayed amount

    Not code of the repository: the number a reader takes from the text,
    commas dropped and the text split at its first point, as a mantissa
    and the number of digits after the point. *)
Fixpoint removeCommas (s : string) : string :=
  match s with
  | EmptyString => EmptyString
  | String c r => if Ascii.eqb c "," then removeCommas r else String c (removeCommas r)
  end.

Fixpoint splitAtPoint (s : string) : string * option string :=
  match s with
  | EmptyString => (EmptyString, None)
  | String c r =>
      if Ascii.eqb c "." then (EmptyString, Some r)
      else let (whole, fraction) := splitAtPoint r in (String c whole, fraction)
  end.

Definition readDecimal (s : string) : option (Z * nat) :=
  let (whole, fraction) := splitAtPoint (removeCommas s) in
  match nonEmptyDigits 10 whole, fraction with
  | Some w, None => Some (w, 0%nat)
  | Some w, Some f =>
      match nonEmptyDigits 10 f with
      | Some v => Some (w * 10 ^ Z.of_nat (String.length f) + v, String.length f)
      | None => None
      end
  | None, _ => None
  end.

End CowFormat.

(* ================================================================= *)
(** ** [OrderbookLiquidityDisplay] *)

Module Display.

Import CowApi CowFormat.

Record Row : Type := {
  amount : option string;
  orders : Z
}.

(** What the "Liquidity Display" part shows. *)
Inductive Block : Type :=
| Loading
| Failed (message : string)
| Liquidity (aToB bToA : option Row) (lowLiquidityWarning : bool)
| NoActiveLiquidity
| Blank.

(** The rendered component: the "Clear" button, the liquidity part (absent
    until both tokens are chosen) and the helper text. *)
Record View : Type := {
  clearButton : bool;
  block : option Block;
  helperText : bool
}.

(** The [enabled] option the component passes to the hook. *)
Definition enabled (tokenA tokenB : string) : bool :=
  truthy tokenA && truthy tokenB && negb (String.eqb tokenA tokenB).

(** [BigInt(l.totalLiquidity) > 0] *)
Definition positive (l : LiquidityData) : completion bool :=
  total <-! BigInt (totalLiquidity l) ;;
  Normal (0 <? total).

Section Component.
(** [useChainId()] *)
Variable chainId : Z.
(** [tokens.find((t) => t.address === a)?.decimals], over the registry of
    [@/config/tokens]. *)
Variable decimalsOf : string -> option Z.

(** [decimalsOf a || 18] *)
Definition decimalsOr18 (a : string) : Z :=
  match decimalsOf a with
  | Some d => if d =? 0 then 18 else d
  | None => 18
  end.

(** A direction's row, shown when its total is positive. *)
Definition row (l : LiquidityData) (token : string) : completion (option Row) :=
  shown <-! positive l ;;
  if shown
  then
    text <-! formatLiquidity (totalLiquidity l) (decimalsOr18 token) ;;
    Normal (Some {| amount := text; orders := orderCount l |})
  else Normal None.

(** One rendering, from the selected tokens and what the hook returned;
    [Normal None] is the [null] rendered off mainnet. *)
Definition render (tokenA tokenB : string) (hook : HookState) : completion (option View) :=
  if negb (chainId =? 1) then Normal None
  else
    hasLiquidity <-!
      match liquidity hook with
      | None => Normal false
      | Some l =>
          aToB <-! positive (liquidityAtoB l) ;;
          if aToB then Normal true else positive (liquidityBtoA l)
      end ;;
    shownBlock <-!
      (if truthy tokenA && truthy tokenB
       then
         if loading hook then Normal (Some Loading)
         else
           match (match error hook with
                  | Some e => if truthy e then Some e else None
                  | None => None
                  end) with
           | Some e => Normal (Some (Failed e))
           | None =>
               match liquidity hook with
               | Some l =>
                   if hasLiquidity
                   then
                     aToB <-! row (liquidityAtoB l) tokenA ;;
                     bToA <-! row (liquidityBtoA l) tokenB ;;
                     Normal (Some (Liquidity aToB bToA (orderCount (liquidityAtoB l) <? 5)))
                   else Normal (Some NoActiveLiquidity)
               | None => Normal (Some Blank)
               end
           end
       else Normal None) ;;
    Normal (Some {| clearButton := truthy tokenA && truthy tokenB;
                    block := shownBlock;
                    helperText := negb (truthy tokenA) || negb (truthy tokenB) |}).

Section WithNetwork.
Variable network : nat -> string -> FetchReply.
Variable now : Z.

(** The component after the hook's first run for a token pair: the
    rendering, and the requests that were made. *)
Definition monitor (tokenA tokenB : string) : completion (option View) * list string :=
  let initial := {| liquidity := None; loading := false; error := None |} in
  match fetchLiquidity network now (Some tokenA) (Some tokenB) chainId
          (enabled tokenA tokenB) initial [] with
  | (Normal hook, requests) => (render tokenA tokenB hook, requests)
  | (Throw e, requests) => (Throw e, requests)
  end.

End WithNetwork.
End Component.

End Display.

(* ================================================================= *)
(** ** [GlobalSearchBar]: keyboard handling and the dropdown *)

Module Keyboard.

Import SearchBar.

Record KeyboardEvent : Type := {
  metaKey : bool;
  ctrlKey : bool;
  key : string
}.

(** The component state the handler reads and writes, besides [results]. *)
Record Panel : Type := {
  isOpen : bool;
  query : string;
  selectedIndex : Z
}.

(** What the handler does outside the component state. *)
Inductive Outside : Type :=
| PreventDefault
| FocusInput
| BlurInput
| Performed (e : Effect).

Definition setIsOpen (b : bool) (p : Panel) : Panel :=
  {| isOpen := b; query := query p; selectedIndex := selectedIndex p |}.

Definition setQuery (q : string) (p : Panel) : Panel :=
  {| isOpen := isOpen p; query := q; selectedIndex := selectedIndex p |}.

Definition setSelectedIndex (f : Z -> Z) (p : Panel) : Panel :=
  {| isOpen := isOpen p; query := query p; selectedIndex := f (selectedIndex p) |}.

(** One effect of an [action] closure. *)
Definition perform (run : Panel * list Outside) (e : Effect) : Panel * list Outside :=
  let (p, out) := run in
  match e with
  | SetIsOpen b => (setIsOpen b p, out)
  | SetQuery q => (setQuery q p, out)
  | _ => (p, out ++ [Performed e])
  end.

(** [results[i]] *)
Definition at_ (results : list SearchResult) (i : Z) : option SearchResult :=
  if i <? 0 then None else nth_error results (Z.to_nat i).

(** [result.action?.()] *)
Definition runAction (result : SearchResult) (run : Panel * list Outside)
  : Panel * list Outside :=
  match action result with
  | Some effects => fold_left perform effects run
  | None => run
  end.

(** [handleKeyDown]; [isOpen], [results] and [selectedIndex] are the
    values of the rendering that registered the handler; [%] is the
    remainder of the truncating division. *)
Definition handleKeyDown (results : list SearchResult) (e : KeyboardEvent) (p : Panel)
  : Panel * list Outside :=
  let wasOpen := isOpen p in
  let selectedBefore := selectedIndex p in
  let length := Z.of_nat (List.length results) in
  let run := (p, []) in
  let run :=
    if (metaKey e || ctrlKey e) && String.eqb (key e) "k"
    then (setIsOpen true (fst run), snd run ++ [PreventDefault; FocusInput])
    else run in
  let run :=
    if String.eqb (key e) "Escape" && wasOpen
    then (setQuery "" (setIsOpen false (fst run)), snd run ++ [BlurInput])
    else run in
  if wasOpen && (0 <? length)
  then
    if String.eqb (key e) "ArrowDown"
    then (setSelectedIndex (fun prev => Z.rem (prev + 1) length) (fst run),
          snd run ++ [PreventDefault])
    else if String.eqb (key e) "ArrowUp"
    then (setSelectedIndex (fun prev => Z.rem (prev - 1 + length) length) (fst run),
          snd run ++ [PreventDefault])
    else if String.eqb (key e) "Enter"
    then
      let run := (fst run, snd run ++ [PreventDefault]) in
      match at_ results selectedBefore with
      | Some result => runAction result run
      | None => run
      end
    else run
  else run.

(** The parts of the open dropdown. *)
Inductive Pane : Type :=
| Searching
| ErrorMessage (message : string)
| ResultList (rows : list SearchResult)
| NothingFound
| QuickActions.

Definition dropdown (p : Panel) (st : State) : list Pane :=
  if isOpen p
  then
    let hasQuery := truthy (trim (query p)) in
    let failed :=
      match searchError st with
      | Some e => truthy e
      | None => false
      end in
    let empty := (List.length (results st) =? 0)%nat in
    (if isLoading st && hasQuery then [Searching] else [])
    ++ (match searchError st with
        | Some e => if truthy e && negb (isLoading st) then [ErrorMessage e] else []
        | None => []
        end)
    ++ (if negb (isLoading st) && negb empty then [ResultList (results st)] else [])
    ++ (if negb (isLoading st) && negb failed && empty && hasQuery
        then [NothingFound] else [])
    ++ (if negb (isLoading st) && negb failed && empty && negb hasQuery
        then [QuickActions] else [])
  else [].

End Keyboard.

(* ================================================================= *)
(** ** Invariants of the search surface *)

Module Invariants.

Import SearchBar.

(** Every controller but the one the ref holds has been aborted, and the
    one the ref holds is the last one created. *)
Definition oneLiveController (st : State) : Prop :=
  match abortControllerRef st with
  | None => controllers st = []
  | Some current =>
      controllers st = repeat true current ++ [false]
  end.

(** A suspended continuation leaves the controllers alone. *)
Definition keepsControllers (resume : ApiReply -> State -> State) : Prop :=
  forall reply st,
    controllers (resume reply st) = controllers st /\
    abortControllerRef (resume reply st) = abortControllerRef st.

End Invariants.

(* ================================================================= *)
(** ** Scenarios: concrete inputs used to run the model *)

Module Scenarios.

Import CowApi SearchBar.

Definition orderSelling (amount : string) : CowOrder :=
  {| sellToken := "0xa0b86991c6218b36c1d19d4a2e9eb0ce3606eb48";
     buyToken := "0xc02aaa39b223fe8d0a0e5c4f27ead9083c756cc2";
     sellAmount := amount; buyAmount := "1"; validTo := 1700000000;
     appData := "0x00"; feeAmount := "0"; kind := "sell";
     partiallyFillable := false; sellTokenBalance := "erc20";
     buyTokenBalance := "erc20"; status := "open";
     creationDate := "2024-01-01T00:00:00Z"; class := "limit";
     owner := "0x0000000000000000000000000000000000000001"; uid := "0x01" |}.

(** An orderbook whose A-to-B request is refused with status 503 and
    whose B-to-A request delivers one order. *)
Definition halfDeadOrderbook (n : nat) (url : string) : FetchReply :=
  match n with
  | O => Response false 503 (Throw (ErrorObj "Unexpected token < in JSON"))
  | _ => Response true 200 (Normal (Some [orderSelling "5"]))
  end.

(** Entities as the subgraph returns them. *)
Definition rawToken (id symbol : string) (tvl : Q) : Client.RawToken.t :=
  {| Client.RawToken.id := Some id;
     Client.RawToken.symbol := Some symbol;
     Client.RawToken.name := Some symbol;
     Client.RawToken.decimals := Some 18;
     Client.RawToken.volumeUSD := Some 1%Q;
     Client.RawToken.totalValueLockedUSD := Some tvl |}.

Definition rawPool : Client.RawPool.t :=
  {| Client.RawPool.id := Some "0xP001";
     Client.RawPool.feeTier := Some 500;
     Client.RawPool.liquidity := Some "1000";
     Client.RawPool.sqrtPrice := Some "79228162514264337593543950336";
     Client.RawPool.tick := Some 0;
     Client.RawPool.totalValueLockedUSD := Some 4%Q;
     Client.RawPool.volumeUSD := Some 2%Q;
     Client.RawPool.token0 :=
       Some {| Client.RawPoolToken.id := Some "0xAAA";
               Client.RawPoolToken.symbol := Some "AAA";
               Client.RawPoolToken.name := Some "AAA";
               Client.RawPoolToken.decimals := Some 18 |};
     Client.RawPool.token1 :=
       Some {| Client.RawPoolToken.id := Some "0xCCC";
               Client.RawPoolToken.symbol := Some "CCC";
               Client.RawPoolToken.name := Some "CCC";
               Client.RawPoolToken.decimals := Some 6 |} |}.

Definition answer (d : Client.Data) : Client.FetchReply :=
  Client.Response true 200 "OK" (Normal "")
    (Normal {| Client.data := Some d; Client.errors := None |}).

(** An indexer that finds two tokens, fails the first pool query (the one
    for the token with the larger TVL) and answers the second. *)
Definition twoTokenIndexer (n : nat) (endpoint query : string)
    (variables : Client.Variables) : Client.FetchReply :=
  match n with
  | 0%nat => answer {| Client.tokens := Some [rawToken "0xAAA" "AAA" 5%Q;
                                             rawToken "0xBBB" "BBB" 9%Q];
                       Client.pools := None |}
  | 1%nat => Client.Rejected (ErrorObj "The operation was aborted due to timeout")
  | _ => answer {| Client.tokens := None; Client.pools := Some [rawPool] |}
  end.

(** A registry with two tokens on mainnet, and remote entries for the
    scenarios below. *)
Definition usdc : Token.t :=
  {| Token.symbol := "USDC"; Token.name := "USD Coin";
     Token.address := "0xA0b86991c6218b36c1d19D4a2e9Eb0cE3606eB48";
     Token.ticker := None; Token.logoURI := Some "/tokens/usdc.png";
     Token.isTokenizedStock := Some false |}.

Definition aaplx : Token.t :=
  {| Token.symbol := "AAPLx"; Token.name := "Apple tokenized stock";
     Token.address := "0x9d275685dC284C8eB1C79f6ABA7a63Dc75ec890a";
     Token.ticker := Some "AAPL"; Token.logoURI := None;
     Token.isTokenizedStock := Some true |}.

Definition registry (chainId : Z) : list Token.t :=
  if chainId =? 1 then [usdc; aaplx] else [].

Definition remoteToken (address symbol : string) (tvl : Q) : LiquidityTokenResult :=
  {| Route.TokenWithPools.address := address;
     Route.TokenWithPools.symbol := symbol;
     Route.TokenWithPools.name := symbol;
     Route.TokenWithPools.decimals := 18;
     Route.TokenWithPools.tvlUSD := tvl;
     Route.TokenWithPools.volumeUSD := 1%Q;
     Route.TokenWithPools.pools := [] |}.

Definition okReply (tokens : list LiquidityTokenResult) : ApiReply :=
  Ok (Normal (Declared {| chainId := 1; tokens := tokens; error := None |})).

Definition usdcAddress : string := "0xa0b86991c6218b36c1d19d4a2e9eb0ce3606eb48".

Definition remoteUsdc : LiquidityTokenResult := remoteToken usdcAddress "USDC" 9%Q.

(** Two overlapping searches on mainnet: "A" is issued, then "AB"; the
    reply for "AB" arrives first, the reply for "A" last. *)
Definition replyA : ApiReply :=
  okReply [remoteToken "0x000000000000000000000000000000000000000a" "AAVE" 7%Q].
Definition replyAB : ApiReply :=
  okReply [remoteToken "0x00000000000000000000000000000000000000ab" "ABT" 3%Q].

(** A chain without local registry entries. *)
Definition emptyRegistry (chainId : Z) : list Token.t := [].

Definition overlappingSearches : list Task :=
  [Issue "A"; Issue "AB"; Deliver 1 replyAB; Deliver 0 replyA].

End Scenarios.

(** Further inputs: orderbooks, a registry that answers on every chain,
    and keyboard events. *)
Module Cases.

Import CowApi SearchBar Keyboard Scenarios.

(** Every request is refused at the network level. *)
Definition deadOrderbook (n : nat) (url : string) : CowApi.FetchReply :=
  CowApi.Rejected (ErrorObj "Failed to fetch").

(** Every request delivers one order whose amount is no integer literal. *)
Definition malformedOrderbook (n : nat) (url : string) : CowApi.FetchReply :=
  CowApi.Response true 200 (Normal (Some [orderSelling "1.5"])).

(** No order from A to B; six orders from B to A. *)
Definition oneSidedOrderbook (n : nat) (url : string) : CowApi.FetchReply :=
  match n with
  | O => CowApi.Response true 200 (Normal (Some []))
  | _ => CowApi.Response true 200
           (Normal (Some [orderSelling "2500000"; orderSelling "500000";
                          orderSelling "100000"; orderSelling "100000";
                          orderSelling "100000"; orderSelling "200000"]))
  end.

Definition sixDecimals (address : string) : option Z := Some 6.

Definition everywhere (chainId : Z) : list Token.t := [usdc; aaplx].

Definition pressed (name : string) : KeyboardEvent :=
  {| metaKey := false; ctrlKey := false; key := name |}.

Definition openAt (typed : string) (row : Z) : Panel :=
  {| isOpen := true; query := typed; selectedIndex := row |}.

End Cases.

(* ================================================================= *)
(** * Properties *)

Import Scenarios.

(* ----------------------------------------------------------------- *)
(** ** Strings and integers *)

Section StringFacts.

Lemma trimEnd_noWhiteSpace (s : string) : noWhiteSpace s = true -> trimEnd s = s.
Proof.
  induction s as [|c r IH]; simpl; [reflexivity|].
  intros H. apply andb_prop in H as [Hc Hr].
  rewrite (IH Hr). apply negb_true_iff in Hc. rewrite Hc.
  now destruct r.
Qed.

Lemma trim_noWhiteSpace (s : string) : noWhiteSpace s = true -> trim s = s.
Proof.
  intros H. unfold trim.
  destruct s as [|c r]; [reflexivity|].
  simpl in H. apply andb_prop in H as [Hc Hr].
  simpl trimStart. pose proof Hc as Hc'. apply negb_true_iff in Hc'. rewrite Hc'.
  apply trimEnd_noWhiteSpace. simpl. now rewrite Hc, Hr.
Qed.

Lemma trimEnd_length (s : string) : (String.length (trimEnd s) <= String.length s)%nat.
Proof.
  induction s as [|c r IH]; simpl; [lia|].
  destruct (trimEnd r); [destruct (isWhiteSpace c)|]; simpl in *; lia.
Qed.

Lemma trimStart_length (s : string) : (String.length (trimStart s) <= String.length s)%nat.
Proof.
  induction s as [|c r IH]; simpl; [lia|].
  destruct (isWhiteSpace c); simpl; lia.
Qed.

Lemma trim_length (s : string) : (String.length (trim s) <= String.length s)%nat.
Proof.
  unfold trim. pose proof (trimEnd_length (trimStart s)). pose proof (trimStart_length s). lia.
Qed.

Lemma digits_noWhiteSpace (d : Decimal.uint) :
  noWhiteSpace (NilEmpty.string_of_uint d) = true.
Proof. induction d; simpl; auto. Qed.

Lemma digitsValue_acc (d : Decimal.uint) :
  forall acc : positive,
    digitsValue 10 (Z.pos acc) (NilEmpty.string_of_uint d) =
      Some (Z.pos (Pos.of_uint_acc d acc)).
Proof.
  induction d; intros acc; cbn [NilEmpty.string_of_uint digitsValue Pos.of_uint_acc];
    [reflexivity | ..];
    match goal with
    | |- context [digitValue ?c] =>
        let v := eval vm_compute in (digitValue c) in
        change (digitValue c) with v; cbv iota beta
    end;
    match goal with
    | |- context [?a <? 10] => change (a <? 10) with true; cbv iota
    end;
    rewrite <- IHd; f_equal; try reflexivity; lia.
Qed.

Lemma digitsValue_of_uint (d : Decimal.uint) :
  digitsValue 10 0 (NilEmpty.string_of_uint d) = Some (Z.of_N (Pos.of_uint d)).
Proof.
  induction d; cbn [NilEmpty.string_of_uint digitsValue Pos.of_uint];
    [reflexivity | ..];
    match goal with
    | |- context [digitValue ?c] =>
        let v := eval vm_compute in (digitValue c) in
        change (digitValue c) with v; cbv iota beta
    end;
    match goal with
    | |- context [?a <? 10] => change (a <? 10) with true; cbv iota
    end;
    [ exact IHd | .. ];
    match goal with
    | |- digitsValue 10 ?z _ = _ =>
        let p := eval vm_compute in z in change z with p
    end;
    rewrite digitsValue_acc; reflexivity.
Qed.

Lemma parseBigInt_digits (d : Decimal.uint) :
  d <> Decimal.Nil ->
  parseBigInt (NilEmpty.string_of_uint d) = digitsValue 10 0 (NilEmpty.string_of_uint d).
Proof.
  intros Hd. unfold parseBigInt.
  rewrite (trim_noWhiteSpace _ (digits_noWhiteSpace d)).
  destruct d as [|d|d|d|d|d|d|d|d|d|d]; try congruence; try reflexivity.
  destruct d; reflexivity.
Qed.

(** The decimal rendering denotes the integer it renders. *)
Lemma parseBigInt_Z_toString (z : Z) : parseBigInt (Z_toString z) = Some z.
Proof.
  unfold Z_toString. destruct z as [|p|p]; [reflexivity | |].
  - cbn [Z.to_int NilZero.string_of_int].
    pose proof (Unsigned.to_uint_nonnil p) as Hnil.
    assert (Hs : NilZero.string_of_uint (Pos.to_uint p) =
                 NilEmpty.string_of_uint (Pos.to_uint p)).
    { unfold NilZero.string_of_uint. now destruct (Pos.to_uint p). }
    rewrite Hs, (parseBigInt_digits _ Hnil), digitsValue_of_uint, Unsigned.of_to.
    reflexivity.
  - cbn [Z.to_int NilZero.string_of_int].
    pose proof (Unsigned.to_uint_nonnil p) as Hnil.
    assert (Hs : NilZero.string_of_uint (Pos.to_uint p) =
                 NilEmpty.string_of_uint (Pos.to_uint p)).
    { unfold NilZero.string_of_uint. now destruct (Pos.to_uint p). }
    rewrite Hs. unfold parseBigInt.
    rewrite trim_noWhiteSpace
      by (cbn [noWhiteSpace]; rewrite digits_noWhiteSpace; reflexivity).
    unfold nonEmptyDigits.
    destruct (NilEmpty.string_of_uint (Pos.to_uint p)) eqn:Hstr.
    + destruct (Pos.to_uint p); try congruence; discriminate Hstr.
    + rewrite <- Hstr, digitsValue_of_uint, Unsigned.of_to. reflexivity.
Qed.

End StringFacts.

(* ----------------------------------------------------------------- *)
(** ** Orderbook liquidity *)

Section CowApiFacts.
Import CowApi.

Lemma parseBigInt_orElse (s : string) :
  parseBigInt (orElse s "0") = parseBigInt s.
Proof.
  destruct s; reflexivity.
Qed.

Lemma reduce_thrown (orders : list CowOrder) (e : thrown) :
  fold_left addAmount orders (Throw e) = Throw e.
Proof.
  induction orders as [|o orders IH]; simpl; auto.
Qed.

Lemma reduce_exact (orders : list CowOrder) (amounts : list Z) :
  Forall2 (fun o a => parseBigInt (sellAmount o) = Some a) orders amounts ->
  forall acc,
    fold_left addAmount orders (Normal acc) = Normal (acc + fold_right Z.add 0 amounts).
Proof.
  induction 1 as [|o a orders amounts Ho _ IH]; intros acc; simpl.
  - f_equal; lia.
  - unfold BigInt. rewrite parseBigInt_orElse, Ho. simpl.
    rewrite IH. f_equal; lia.
Qed.

(** A literal that is no integer makes the whole sum throw. *)
Lemma reduce_malformed (orders : list CowOrder) :
  Exists (fun o => parseBigInt (sellAmount o) = None) orders ->
  forall acc, exists e, fold_left addAmount orders acc = Throw e.
Proof.
  induction 1 as [o orders Ho | o orders _ IH]; intros acc; simpl.
  - destruct acc as [a|e]; simpl.
    + unfold BigInt. rewrite parseBigInt_orElse, Ho. simpl.
      rewrite reduce_thrown. eauto.
    + rewrite reduce_thrown. eauto.
  - apply IH.
Qed.

(** C9. [calculateLiquidity] is exact: when every [sellAmount] is an
    integer literal, [totalLiquidity] is the decimal rendering of the
    unbounded integer sum of the amounts (a string that reads back as
    that very integer) and [orderCount] is the number of orders.  The sum
    is taken over integers without a bound, so a sum beyond 2^53 keeps
    every digit. *)
Theorem calculateLiquidity_exact (orders : list CowOrder) (amounts : list Z) :
  Forall2 (fun o a => parseBigInt (sellAmount o) = Some a) orders amounts ->
  calculateLiquidity orders =
    Normal {| totalLiquidity := Z_toString (fold_right Z.add 0 amounts);
              orderCount := Z.of_nat (List.length orders);
              direction := sell |} /\
  parseBigInt (Z_toString (fold_right Z.add 0 amounts)) = Some (fold_right Z.add 0 amounts).
Proof.
  intros H. split; [|apply parseBigInt_Z_toString].
  unfold calculateLiquidity.
  rewrite (reduce_exact orders amounts H 0). reflexivity.
Qed.

(** The sum of "9007199254740993" and "1", which no double holds. *)
Lemma calculateLiquidity_exact_beyond_2_53 :
  calculateLiquidity [orderSelling "9007199254740993"; orderSelling "1"] =
    Normal {| totalLiquidity := "9007199254740994"; orderCount := 2; direction := sell |} /\
  parseBigInt "9007199254740994" = Some 9007199254740994.
Proof.
  apply (calculateLiquidity_exact
           [orderSelling "9007199254740993"; orderSelling "1"]
           [9007199254740993; 1]).
  repeat constructor.
Defined.

Lemma calculateLiquidity_malformed (orders : list CowOrder) :
  Exists (fun o => parseBigInt (sellAmount o) = None) orders ->
  exists e, calculateLiquidity orders = Throw e.
Proof.
  intros H. unfold calculateLiquidity.
  destruct (reduce_malformed orders H (Normal 0)) as [e ->]. simpl. eauto.
Qed.

Lemma calculateLiquidity_nil : calculateLiquidity [] = Normal zeroLiquidity.
Proof. reflexivity. Qed.

Lemma upstreamFailed_no_orders (reply : FetchReply) :
  upstreamFailed reply = true -> deliveredOrders reply = [].
Proof.
  destruct reply as [e | [|] st [[o|]|e]]; simpl; congruence.
Qed.

Section Runs.
Variable network : nat -> string -> FetchReply.
Variable now : Z.

(** [fetchOrders] never throws: it returns the delivered orders and has
    made one request. *)
Lemma fetchOrders_run (sellToken buyToken : string) (log : list string) :
  fetchOrders network sellToken buyToken log =
    (Normal (deliveredOrders (network (List.length log) (ordersUrl sellToken buyToken))),
     log ++ [ordersUrl sellToken buyToken]).
Proof.
  unfold fetchOrders, tryCatch, bind, fetch, call.
  destruct (network _ _) as [e | [|] st [[o|]|e]]; reflexivity.
Qed.

Lemma fetchPairLiquidity_run (tokenA tokenB : string) (log : list string) :
  fetchPairLiquidity network now tokenA tokenB log =
    (Normal (pairOf now tokenA tokenB
       (calculateLiquidity
          (deliveredOrders (network (List.length log) (ordersUrl tokenA tokenB))))
       (calculateLiquidity
          (deliveredOrders (network (S (List.length log)) (ordersUrl tokenB tokenA))))),
     log ++ [ordersUrl tokenA tokenB; ordersUrl tokenB tokenA]).
Proof.
  unfold fetchPairLiquidity, tryCatch, bind.
  rewrite fetchOrders_run. rewrite fetchOrders_run.
  rewrite length_app. simpl List.length. rewrite Nat.add_1_r.
  rewrite <- app_assoc. simpl app.
  unfold lift, ret, pairOf.
  destruct (calculateLiquidity (deliveredOrders (network (List.length log) _))) as [ab|e1];
    [ destruct (calculateLiquidity (deliveredOrders (network (S (List.length log)) _)))
        as [ba|e2] | ];
    reflexivity.
Qed.

End Runs.

(** C10. An upstream failure of the orderbook is swallowed by
    [fetchOrders], which returns no orders; [fetchPairLiquidity] then
    returns a pair (not [null]) whose affected direction has
    [totalLiquidity] "0" and [orderCount] 0, exactly what an empty order
    book gives.  Its result is [null] only when [calculateLiquidity]
    throws in one of the directions (a [sellAmount] that is no integer). *)
Theorem fetchPairLiquidity_upstream_failure
    (network : nat -> string -> FetchReply) (now : Z) (A B : string) :
  let replyAB := network 0%nat (ordersUrl A B) in
  let replyBA := network 1%nat (ordersUrl B A) in
  let result := fst (fetchPairLiquidity network now A B []) in
  (forall sellToken buyToken log,
      upstreamFailed (network (List.length log) (ordersUrl sellToken buyToken)) = true ->
      fst (fetchOrders network sellToken buyToken log) = Normal []) /\
  (upstreamFailed replyAB = true ->
   forall l, calculateLiquidity (deliveredOrders replyBA) = Normal l ->
     result = Normal (Some {| tokenA := A; tokenB := B;
                              liquidityAtoB := zeroLiquidity; liquidityBtoA := l;
                              timestamp := now |})) /\
  (upstreamFailed replyBA = true ->
   forall l, calculateLiquidity (deliveredOrders replyAB) = Normal l ->
     result = Normal (Some {| tokenA := A; tokenB := B;
                              liquidityAtoB := l; liquidityBtoA := zeroLiquidity;
                              timestamp := now |})) /\
  (upstreamFailed replyAB = true -> upstreamFailed replyBA = true ->
     result = Normal (Some {| tokenA := A; tokenB := B;
                              liquidityAtoB := zeroLiquidity;
                              liquidityBtoA := zeroLiquidity;
                              timestamp := now |})) /\
  (result = Normal None <->
     (exists e, calculateLiquidity (deliveredOrders replyAB) = Throw e) \/
     (exists e, calculateLiquidity (deliveredOrders replyBA) = Throw e)).
Proof.
  intros replyAB replyBA result.
  assert (Hres : result =
            Normal (pairOf now A B (calculateLiquidity (deliveredOrders replyAB))
                      (calculateLiquidity (deliveredOrders replyBA)))).
  { unfold result. rewrite fetchPairLiquidity_run. reflexivity. }
  repeat split.
  - intros sellToken buyToken log Hfail.
    rewrite fetchOrders_run. simpl.
    now rewrite (upstreamFailed_no_orders _ Hfail).
  - intros Hfail l Hl. rewrite Hres, Hl.
    now rewrite (upstreamFailed_no_orders _ Hfail).
  - intros Hfail l Hl. rewrite Hres, Hl.
    now rewrite (upstreamFailed_no_orders _ Hfail).
  - intros HfailAB HfailBA. rewrite Hres.
    now rewrite (upstreamFailed_no_orders _ HfailAB), (upstreamFailed_no_orders _ HfailBA).
  - rewrite Hres. unfold pairOf.
    destruct (calculateLiquidity (deliveredOrders replyAB)) as [ab|e1].
    + destruct (calculateLiquidity (deliveredOrders replyBA)) as [ba|e2].
      * discriminate.
      * intros _. right. eauto.
    + intros _. left. eauto.
  - rewrite Hres. intros [[e He] | [e He]]; rewrite He.
    + reflexivity.
    + unfold pairOf. now destruct (calculateLiquidity (deliveredOrders replyAB)).
Qed.

(** The A-to-B request is refused with status 503; B-to-A delivers one
    order selling 5. *)
Lemma fetchPairLiquidity_upstream_failure_example :
  fst (fetchPairLiquidity halfDeadOrderbook 1700000000 "0xaa" "0xbb" []) =
    Normal (Some {| tokenA := "0xaa"; tokenB := "0xbb";
                    liquidityAtoB := zeroLiquidity;
                    liquidityBtoA := {| totalLiquidity := "5"; orderCount := 1;
                                        direction := sell |};
                    timestamp := 1700000000 |}).
Proof.
  exact (proj1 (proj2 (fetchPairLiquidity_upstream_failure
                         halfDeadOrderbook 1700000000 "0xaa" "0xbb"))
           eq_refl _ eq_refl).
Defined.

(** The hook cannot tell the failure either: after a run on mainnet in
    which both requests failed, it holds the all-zero pair and no error. *)
Lemma fetchLiquidity_after_upstream_failure
    (network : nat -> string -> FetchReply) (now : Z) (A B : string) (st : HookState) :
  truthy A = true -> truthy B = true ->
  upstreamFailed (network 0%nat (ordersUrl A B)) = true ->
  upstreamFailed (network 1%nat (ordersUrl B A)) = true ->
  fst (fetchLiquidity network now (Some A) (Some B) 1 true st []) =
    Normal {| liquidity := Some {| tokenA := A; tokenB := B;
                                   liquidityAtoB := zeroLiquidity;
                                   liquidityBtoA := zeroLiquidity;
                                   timestamp := now |};
              loading := false;
              error := None |}.
Proof.
  intros HA HB H1 H2. unfold fetchLiquidity. rewrite HA, HB. simpl.
  unfold bind, tryCatch. rewrite fetchPairLiquidity_run. simpl.
  rewrite (upstreamFailed_no_orders _ H1), (upstreamFailed_no_orders _ H2).
  reflexivity.
Qed.

End CowApiFacts.

(* ----------------------------------------------------------------- *)
(** ** The aggregation endpoint *)

Section RouteFacts.
Import Subgraphs TokenSearch Route.

Variable THE_GRAPH_API_KEY : option string.
Variable network : nat -> string -> string -> Client.Variables -> Client.FetchReply.

Local Abbreviation searchTokens := (TokenSearch.searchTokens THE_GRAPH_API_KEY network).
Local Abbreviation getPoolsForToken := (Pools.getPoolsForToken THE_GRAPH_API_KEY network).
Local Abbreviation queryResult := (Client.queryResult THE_GRAPH_API_KEY network).
Local Abbreviation POST := (Route.POST THE_GRAPH_API_KEY network).
Local Abbreviation GET := (Route.GET THE_GRAPH_API_KEY network).

(** The registry supports exactly the nine chains with a subgraph id. *)
Lemma isChainSupported_spec (chainId : Z) :
  isChainSupported chainId = true <->
  In chainId [1; 10; 56; 137; 42161; 43114; 8453; 42220; 81457].
Proof.
  split.
  - cbv beta iota zeta delta
      [isChainSupported hasKey hasSubgraphId subgraphIdOf lookup find
       UNISWAP_V3_SUBGRAPH_IDS fst toNumber].
    repeat match goal with
           | |- context [?a =? chainId] =>
               destruct (Z.eqb_spec a chainId) as [<- | _];
               [ first [ intros _; simpl; repeat (first [left; reflexivity | right]); fail
                       | intros H; vm_compute in H; discriminate H ] | ]
           end.
    discriminate.
  - intros H. simpl in H. decompose [or] H; try subst chainId; try reflexivity.
    contradiction.
Qed.

Lemma queryUniswapV3Subgraph_run chainId query variables (log : list Client.Invocation) :
  Client.queryUniswapV3Subgraph THE_GRAPH_API_KEY network chainId query variables log =
    (queryResult (List.length log) chainId query variables,
     log ++ [ {| Client.inv_chainId := chainId;
                 Client.inv_query := query;
                 Client.inv_variables := variables |} ]).
Proof. reflexivity. Qed.

Lemma searchTokens_run chainId text limit (log : list Client.Invocation) :
  searchTokens chainId text limit log =
    if truthy (trim text)
    then (Normal {| TokenSearch.chainId := chainId;
                    TokenSearch.tokens :=
                      foundTokens (queryResult (List.length log) chainId TOKEN_SEARCH_QUERY
                                     (Client.TokenSearchVars (trim text) (Z.min limit 100))) |},
          log ++ [ {| Client.inv_chainId := chainId;
                      Client.inv_query := TOKEN_SEARCH_QUERY;
                      Client.inv_variables :=
                        Client.TokenSearchVars (trim text) (Z.min limit 100) |} ])
    else (Normal {| TokenSearch.chainId := chainId; TokenSearch.tokens := [] |}, log).
Proof.
  unfold TokenSearch.searchTokens.
  destruct (truthy (trim text)); simpl; [|reflexivity].
  unfold tryCatch, bind. rewrite queryUniswapV3Subgraph_run.
  destruct (queryResult _ _ _ _); reflexivity.
Qed.

Lemma getPoolsForToken_run chainId tokenAddress limit (log : list Client.Invocation) :
  getPoolsForToken chainId tokenAddress limit log =
    (Normal {| Pools.chainId := chainId;
               Pools.tokenAddress := toLowerCase tokenAddress;
               Pools.pools :=
                 Pools.foundPools chainId
                   (queryResult (List.length log) chainId Pools.POOLS_FOR_TOKEN_QUERY
                      (Client.PoolsForTokenVars (toLowerCase tokenAddress)
                         (Z.min limit 100))) |},
     log ++ [ {| Client.inv_chainId := chainId;
                 Client.inv_query := Pools.POOLS_FOR_TOKEN_QUERY;
                 Client.inv_variables :=
                   Client.PoolsForTokenVars (toLowerCase tokenAddress)
                     (Z.min limit 100) |} ]).
Proof.
  unfold Pools.getPoolsForToken, tryCatch, bind.
  rewrite queryUniswapV3Subgraph_run.
  destruct (queryResult _ _ _ _); reflexivity.
Qed.

Lemma enrich_run chainId token (log : list Client.Invocation) :
  enrich THE_GRAPH_API_KEY network chainId token log =
    (Normal (withPools token (poolsAt THE_GRAPH_API_KEY network (List.length log) chainId token)),
     log ++ [poolsInvocation chainId token]).
Proof.
  unfold enrich, tryCatch, bind. rewrite getPoolsForToken_run. reflexivity.
Qed.

Lemma mapM_enrich_run chainId (batch : list UniswapToken) :
  forall log : list Client.Invocation,
    mapM (enrich THE_GRAPH_API_KEY network chainId) batch log =
      (Normal (enrichedFrom THE_GRAPH_API_KEY network (List.length log) chainId batch),
       log ++ map (poolsInvocation chainId) batch).
Proof.
  induction batch as [|token rest IH]; intros log; simpl.
  - unfold ret. now rewrite app_nil_r.
  - unfold bind at 1. rewrite enrich_run.
    unfold bind at 1. rewrite IH.
    rewrite length_app. simpl List.length. rewrite Nat.add_1_r.
    rewrite <- app_assoc. reflexivity.
Qed.

Lemma enrichedFrom_nth chainId (batch : list UniswapToken) :
  forall n i,
    nth_error (enrichedFrom THE_GRAPH_API_KEY network n chainId batch) i =
      option_map
        (fun token => withPools token (poolsAt THE_GRAPH_API_KEY network (n + i) chainId token))
        (nth_error batch i).
Proof.
  induction batch as [|token rest IH]; intros n [|i]; simpl; try reflexivity.
  - now rewrite Nat.add_0_r.
  - rewrite IH. now rewrite Nat.add_succ_r.
Qed.

Lemma enrichedFrom_length chainId (batch : list UniswapToken) :
  forall n, List.length (enrichedFrom THE_GRAPH_API_KEY network n chainId batch)
            = List.length batch.
Proof.
  induction batch as [|token rest IH]; intros n; simpl; auto.
Qed.

Lemma insertByTvl_permutation (a : UniswapToken) (sorted : list UniswapToken) :
  Permutation (insertByTvl a sorted) (a :: sorted).
Proof.
  induction sorted as [|b rest IH]; simpl.
  - apply Permutation_refl.
  - destruct (Qle_bool (tvlUSD b) (tvlUSD a)).
    + apply Permutation_refl.
    + eapply perm_trans; [apply perm_skip, IH | apply perm_swap].
Qed.

(** Sorting keeps every token. *)
Lemma sortByTvlDesc_permutation (tokens : list UniswapToken) :
  Permutation (sortByTvlDesc tokens) tokens.
Proof.
  induction tokens as [|a rest IH]; simpl.
  - constructor.
  - eapply perm_trans; [apply insertByTvl_permutation | now apply perm_skip].
Qed.

Lemma POST_never_throws (request : NextRequest) (log : list Client.Invocation) :
  exists response log', POST request log = (Normal response, log').
Proof.
  unfold Route.POST, tryCatch.
  match goal with |- context [match ?m log with _ => _ end] => destruct (m log) as [[r|e] l] end;
    unfold ret; eauto.
Qed.

(** The chain check of the POST handler comes before any search. *)
Lemma POST_rejects_unsupported (body : JsValue) (chainId : Z)
    (log : list Client.Invocation) :
  property body "chainId" = Some (JNumber chainId) ->
  isChainSupported chainId = false ->
  POST {| json := Normal body |} log =
    (Normal {| status := 400;
               body := {| error := Some ("Chain " ++ Z_toString chainId ++
                                         " is not supported for Uniswap v3 queries")%string;
                          Route.chainId := Some chainId;
                          tokens := Some [] |} |},
     log).
Proof.
  intros Hprop Hsup.
  unfold Route.POST, tryCatch, bind, lift. cbn [json].
  destruct body; try discriminate Hprop; rewrite Hprop, Hsup; reflexivity.
Qed.

Lemma unsupported_cases (chainId : Z) :
  hasKey chainId = false \/ subgraphIdOf chainId = Some "" ->
  isChainSupported chainId = false.
Proof.
  unfold isChainSupported, hasSubgraphId.
  intros [-> | ->]; [reflexivity | apply andb_false_r].
Qed.

(** C6. For a chain id that is no key of the registry, or whose subgraph
    id is empty, the endpoint answers 400 with [tokens: []] and the log of
    subgraph queries is left as it was: the query function is not
    invoked. *)
Theorem POST_unsupported_chain (body : JsValue) (chainId : Z)
    (log : list Client.Invocation) :
  property body "chainId" = Some (JNumber chainId) ->
  hasKey chainId = false \/ subgraphIdOf chainId = Some "" ->
  POST {| json := Normal body |} log =
    (Normal {| status := 400;
               body := {| error := Some ("Chain " ++ Z_toString chainId ++
                                         " is not supported for Uniswap v3 queries")%string;
                          Route.chainId := Some chainId;
                          tokens := Some [] |} |},
     log).
Proof.
  intros Hprop Hunsupported.
  apply POST_rejects_unsupported; [assumption | now apply unsupported_cases].
Qed.

(** The same holds through the GET entry point. *)
Lemma GET_unsupported_chain (chainIdParam query : string) (chainId : Z)
    (log : list Client.Invocation) :
  parseInt chainIdParam = Some chainId -> truthy query = true ->
  hasKey chainId = false \/ subgraphIdOf chainId = Some "" ->
  exists message,
    GET {| Route.chainIdParam := Some chainIdParam; queryParam := Some query |} log =
      (Normal {| status := 400;
                 body := {| error := Some message; Route.chainId := Some chainId;
                            tokens := Some [] |} |},
       log).
Proof.
  intros Hparse Hq Hunsupported.
  unfold Route.GET, tryCatch. cbn [Route.chainIdParam queryParam].
  destruct chainIdParam as [|c cs]; [discriminate Hparse|].
  destruct query as [|q qs]; [discriminate Hq|].
  rewrite Hparse.
  rewrite (POST_rejects_unsupported (bodyOf chainId (String q qs)) chainId log
             eq_refl (unsupported_cases chainId Hunsupported)).
  eauto.
Qed.

(** C3 (what the code does). When [request.json()] throws an [Error],
    the handler answers 500 with [tokens: []], and its [error] member is
    the message of that internal error, not a generic text. *)
Theorem POST_internal_error_message_is_surfaced :
  Route.POST None (fun _ _ _ _ => Client.Rejected NonError)
    {| json := Throw (ErrorObj "Unexpected end of JSON input") |} [] =
    (Normal {| status := 500;
               body := {| error := Some "Unexpected end of JSON input";
                          Route.chainId := Some 0;
                          tokens := Some [] |} |},
     []).
Proof. reflexivity. Qed.

Lemma POST_error_member (request : NextRequest) (e : thrown)
    (log : list Client.Invocation) :
  json request = Throw e ->
  POST request log =
    (Normal {| status := 500;
               body := {| error := Some (messageOr "Internal server error" e);
                          Route.chainId := Some 0;
                          tokens := Some [] |} |},
     log).
Proof.
  intros H. unfold Route.POST, tryCatch, bind, lift. rewrite H. reflexivity.
Qed.

Lemma POST_null_body (log : list Client.Invocation) :
  POST {| json := Normal JNull |} log =
    (Normal {| status := 500;
               body := {| error :=
                            Some "Cannot destructure property 'chainId' of 'body' as it is null.";
                          Route.chainId := Some 0;
                          tokens := Some [] |} |},
     log).
Proof. reflexivity. Qed.

(** POST reads two members of a body and nothing else: a body that
    carries a number as [chainId] and a string as [query] is answered as
    the object made of these two. *)
Lemma POST_reads_two_members (body : JsValue) (chainId : Z) (query : string)
    (log : list Client.Invocation) :
  property body "chainId" = Some (JNumber chainId) ->
  property body "query" = Some (JString query) ->
  POST {| json := Normal body |} log =
    POST {| json := Normal (JObject [("chainId", JNumber chainId);
                                     ("query", JString query)]) |} log.
Proof.
  intros Hchain Hquery. unfold Route.POST, tryCatch, bind at 1 3, lift. cbn [json].
  change (property (JObject [("chainId", JNumber chainId); ("query", JString query)])
            "chainId") with (Some (JNumber chainId)).
  change (property (JObject [("chainId", JNumber chainId); ("query", JString query)])
            "query") with (Some (JString query)).
  destruct body; try discriminate Hchain. now rewrite Hchain, Hquery.
Qed.


(** C8. A failing pool fetch stays with its token.  For a supported
    chain and a string query the endpoint answers 200; its [tokens] are
    the tokens selected for enrichment (the found tokens by descending
    TVL, at most ten; all of them when at most ten were found), one entry
    each and in that order, every entry carrying the fields of its token;
    and the entry of a token whose pool query throws has [pools: []]. *)
Theorem enrichment_failure_is_isolated (body : JsValue) (chainId : Z) (query : string) :
  property body "chainId" = Some (JNumber chainId) ->
  isChainSupported chainId = true ->
  property body "query" = Some (JString query) ->
  exists searchResult tokensWithPools,
    fst (searchTokens chainId query 10 []) = Normal searchResult /\
    fst (POST {| json := Normal body |} []) =
      Normal {| status := 200;
                body := {| error := None; Route.chainId := Some chainId;
                           tokens := Some tokensWithPools |} |} /\
    let batch := firstn 10 (sortByTvlDesc (TokenSearch.tokens searchResult)) in
    ((List.length (TokenSearch.tokens searchResult) <= 10)%nat ->
       Permutation batch (TokenSearch.tokens searchResult)) /\
    List.length tokensWithPools = List.length batch /\
    forall i token,
      nth_error batch i = Some token ->
      exists pools,
        nth_error tokensWithPools i = Some (withPools token pools) /\
        (forall e,
            queryResult (S i) chainId Pools.POOLS_FOR_TOKEN_QUERY
              (Client.PoolsForTokenVars (toLowerCase (address token)) 10) = Throw e ->
            pools = []).
Proof.
  intros Hchain Hsup Hquery.
  pose proof (searchTokens_run chainId query 10 []) as Hsearch.
  cbn [List.length app] in Hsearch.
  remember (foundTokens
              (queryResult 0%nat chainId TOKEN_SEARCH_QUERY
                 (Client.TokenSearchVars (trim query) (Z.min 10 100)))) as found
    eqn:Hfound.
  assert (Hperm : forall l : list UniswapToken,
             (List.length l <= 10)%nat -> Permutation (firstn 10 (sortByTvlDesc l)) l).
  { intros l Hl. rewrite firstn_all2.
    - apply sortByTvlDesc_permutation.
    - now rewrite (Permutation_length (sortByTvlDesc_permutation l)). }
  assert (HPOST :
             Route.POST THE_GRAPH_API_KEY network {| json := Normal body |} [] =
             tryCatch
               (searchResult <- searchTokens chainId query 10 ;;
                match TokenSearch.tokens searchResult with
                | [] => ret (respond 200
                          {| error := None; Route.chainId := Some chainId; tokens := Some [] |})
                | _ :: _ =>
                    tokensWithPools <-
                      mapM (enrich THE_GRAPH_API_KEY network chainId)
                        (firstn 10 (sortByTvlDesc (TokenSearch.tokens searchResult))) ;;
                    ret (respond 200
                           {| error := None; Route.chainId := Some chainId;
                              tokens := Some tokensWithPools |})
                end)
               (fun error =>
                  ret (respond 500
                         {| error := Some (messageOr "Internal server error" error);
                            Route.chainId := Some 0; tokens := Some [] |})) []).
  { unfold Route.POST, tryCatch, bind at 1, lift. cbn [json].
    destruct body; try discriminate Hchain; rewrite Hchain, Hsup, Hquery; reflexivity. }
  rewrite HPOST. clear HPOST.
  unfold tryCatch, bind at 1. rewrite Hsearch.
  destruct (truthy (trim query)) eqn:Hblank.
  - (* the search queried the subgraph: invocation 0 *)
    cbn [TokenSearch.tokens List.length app].
    exists {| TokenSearch.chainId := chainId; TokenSearch.tokens := found |}.
    cbn [TokenSearch.tokens fst].
    destruct found as [|t0 rest].
    + exists []. split; [reflexivity|]. split; [reflexivity|].
      cbv zeta. split; [|split].
      * intros _. constructor.
      * reflexivity.
      * intros [|i] token H; discriminate H.
    + set (batch := firstn 10 (sortByTvlDesc (t0 :: rest))).
      unfold bind. rewrite mapM_enrich_run. cbn [List.length fst].
      exists (enrichedFrom THE_GRAPH_API_KEY network 1 chainId batch).
      split; [reflexivity|]. split; [reflexivity|].
      cbv zeta. split; [|split].
      * intros Hl. exact (Hperm (t0 :: rest) Hl).
      * apply enrichedFrom_length.
      * intros i token Hi.
        exists (poolsAt THE_GRAPH_API_KEY network (S i) chainId token).
        split.
        -- rewrite enrichedFrom_nth, Hi. reflexivity.
        -- intros e He. unfold poolsAt.
           change (Z.min 10 100) with 10. rewrite He. reflexivity.
  - (* a blank query: nothing is searched and nothing is found *)
    cbn [TokenSearch.tokens fst].
    exists {| TokenSearch.chainId := chainId; TokenSearch.tokens := [] |}, [].
    split; [reflexivity|]. split; [reflexivity|].
    cbv zeta. split; [|split].
    + intros _. constructor.
    + reflexivity.
    + intros [|i] token H; discriminate H.
Qed.

End RouteFacts.

Section RouteExamples.
Import Subgraphs TokenSearch Route.

(** Sepolia is a key of the registry with an empty subgraph id. *)
Lemma POST_unsupported_chain_sepolia :
  Route.POST None (fun _ _ _ _ => Client.Rejected NonError)
    {| json := Normal (bodyOf 11155111 "usdc") |} [] =
    (Normal {| status := 400;
               body := {| error := Some "Chain 11155111 is not supported for Uniswap v3 queries";
                          Route.chainId := Some 11155111;
                          tokens := Some [] |} |},
     []).
Proof.
  apply (POST_unsupported_chain None (fun _ _ _ _ => Client.Rejected NonError)
           (bodyOf 11155111 "usdc") 11155111 []).
  - reflexivity.
  - right. reflexivity.
Defined.



(** Two tokens are found; the pool query of BBB (the larger TVL, hence
    enriched first) times out: both tokens are returned, BBB without
    pools. *)
Lemma enrichment_failure_is_isolated_two_tokens :
  (exists searchResult tokensWithPools,
      fst (TokenSearch.searchTokens (Some "key") twoTokenIndexer 1 "a" 10 []) =
        Normal searchResult /\
      fst (Route.POST (Some "key") twoTokenIndexer {| json := Normal (bodyOf 1 "a") |} []) =
        Normal {| status := 200;
                  body := {| error := None; Route.chainId := Some 1;
                             tokens := Some tokensWithPools |} |} /\
      let batch := firstn 10 (sortByTvlDesc (TokenSearch.tokens searchResult)) in
      ((List.length (TokenSearch.tokens searchResult) <= 10)%nat ->
         Permutation batch (TokenSearch.tokens searchResult)) /\
      List.length tokensWithPools = List.length batch /\
      forall i token,
        nth_error batch i = Some token ->
        exists pools,
          nth_error tokensWithPools i = Some (withPools token pools) /\
          (forall e,
              Client.queryResult (Some "key") twoTokenIndexer (S i) 1
                Pools.POOLS_FOR_TOKEN_QUERY
                (Client.PoolsForTokenVars (toLowerCase (address token)) 10) = Throw e ->
              pools = [])) /\
  option_map (map (fun t => (TokenWithPools.symbol t, List.length (TokenWithPools.pools t))))
    (match fst (Route.POST (Some "key") twoTokenIndexer
                  {| json := Normal (bodyOf 1 "a") |} []) with
     | Normal response => tokens (body response)
     | Throw _ => None
     end) = Some [("BBB", 0%nat); ("AAA", 1%nat)].
Proof.
  split.
  - apply (enrichment_failure_is_isolated (Some "key") twoTokenIndexer (bodyOf 1 "a") 1 "a");
      reflexivity.
  - vm_compute. reflexivity.
Defined.

End RouteExamples.

(* ----------------------------------------------------------------- *)
(** ** The search orchestrator *)


Section AddressPattern.

Lemma isHexDigit_not_whiteSpace (c : ascii) :
  SearchBar.isHexDigit c = true -> isWhiteSpace c = false.
Proof.
  destruct c as [[] [] [] [] [] [] [] []]; vm_compute; congruence.
Qed.

Lemma allHex_noWhiteSpace (s : string) : SearchBar.allHex s = true -> noWhiteSpace s = true.
Proof.
  induction s as [|c r IH]; simpl; [reflexivity|].
  intros H. apply andb_prop in H as [Hc Hr].
  now rewrite (isHexDigit_not_whiteSpace c Hc), (IH Hr).
Qed.

(** A string of the address shape is [0x] and forty hex digits. *)
Lemma isAddressPattern_shape (s : string) :
  SearchBar.isAddressPattern s = true ->
  exists r, s = String "0" (String "x" r) /\ String.length r = 40%nat
            /\ SearchBar.allHex r = true.
Proof.
  destruct s as [|c0 [|c1 r]].
  - discriminate.
  - destruct c0 as [[] [] [] [] [] [] [] []]; discriminate.
  - destruct c0 as [[] [] [] [] [] [] [] []]; try discriminate;
      destruct c1 as [[] [] [] [] [] [] [] []]; try discriminate.
    cbn [SearchBar.isAddressPattern]. intros H. apply andb_prop in H as [Hlen Hhex].
    exists r. repeat split; [now apply Nat.eqb_eq | assumption].
Qed.

Lemma isAddressPattern_trim (s : string) :
  SearchBar.isAddressPattern s = true -> trim s = s.
Proof.
  intros H. destruct (isAddressPattern_shape s H) as (r & -> & _ & Hhex).
  apply trim_noWhiteSpace. simpl. now apply allHex_noWhiteSpace.
Qed.


End AddressPattern.

Section OrchestratorFacts.
Import Subgraphs SearchBar.

Variable chainId : Z.
Variable getTokensByChain : Z -> list Token.t.

Local Abbreviation performSearch := (SearchBar.performSearch chainId getTokensByChain).
Local Abbreviation searchAlone := (SearchBar.searchAlone chainId getTokensByChain).
Local Abbreviation localTokenMatches := (SearchBar.localTokenMatches chainId getTokensByChain).
Local Abbreviation mergeAndRender := (SearchBar.mergeAndRender chainId getTokensByChain).
Local Abbreviation remoteEntry := (SearchBar.liquidityTokenToSearchResult chainId).

Lemma mergeAndRender_results (searchQuery : string) (found : list SearchResult) (st : State) :
  results (mergeAndRender searchQuery found st) =
    found ++ localTokenMatches searchQuery found ++ suggestionsFor searchQuery.
Proof.
  unfold SearchBar.mergeAndRender, suggestionsFor.
  destruct (String.length searchQuery <? 2)%nat; simpl.
  - now rewrite <- app_assoc.
  - now rewrite app_nil_r.
Qed.

Lemma truthy_nonempty (s : string) : s <> "" -> truthy s = true.
Proof. destruct s; [congruence | reflexivity]. Qed.

(** The three shapes of a run of [performSearch]. *)
Lemma performSearch_blank (searchQuery : string) (st : State) :
  trim searchQuery = "" ->
  performSearch searchQuery st = Done (setSearchError None (setResults [] st)).
Proof.
  intros H. unfold SearchBar.performSearch. now rewrite H.
Qed.

(** What the rest of a suspended search renders: the merged list for a
    body of the declared type, nothing for a body whose reads throw. *)
Lemma resumed_results (reply : ApiReply) (searchQuery : string) (st : State) :
  results
    (match readError (fetchUniswapLiquidity chainId reply) with
     | Throw error => searchFailed error st
     | Normal error =>
         match readTokens (fetchUniswapLiquidity chainId reply) with
         | Throw error' =>
             searchFailed error'
               (match error with
                | Some e => if truthy e then setSearchError (Some e) st else st
                | None => st
                end)
         | Normal tokens =>
             mergeAndRender searchQuery (map remoteEntry tokens)
               (match error with
                | Some e => if truthy e then setSearchError (Some e) st else st
                | None => st
                end)
         end
     end) =
    match fetchUniswapLiquidity chainId reply with
    | Declared data =>
        map remoteEntry (tokens data)
        ++ localTokenMatches searchQuery (map remoteEntry (tokens data))
        ++ suggestionsFor searchQuery
    | _ => []
    end.
Proof.
  destruct (fetchUniswapLiquidity chainId reply) as [data | | e [| |]];
    cbn [readError readTokens]; try reflexivity.
  apply mergeAndRender_results.
Qed.

Lemma searchAlone_tokens (reply : ApiReply) (searchQuery : string) (st : State) :
  trim searchQuery <> "" ->
  isAddressPattern (trim searchQuery) = false ->
  results (searchAlone reply searchQuery st) =
    if isChainSupported chainId
    then
      match fetchUniswapLiquidity chainId reply with
      | Declared data =>
          map remoteEntry (tokens data)
          ++ localTokenMatches searchQuery (map remoteEntry (tokens data))
          ++ suggestionsFor searchQuery
      | _ => []
      end
    else localTokenMatches searchQuery [] ++ suggestionsFor searchQuery.
Proof.
  intros Hblank Haddr.
  unfold SearchBar.searchAlone, SearchBar.performSearch.
  rewrite (truthy_nonempty _ Hblank), Haddr. simpl negb. cbv iota.
  destruct (isChainSupported chainId); cbv zeta.
  - apply resumed_results.
  - apply mergeAndRender_results.
Qed.


Lemma remoteEntry_type (t : LiquidityTokenResult) : type (remoteEntry t) = token.
Proof. reflexivity. Qed.


Lemma localTokenMatches_length (searchQuery : string) (found : list SearchResult) :
  (List.length (localTokenMatches searchQuery found) <= 5)%nat.
Proof.
  unfold SearchBar.localTokenMatches. rewrite length_map.
  match goal with
  | |- (List.length (filter ?f ?l) <= 5)%nat =>
      assert (H1 : (List.length (filter f l) <= List.length l)%nat) by apply filter_length_le;
      assert (H2 : (List.length l <= 5)%nat) by apply firstn_le_length
  end.
  lia.
Qed.

Lemma filter_none {A : Type} (f : A -> bool) (l : list A) :
  (forall x, In x l -> f x = false) -> filter f l = [].
Proof.
  induction l as [|x l IH]; intros H; simpl; [reflexivity|].
  rewrite (H x (or_introl eq_refl)). apply IH. intros y Hy. apply H. now right.
Qed.

(** A local match that survives the second [filter] shares its address
    with no entry found so far. *)
Lemma localTokenMatches_fresh (searchQuery : string) (found : list SearchResult)
    (a : string) :
  existsb (hasAddress a) found = true ->
  entriesFor a (localTokenMatches searchQuery found) = [].
Proof.
  intros Hfound. unfold entriesFor, SearchBar.localTokenMatches.
  rewrite filter_map_swap.
  match goal with |- map _ ?l = [] => assert (Hnil : l = []); [|now rewrite Hnil] end.
  apply filter_none. intros tok Htok.
  apply filter_In in Htok as [_ Hkept]. apply negb_true_iff in Hkept.
  destruct (hasAddress a (localTokenToSearchResult chainId tok)) eqn:Ha;
    [|reflexivity].
  rewrite <- Hkept. symmetry.
  apply existsb_exists in Hfound as (r & Hr & Hra).
  apply existsb_exists. exists r. split; [assumption|].
  unfold hasAddress in Ha, Hra. unfold sameAddress.
  cbn [metadata localTokenToSearchResult Metadata.address] in Ha.
  destruct (metadata r) as [md|]; [|discriminate].
  destruct (Metadata.address md) as [x|]; [|discriminate].
  apply String.eqb_eq in Ha, Hra. apply String.eqb_eq. congruence.
Qed.

Lemma entriesFor_app (a : string) (l1 l2 : list SearchResult) :
  entriesFor a (l1 ++ l2) = entriesFor a l1 ++ entriesFor a l2.
Proof. apply filter_app. Qed.

Lemma entriesFor_suggestions (a searchQuery : string) :
  entriesFor a (suggestionsFor searchQuery) = [].
Proof.
  unfold suggestionsFor. now destruct (String.length searchQuery <? 2)%nat.
Qed.

(** The rest of a suspended search never looks at its
    [AbortController]: whatever the state is when the reply arrives, the
    list of this search replaces the rendered one. *)
Lemma resume_replaces_results (searchQuery : string) (st0 st1 : State)
    (resume : ApiReply -> State -> State) :
  performSearch searchQuery st0 = Await st1 resume ->
  forall (reply : ApiReply) (st : State),
    results (resume reply st) = results (searchAlone reply searchQuery st0).
Proof.
  intros Hrun reply st. unfold SearchBar.searchAlone. rewrite Hrun.
  unfold SearchBar.performSearch in Hrun.
  destruct (negb (truthy (trim searchQuery))); [discriminate Hrun|].
  destruct (isAddressPattern (trim searchQuery)); [discriminate Hrun|].
  destruct (isChainSupported chainId); [|discriminate Hrun].
  injection Hrun as _ <-. cbv beta zeta.
  now rewrite !resumed_results.
Qed.

(** C7. A query of the address shape yields exactly one result, of kind
    [address]; the run finishes without awaiting anything and the log of
    outside calls is unchanged: no request to the aggregation endpoint and
    no read of the local registry. *)
Theorem address_query_short_circuits (searchQuery : string) (st : State) :
  isAddressPattern searchQuery = true ->
  exists st' entry,
    performSearch searchQuery st = Done st' /\
    results st' = [entry] /\
    type entry = address /\
    calls st' = calls st.
Proof.
  intros H. unfold SearchBar.performSearch.
  rewrite (isAddressPattern_trim searchQuery H), H.
  destruct (isAddressPattern_shape searchQuery H) as (r & -> & _ & _).
  cbn [truthy negb].
  eexists. exists (addressResult chainId (String "0" (String "x" r))).
  repeat split.
Qed.



(** C5 (as amended). On a supported chain, for a query that is neither
    blank nor an address, and a response of the declared type: the
    merged list is the remote entries, then at most five local entries,
    then the suggestions; and for every address of the aggregation
    response no local entry carries it, so the merged entries for that
    address are exactly the remote-sourced ones, as many as the response
    lists it: exactly one when it lists it once.  (A body without a
    token list contains no address, and the list is then empty.) *)
Theorem merged_list_prefers_remote (reply : ApiReply) (searchQuery : string) (st : State) :
  isChainSupported chainId = true ->
  trim searchQuery <> "" ->
  isAddressPattern (trim searchQuery) = false ->
  let merged := results (searchAlone reply searchQuery st) in
  match fetchUniswapLiquidity chainId reply with
  | Declared response =>
      let remote := map remoteEntry (tokens response) in
      exists local,
        merged = remote ++ local ++ suggestionsFor searchQuery /\
        (List.length local <= 5)%nat /\
        forall a,
          In a (map Route.TokenWithPools.address (tokens response)) ->
          entriesFor a local = [] /\
          entriesFor a merged =
            map remoteEntry
              (filter (fun t => String.eqb (toLowerCase (Route.TokenWithPools.address t))
                                  (toLowerCase a))
                 (tokens response))
  | _ => merged = []
  end.
Proof.
  intros Hsup Hblank Haddr merged.
  pose proof (searchAlone_tokens reply searchQuery st Hblank Haddr) as Hmerged.
  rewrite Hsup in Hmerged. fold merged in Hmerged.
  destruct (fetchUniswapLiquidity chainId reply) as [response | | e m];
    [|exact Hmerged | exact Hmerged].
  cbv zeta. set (remote := map remoteEntry (tokens response)) in *.
  exists (localTokenMatches searchQuery remote).
  split; [exact Hmerged|]. split; [apply localTokenMatches_length|].
  intros a Ha.
  assert (Hfresh : entriesFor a (localTokenMatches searchQuery remote) = []).
  { apply localTokenMatches_fresh. apply existsb_exists.
    apply in_map_iff in Ha as (t & <- & Ht).
    exists (remoteEntry t). split; [now apply in_map|].
    unfold hasAddress. cbn. apply String.eqb_refl. }
  split; [exact Hfresh|].
  rewrite Hmerged, !entriesFor_app, Hfresh, entriesFor_suggestions, app_nil_r.
  unfold entriesFor, remote. apply filter_map_swap.
Qed.

End OrchestratorFacts.

Section OrchestratorExamples.
Import SearchBar.

(** The USDC contract address, typed in on mainnet. *)
Lemma address_query_short_circuits_example :
  exists st' entry,
    SearchBar.performSearch 1 registry "0xA0b86991c6218b36c1d19D4a2e9Eb0cE3606eB48"
      initialState = Done st' /\
    results st' = [entry] /\
    type entry = address /\
    calls st' = calls initialState.
Proof.
  apply (address_query_short_circuits 1 registry
           "0xA0b86991c6218b36c1d19D4a2e9Eb0cE3606eB48" initialState).
  reflexivity.
Defined.


(** A query of one character does show token entries before the
    suggestions. *)
Lemma one_character_query_shows_tokens :
  map title (results (SearchBar.searchAlone 1 registry (okReply [remoteUsdc]) "a"
                        initialState)) =
    ["USDC"; "AAPLx"; "Swap tokens"; "View holdings"].
Proof. vm_compute. reflexivity. Qed.


(** The same query answered 200 with the body [null]: the search fails,
    the list is emptied and the [TypeError] is shown. *)
Lemma null_body_empties_the_list :
  results (SearchBar.searchAlone 1 registry (Ok (Normal NullBody)) "U" initialState) = [] /\
  searchError (SearchBar.searchAlone 1 registry (Ok (Normal NullBody)) "U" initialState) =
    Some "Cannot read properties of null (reading 'error')".
Proof. split; reflexivity. Qed.

(** C5 (as stated) fails for a response that lists an address twice:
    the address is in the response and in the registry, and the merged
    list carries it twice. *)
Lemma duplicated_remote_address_is_listed_twice :
  In usdcAddress (map Route.TokenWithPools.address [remoteUsdc; remoteUsdc]) /\
  In usdcAddress (map (fun t => toLowerCase (Token.address t)) (registry 1)) /\
  List.length
    (entriesFor usdcAddress
       (results (SearchBar.searchAlone 1 registry (okReply [remoteUsdc; remoteUsdc]) "usd"
                   initialState))) = 2%nat /\
  List.length
    (entriesFor usdcAddress
       (results (SearchBar.searchAlone 1 registry (okReply [remoteUsdc; remoteUsdc]) "usd"
                   initialState))) <> 1%nat.
Proof.
  split; [now left|]. split; [now left|].
  split; [vm_compute; reflexivity | vm_compute; discriminate].
Qed.

(** The query "usd" on mainnet, USDC being both in the response and in
    the registry. *)
Lemma merged_list_prefers_remote_example :
  let response := {| chainId := 1; tokens := [remoteUsdc]; error := None |} in
  let remote := map (liquidityTokenToSearchResult 1) (tokens response) in
  let merged :=
    results (SearchBar.searchAlone 1 registry (okReply [remoteUsdc]) "usd" initialState) in
  exists local,
    merged = remote ++ local ++ suggestionsFor "usd" /\
    (List.length local <= 5)%nat /\
    forall a,
      In a (map Route.TokenWithPools.address (tokens response)) ->
      entriesFor a local = [] /\
      entriesFor a merged =
        map (liquidityTokenToSearchResult 1)
          (filter (fun t => String.eqb (toLowerCase (Route.TokenWithPools.address t))
                              (toLowerCase a))
             (tokens response)).
Proof.
  apply (merged_list_prefers_remote 1 registry (okReply [remoteUsdc]) "usd" initialState).
  - reflexivity.
  - discriminate.
  - reflexivity.
Defined.

(** The merged list of that search: the remote USDC entry only. *)
Lemma merged_list_example_ids :
  map id (results (SearchBar.searchAlone 1 registry (okReply [remoteUsdc]) "usd"
                     initialState)) =
    ["uniswap-token-0xa0b86991c6218b36c1d19d4a2e9eb0ce3606eb48"].
Proof. vm_compute. reflexivity. Qed.

(** C1 (what the code does). Two overlapping searches on mainnet: "A" is
    issued, then "AB"; the reply for "AB" arrives and is rendered; then
    the reply for "A" arrives.  The controller of the first search was
    aborted when the second was issued, yet its reply is rendered over
    the results of "AB". *)
Theorem stale_response_overwrites_results :
  let rendered ts :=
    map title (results (state (runTasks 1 emptyRegistry initialSurface ts))) in
  rendered (firstn 3 overlappingSearches) = ["ABT"] /\
  nth_error
    (controllers
       (state (runTasks 1 emptyRegistry initialSurface (firstn 3 overlappingSearches))))
    0 = Some true /\
  rendered overlappingSearches = ["AAVE"; "Swap tokens"; "View holdings"] /\
  results (state (runTasks 1 emptyRegistry initialSurface overlappingSearches)) =
    results (SearchBar.searchAlone 1 emptyRegistry replyA "A" initialState).
Proof.
  cbv zeta. repeat split; vm_compute; reflexivity.
Qed.

End OrchestratorExamples.

(* ----------------------------------------------------------------- *)
(** ** Endpoint resolution and the GraphQL client *)

Section SubgraphFacts.
Import Subgraphs.

Lemma unsupported_has_no_url (key : option string) (chainId : Z) :
  isChainSupported chainId = false -> getSubgraphUrl key chainId = Normal "".
Proof.
  unfold isChainSupported, hasKey, hasSubgraphId, getSubgraphUrl, subgraphIdOf.
  destruct (lookup chainId) as [[c id]|]; cbn [option_map snd andb]; [|reflexivity].
  now intros ->.
Qed.

(** X1. An unsupported chain is refused whatever the API key is (the key is
    not read), and the message names the nine supported chains in the
    order of their ids. *)
Theorem endpoint_unsupported_chain (key : option string) (chainId : Z) :
  isChainSupported chainId = false ->
  getUniswapV3SubgraphEndpoint key chainId =
    Throw (ErrorObj
      ("No Uniswap v3 subgraph configured for chainId=" ++ Z_toString chainId ++ ". " ++
       "Supported chains: " ++
       "ETHEREUM, OPTIMISM, BSC, POLYGON, BASE, ARBITRUM, CELO, AVALANCHE, BLAST")%string).
Proof.
  intros H. unfold getUniswapV3SubgraphEndpoint.
  rewrite (unsupported_has_no_url key chainId H). reflexivity.
Qed.

(** X2. A supported chain resolves to the gateway URL of its subgraph id
    exactly when an API key is configured; without one (unset or empty)
    the resolution throws. *)
Theorem endpoint_supported_chain (chainId : Z) :
  isChainSupported chainId = true ->
  exists subgraphId,
    subgraphIdOf chainId = Some subgraphId /\
    subgraphId <> "" /\
    (forall apiKey,
        apiKey <> "" ->
        getUniswapV3SubgraphEndpoint (Some apiKey) chainId =
          Normal ("https://gateway.thegraph.com/api/" ++ apiKey ++
                  "/subgraphs/id/" ++ subgraphId)%string) /\
    (exists e, getUniswapV3SubgraphEndpoint None chainId = Throw e) /\
    (exists e, getUniswapV3SubgraphEndpoint (Some "") chainId = Throw e).
Proof.
  unfold isChainSupported, hasSubgraphId.
  intros H. apply andb_prop in H as [_ H].
  destruct (subgraphIdOf chainId) as [id|] eqn:Hid; [|discriminate].
  exists id. split; [reflexivity|].
  split; [now destruct id|].
  unfold getUniswapV3SubgraphEndpoint, getSubgraphUrl. rewrite Hid, H.
  split; [|split].
  - intros apiKey Hkey. unfold buildSubgraphUrl, getGraphApiKey.
    destruct apiKey; [congruence|]. reflexivity.
  - eexists. reflexivity.
  - eexists. reflexivity.
Qed.

End SubgraphFacts.

Lemma endpoint_unsupported_chain_example :
  Subgraphs.getUniswapV3SubgraphEndpoint (Some "key") 5 =
    Throw (ErrorObj
      ("No Uniswap v3 subgraph configured for chainId=5. " ++
       "Supported chains: " ++
       "ETHEREUM, OPTIMISM, BSC, POLYGON, BASE, ARBITRUM, CELO, AVALANCHE, BLAST")%string).
Proof.
  apply (endpoint_unsupported_chain (Some "key") 5). reflexivity.
Defined.

Lemma endpoint_supported_chain_example :
  exists subgraphId,
    Subgraphs.subgraphIdOf 8453 = Some subgraphId /\
    subgraphId <> "" /\
    (forall apiKey,
        apiKey <> "" ->
        Subgraphs.getUniswapV3SubgraphEndpoint (Some apiKey) 8453 =
          Normal ("https://gateway.thegraph.com/api/" ++ apiKey ++
                  "/subgraphs/id/" ++ subgraphId)%string) /\
    (exists e, Subgraphs.getUniswapV3SubgraphEndpoint None 8453 = Throw e) /\
    (exists e, Subgraphs.getUniswapV3SubgraphEndpoint (Some "") 8453 = Throw e).
Proof.
  apply (endpoint_supported_chain 8453). reflexivity.
Defined.

Section ClientFacts.
Variable THE_GRAPH_API_KEY : option string.
Variable network : nat -> string -> string -> Client.Variables -> Client.FetchReply.

Local Abbreviation queryResult := (Client.queryResult THE_GRAPH_API_KEY network).
Local Abbreviation endpointOf :=
  (Subgraphs.getUniswapV3SubgraphEndpoint THE_GRAPH_API_KEY).

(** X3. A query succeeds exactly when the endpoint resolves and the reply is
    an [ok] response whose body decodes, lists no error and has a [data]
    member; the payload is returned as it is (a payload with empty or
    missing lists is a success). *)
Theorem queryResult_success (n : nat) (chainId : Z) (query : string)
    (variables : Client.Variables) (d : Client.Data) :
  queryResult n chainId query variables = Normal d <->
  exists endpoint status statusText text errs,
    endpointOf chainId = Normal endpoint /\
    network n endpoint query variables =
      Client.Response true status statusText text
        (Normal {| Client.data := Some d; Client.errors := errs |}) /\
    (errs = None \/ errs = Some []).
Proof.
  unfold Client.queryResult. split.
  - destruct (endpointOf chainId) as [endpoint|e]; cbn [bindC]; [|discriminate].
    destruct (network n endpoint query variables)
      as [e | [|] status statusText text [[dat errs]|e]] eqn:Hreply;
      cbn [catchC negb bindC Client.errors Client.data].
    + destruct e; discriminate.
    + destruct errs as [[|m ms]|]; destruct dat as [d'|]; cbn [catchC];
        try discriminate; intros H; injection H as ->;
        exists endpoint, status, statusText, text; eexists;
        (split; [reflexivity|]); (split; [exact Hreply|]); auto.
    + destruct e; discriminate.
    + discriminate.
    + discriminate.
  - intros (endpoint & status & statusText & text & errs & -> & Hreply & Herrs).
    cbn [bindC]. rewrite Hreply. cbn [negb bindC Client.errors Client.data].
    destruct Herrs as [-> | ->]; reflexivity.
Qed.

(** X4. A failure after the endpoint was resolved is reported with the chain
    id in front of the original message: the message of the [Error] the
    fetch was rejected with or the decoding of the body threw, or the
    message the function itself gives for an error status, for GraphQL
    errors and for missing data.  Only a thrown value that is no [Error]
    is passed on as it is. *)
Theorem queryResult_failure_context (n : nat) (chainId : Z) (query : string)
    (variables : Client.Variables) (endpoint : string) :
  endpointOf chainId = Normal endpoint ->
  let outcome := queryResult n chainId query variables in
  let failed (original : string) :=
    outcome =
      Throw (ErrorObj ("Failed to query Uniswap v3 subgraph for chain " ++
                       Z_toString chainId ++ ": " ++ original)%string) in
  match network n endpoint query variables with
  | Client.Rejected (ErrorObj message) => failed message
  | Client.Rejected NonError => outcome = Throw NonError
  | Client.Response false status statusText text _ =>
      failed ("Uniswap subgraph HTTP error: " ++ Z_toString status ++ " " ++
              statusText ++ ". " ++
              match text with Normal body => body | Throw _ => statusText end)%string
  | Client.Response true _ _ _ (Throw (ErrorObj message)) => failed message
  | Client.Response true _ _ _ (Throw NonError) => outcome = Throw NonError
  | Client.Response true _ _ _ (Normal json) =>
      match Client.errors json, Client.data json with
      | Some (e :: es), _ =>
          failed ("Uniswap subgraph GraphQL error: " ++ String.concat ", " (e :: es) ++
                  ". " ++ "Query: " ++ String.substring 0 100 query ++ "...")%string
      | _, None => failed "Uniswap subgraph returned no data"
      | _, Some d => outcome = Normal d
      end
  end.
Proof.
  intros Hendpoint. cbv zeta. unfold Client.queryResult. rewrite Hendpoint. cbn [bindC].
  destruct (network n endpoint query variables)
    as [[message|] | [|] status statusText text [[dat errs]|[message|]]];
    cbn [catchC negb bindC Client.errors Client.data]; try reflexivity.
  destruct errs as [[|m ms]|]; destruct dat as [d'|]; reflexivity.
Qed.

End ClientFacts.

Lemma queryResult_success_example :
  Client.queryResult (Some "key") twoTokenIndexer 2 1 Pools.POOLS_FOR_TOKEN_QUERY
    (Client.PoolsForTokenVars "0xaaa" 10) =
    Normal {| Client.tokens := None; Client.pools := Some [rawPool] |}.
Proof.
  apply (proj2 (queryResult_success (Some "key") twoTokenIndexer 2 1
                  Pools.POOLS_FOR_TOKEN_QUERY (Client.PoolsForTokenVars "0xaaa" 10)
                  {| Client.tokens := None; Client.pools := Some [rawPool] |})).
  eexists. exists 200, "OK", (Normal ""), None.
  split; [reflexivity|]. split; [reflexivity|]. now left.
Defined.

Lemma queryResult_failure_context_example :
  Client.queryResult (Some "key") twoTokenIndexer 1 1 Pools.POOLS_FOR_TOKEN_QUERY
    (Client.PoolsForTokenVars "0xbbb" 10) =
    Throw (ErrorObj ("Failed to query Uniswap v3 subgraph for chain 1: " ++
                     "The operation was aborted due to timeout")%string).
Proof.
  exact (queryResult_failure_context (Some "key") twoTokenIndexer 1 1
           Pools.POOLS_FOR_TOKEN_QUERY (Client.PoolsForTokenVars "0xbbb" 10)
           "https://gateway.thegraph.com/api/key/subgraphs/id/5zvR82QoaXYFyDEKLZ9t6v9adgnptxYpKpSbxtgVENFV"
           eq_refl).
Defined.

(* ----------------------------------------------------------------- *)
(** ** Token search and pool enrichment *)

Section ServiceFacts.
Import TokenSearch.
Variable THE_GRAPH_API_KEY : option string.
Variable network : nat -> string -> string -> Client.Variables -> Client.FetchReply.

Lemma lowerChar_idempotent (c : ascii) : lowerChar (lowerChar c) = lowerChar c.
Proof.
  destruct c as [[] [] [] [] [] [] [] []]; reflexivity.
Qed.

Lemma toLowerCase_idempotent (s : string) : toLowerCase (toLowerCase s) = toLowerCase s.
Proof.
  induction s as [|c r IH]; simpl; [reflexivity|].
  now rewrite lowerChar_idempotent, IH.
Qed.

Lemma foundTokens_lowercase (outcome : completion Client.Data) :
  Forall (fun t => toLowerCase (address t) = address t) (foundTokens outcome).
Proof.
  destruct outcome as [d|e]; cbn [foundTokens]; [|constructor].
  apply Forall_forall. intros t Ht. apply in_map_iff in Ht as (raw & <- & _).
  cbn [toUniswapToken address]. apply toLowerCase_idempotent.
Qed.

(** X5. [searchTokens] never throws.  A blank text makes no query and finds
    nothing; any other text makes exactly one query, for the trimmed text
    and for at most 100 tokens (and no more than the limit).  A failed
    query finds nothing.  The addresses returned are lowercase. *)
Theorem searchTokens_contract (chainId : Z) (text : string) (limit : Z)
    (log : list Client.Invocation) :
  exists result log',
    searchTokens THE_GRAPH_API_KEY network chainId text limit log = (Normal result, log') /\
    TokenSearch.chainId result = chainId /\
    Forall (fun t => toLowerCase (address t) = address t) (tokens result) /\
    (trim text = "" -> tokens result = [] /\ log' = log) /\
    (trim text <> "" ->
     exists first,
       first <= 100 /\ first <= limit /\
       log' = log ++ [ {| Client.inv_chainId := chainId;
                          Client.inv_query := TOKEN_SEARCH_QUERY;
                          Client.inv_variables := Client.TokenSearchVars (trim text) first |} ] /\
       (forall e,
           Client.queryResult THE_GRAPH_API_KEY network (List.length log) chainId
             TOKEN_SEARCH_QUERY (Client.TokenSearchVars (trim text) first) = Throw e ->
           tokens result = [])).
Proof.
  rewrite searchTokens_run.
  destruct (trim text) as [|c r] eqn:Htrim; cbn [truthy].
  - do 2 eexists. split; [reflexivity|]. split; [reflexivity|].
    split; [constructor|]. split; [auto | congruence].
  - do 2 eexists. split; [reflexivity|]. split; [reflexivity|].
    split; [apply foundTokens_lowercase|]. split; [discriminate|].
    intros _. exists (Z.min limit 100).
    split; [apply Z.le_min_r|]. split; [apply Z.le_min_l|].
    split; [reflexivity|].
    intros e He. cbn [tokens]. now rewrite He.
Qed.

Lemma foundPools_normalised (chainId : Z) (outcome : completion Client.Data) :
  Forall (fun p =>
            Pools.UniswapPool.chainId p = chainId /\
            toLowerCase (Pools.UniswapPool.poolAddress p) = Pools.UniswapPool.poolAddress p /\
            toLowerCase (Pools.UniswapPoolToken.address (Pools.UniswapPool.token0 p)) =
              Pools.UniswapPoolToken.address (Pools.UniswapPool.token0 p) /\
            toLowerCase (Pools.UniswapPoolToken.address (Pools.UniswapPool.token1 p)) =
              Pools.UniswapPoolToken.address (Pools.UniswapPool.token1 p))
    (Pools.foundPools chainId outcome).
Proof.
  destruct outcome as [d|e]; cbn [Pools.foundPools]; [|constructor].
  apply Forall_forall. intros p Hp. apply in_map_iff in Hp as (raw & <- & _).
  unfold Pools.toUniswapPool, Pools.toPoolToken.
  cbn [Pools.UniswapPool.chainId Pools.UniswapPool.poolAddress Pools.UniswapPool.token0
       Pools.UniswapPool.token1 Pools.UniswapPoolToken.address].
  repeat split; apply toLowerCase_idempotent.
Qed.

(** X6. [getPoolsForToken] never throws and makes exactly one query, for the
    lowercased token address and for at most 100 pools; it depends on the
    address only up to letter case.  A failed query gives no pools.  The
    pools returned carry the chain id and lowercase addresses. *)
Theorem getPoolsForToken_contract (chainId : Z) (tokenAddress : string) (limit : Z)
    (log : list Client.Invocation) :
  exists result first,
    first <= 100 /\ first <= limit /\
    Pools.getPoolsForToken THE_GRAPH_API_KEY network chainId tokenAddress limit log =
      (Normal result,
       log ++ [ {| Client.inv_chainId := chainId;
                   Client.inv_query := Pools.POOLS_FOR_TOKEN_QUERY;
                   Client.inv_variables :=
                     Client.PoolsForTokenVars (toLowerCase tokenAddress) first |} ]) /\
    Pools.chainId result = chainId /\
    Pools.tokenAddress result = toLowerCase tokenAddress /\
    Forall (fun p =>
              Pools.UniswapPool.chainId p = chainId /\
              toLowerCase (Pools.UniswapPool.poolAddress p) = Pools.UniswapPool.poolAddress p /\
              toLowerCase (Pools.UniswapPoolToken.address (Pools.UniswapPool.token0 p)) =
                Pools.UniswapPoolToken.address (Pools.UniswapPool.token0 p) /\
              toLowerCase (Pools.UniswapPoolToken.address (Pools.UniswapPool.token1 p)) =
                Pools.UniswapPoolToken.address (Pools.UniswapPool.token1 p))
      (Pools.pools result) /\
    (forall e,
        Client.queryResult THE_GRAPH_API_KEY network (List.length log) chainId
          Pools.POOLS_FOR_TOKEN_QUERY
          (Client.PoolsForTokenVars (toLowerCase tokenAddress) first) = Throw e ->
        Pools.pools result = []) /\
    (forall other,
        toLowerCase other = toLowerCase tokenAddress ->
        Pools.getPoolsForToken THE_GRAPH_API_KEY network chainId other limit log =
        Pools.getPoolsForToken THE_GRAPH_API_KEY network chainId tokenAddress limit log).
Proof.
  rewrite getPoolsForToken_run.
  eexists. exists (Z.min limit 100).
  split; [apply Z.le_min_r|]. split; [apply Z.le_min_l|].
  split; [reflexivity|]. split; [reflexivity|]. split; [reflexivity|].
  split; [apply foundPools_normalised|].
  split.
  - intros e He. cbn [Pools.pools]. now rewrite He.
  - intros other Hother. rewrite getPoolsForToken_run. now rewrite Hother.
Qed.

End ServiceFacts.

(** USDC searched on mainnet with the two-token indexer; the pools of a
    checksummed address. *)
Lemma getPoolsForToken_mixed_case_example :
  Pools.getPoolsForToken (Some "key") twoTokenIndexer 1
    "0xA0b86991c6218b36c1d19D4a2e9Eb0cE3606eB48" 50 [] =
  Pools.getPoolsForToken (Some "key") twoTokenIndexer 1
    "0xa0b86991c6218b36c1d19d4a2e9eb0ce3606eb48" 50 [].
Proof.
  destruct (getPoolsForToken_contract (Some "key") twoTokenIndexer 1
              "0xa0b86991c6218b36c1d19d4a2e9eb0ce3606eb48" 50 [])
    as (result & first & _ & _ & _ & _ & _ & _ & _ & Hcase).
  apply Hcase. reflexivity.
Defined.

(* ----------------------------------------------------------------- *)
(** ** More on the aggregation endpoint *)

Section EndpointFacts.
Import Subgraphs TokenSearch Route.

Variable THE_GRAPH_API_KEY : option string.
Variable network : nat -> string -> string -> Client.Variables -> Client.FetchReply.

Local Abbreviation queryResult := (Client.queryResult THE_GRAPH_API_KEY network).
Local Abbreviation POST := (Route.POST THE_GRAPH_API_KEY network).
Local Abbreviation GET := (Route.GET THE_GRAPH_API_KEY network).
Local Abbreviation enrichedFrom := (Route.enrichedFrom THE_GRAPH_API_KEY network).

(** The run of the handler once the request is validated. *)
Lemma POST_search_run (body : JsValue) (chainId : Z) (query : string)
    (log : list Client.Invocation) :
  property body "chainId" = Some (JNumber chainId) ->
  isChainSupported chainId = true ->
  property body "query" = Some (JString query) ->
  POST {| json := Normal body |} log =
    (let searched := truthy (trim query) in
     let search :=
       {| Client.inv_chainId := chainId;
          Client.inv_query := TOKEN_SEARCH_QUERY;
          Client.inv_variables := Client.TokenSearchVars (trim query) 10 |} in
     let found :=
       if searched
       then foundTokens (queryResult (List.length log) chainId TOKEN_SEARCH_QUERY
                           (Client.TokenSearchVars (trim query) 10))
       else [] in
     let log1 := if searched then log ++ [search] else log in
     let batch := firstn 10 (sortByTvlDesc found) in
     (Normal {| status := 200;
                body := {| error := None; Route.chainId := Some chainId;
                           tokens := Some (enrichedFrom (List.length log1) chainId batch) |} |},
      log1 ++ map (poolsInvocation chainId) batch)).
Proof.
  intros Hchain Hsup Hquery. cbv zeta.
  unfold Route.POST, tryCatch, bind at 1, lift. cbn [json].
  assert (Hbody : body <> JNull) by (intros ->; discriminate Hchain).
  destruct body; try congruence; rewrite Hchain, Hsup, Hquery; cbn [negb];
    unfold bind at 1; rewrite searchTokens_run; change (Z.min 10 100) with 10;
    (destruct (truthy (trim query));
     [ cbn [TokenSearch.tokens];
       destruct (foundTokens _) as [|t0 rest];
       [ cbn; now rewrite app_nil_r
       | unfold bind; rewrite mapM_enrich_run; reflexivity ]
     | cbn; now rewrite app_nil_r ]).
Qed.

Lemma JsValue_null_or_not (v : JsValue) : v = JNull \/ v <> JNull.
Proof. destruct v; (now left) || (right; discriminate). Qed.

Lemma POST_not_a_number (body : JsValue) (log : list Client.Invocation) :
  body <> JNull ->
  (forall n, property body "chainId" <> Some (JNumber n)) ->
  POST {| json := Normal body |} log =
    (Normal {| status := 400;
               body := {| error := Some "chainId must be a number";
                          Route.chainId := None; tokens := None |} |},
     log).
Proof.
  intros Hbody Hchain. unfold Route.POST, tryCatch, bind, lift. cbn [json].
  destruct body; try congruence;
    (destruct (property _ "chainId") as [[| | k | | |]|]; try reflexivity;
     now destruct (Hchain k)).
Qed.

Lemma POST_not_a_string (body : JsValue) (chainId : Z) (log : list Client.Invocation) :
  property body "chainId" = Some (JNumber chainId) ->
  isChainSupported chainId = true ->
  (forall q, property body "query" <> Some (JString q)) ->
  POST {| json := Normal body |} log =
    (Normal {| status := 400;
               body := {| error := Some "query must be a string";
                          Route.chainId := None; tokens := None |} |},
     log).
Proof.
  intros Hchain Hsup Hquery.
  assert (Hbody : body <> JNull) by (intros ->; discriminate Hchain).
  unfold Route.POST, tryCatch, bind, lift. cbn [json].
  destruct body; try congruence; rewrite Hchain, Hsup; cbn [negb];
    (destruct (property _ "query") as [[| | | k | |]|]; try reflexivity;
     now destruct (Hquery k)).
Qed.

(** X7. A request whose [chainId] is missing or no number, or whose [query]
    is missing or no string (on a supported chain), is answered 400 with
    only an error message, and no subgraph query is made. *)
Theorem POST_malformed_request (body : JsValue) (log : list Client.Invocation) :
  body <> JNull ->
  ((forall n, property body "chainId" <> Some (JNumber n)) ->
   POST {| json := Normal body |} log =
     (Normal {| status := 400;
                body := {| error := Some "chainId must be a number";
                           Route.chainId := None; tokens := None |} |},
      log)) /\
  (forall chainId,
      property body "chainId" = Some (JNumber chainId) ->
      isChainSupported chainId = true ->
      (forall q, property body "query" <> Some (JString q)) ->
      POST {| json := Normal body |} log =
        (Normal {| status := 400;
                   body := {| error := Some "query must be a string";
                              Route.chainId := None; tokens := None |} |},
         log)).
Proof.
  intros Hbody. split.
  - now apply POST_not_a_number.
  - intros chainId. apply POST_not_a_string.
Qed.

Lemma number_or_not (v : option JsValue) :
  (exists n, v = Some (JNumber n)) \/ (forall n, v <> Some (JNumber n)).
Proof.
  destruct v as [[| | n | | |]|]; try (right; intros k; discriminate).
  left. eauto.
Qed.

Lemma string_or_not (v : option JsValue) :
  (exists s, v = Some (JString s)) \/ (forall s, v <> Some (JString s)).
Proof.
  destruct v as [[| | | s | |]|]; try (right; intros k; discriminate).
  left. eauto.
Qed.

(** X8. The handler always answers, with status 200, 400 or 500.  It answers
    500 exactly when decoding the body throws or the body is [null]; a
    500 carries [chainId: 0] and [tokens: []] and follows no subgraph
    query.  A 200 carries no error and a list of tokens. *)
Theorem POST_statuses (request : NextRequest) (log : list Client.Invocation) :
  exists response log',
    POST request log = (Normal response, log') /\
    (status response = 200 \/ status response = 400 \/ status response = 500) /\
    (status response = 500 <->
       (exists e, json request = Throw e) \/ json request = Normal JNull) /\
    (status response = 500 ->
       log' = log /\ Route.chainId (body response) = Some 0 /\
       tokens (body response) = Some []) /\
    (status response = 200 ->
       error (body response) = None /\ exists ts, tokens (body response) = Some ts).
Proof.
  destruct request as [[b|e]].
  - destruct (JsValue_null_or_not b) as [-> | Hb].
    + do 2 eexists. split; [reflexivity|]. cbn.
      split; [auto|]. split; [split; auto|]. split; [auto|discriminate].
    + destruct (number_or_not (property b "chainId")) as [[c Hc] | Hc].
      * destruct (isChainSupported c) eqn:Hsup.
        -- destruct (string_or_not (property b "query")) as [[q Hq] | Hq].
           ++ rewrite (POST_search_run b c q log Hc Hsup Hq). cbv zeta.
              do 2 eexists. split; [reflexivity|]. cbn [status body error tokens].
              split; [auto|]. split; [|split; [discriminate|eauto]].
              split; [discriminate|].
              intros [[e He] | He]; [discriminate He | injection He as ->; congruence].
           ++ rewrite (POST_not_a_string b c log Hc Hsup Hq).
              do 2 eexists. split; [reflexivity|]. cbn [status].
              split; [auto|]. split; [|split; discriminate].
              split; [discriminate|].
              intros [[e He] | He]; [discriminate He | injection He as ->; congruence].
        -- rewrite (POST_rejects_unsupported THE_GRAPH_API_KEY network b c log Hc Hsup).
           do 2 eexists. split; [reflexivity|]. cbn [status].
           split; [auto|]. split; [|split; discriminate].
           split; [discriminate|].
           intros [[e He] | He]; [discriminate He | injection He as ->; congruence].
      * rewrite (POST_not_a_number b log Hb Hc).
        do 2 eexists. split; [reflexivity|]. cbn [status].
        split; [auto|]. split; [|split; discriminate].
        split; [discriminate|].
        intros [[e0 He] | He]; [discriminate He | injection He as ->; congruence].
  - do 2 eexists. split; [reflexivity|]. cbn.
    split; [auto|]. split; [split; eauto|]. split; [auto|discriminate].
Qed.

(** A blank query on a supported chain is answered 200 with no tokens,
    without any subgraph query. *)
Theorem POST_blank_query (body : JsValue) (chainId : Z) (query : string)
    (log : list Client.Invocation) :
  property body "chainId" = Some (JNumber chainId) ->
  isChainSupported chainId = true ->
  property body "query" = Some (JString query) ->
  trim query = "" ->
  POST {| json := Normal body |} log =
    (Normal {| status := 200;
               body := {| error := None; Route.chainId := Some chainId;
                          tokens := Some [] |} |},
     log).
Proof.
  intros Hchain Hsup Hquery Hblank.
  rewrite (POST_search_run body chainId query log Hchain Hsup Hquery).
  cbv zeta. rewrite Hblank. cbn. now rewrite app_nil_r.
Qed.

Lemma enrichedFrom_addresses (chainId : Z) (batch : list UniswapToken) :
  forall n,
    map TokenWithPools.address (enrichedFrom n chainId batch) = map address batch.
Proof.
  induction batch as [|token rest IH]; intros n; cbn [Route.enrichedFrom map];
    [reflexivity|].
  now rewrite IH.
Qed.

(** X9. The fan-out is exact and bounded: a validated request is answered
    200 with at most ten tokens; its subgraph queries are the token
    search for the trimmed query (none for a blank query) followed by
    exactly one pool query per returned token, for that token's address
    and ten pools, in the order of the response: at most eleven queries
    in all. *)
Theorem POST_bounded_fan_out (body : JsValue) (chainId : Z) (query : string)
    (log : list Client.Invocation) :
  property body "chainId" = Some (JNumber chainId) ->
  isChainSupported chainId = true ->
  property body "query" = Some (JString query) ->
  exists tokensWithPools,
    let search :=
      if truthy (trim query)
      then [ {| Client.inv_chainId := chainId;
                Client.inv_query := TOKEN_SEARCH_QUERY;
                Client.inv_variables := Client.TokenSearchVars (trim query) 10 |} ]
      else [] in
    let poolQuery (entry : TokenWithPools.t) :=
      {| Client.inv_chainId := chainId;
         Client.inv_query := Pools.POOLS_FOR_TOKEN_QUERY;
         Client.inv_variables :=
           Client.PoolsForTokenVars (toLowerCase (TokenWithPools.address entry)) 10 |} in
    let made := search ++ map poolQuery tokensWithPools in
    POST {| json := Normal body |} log =
      (Normal {| status := 200;
                 body := {| error := None; Route.chainId := Some chainId;
                            tokens := Some tokensWithPools |} |},
       log ++ made) /\
    (List.length tokensWithPools <= 10)%nat /\
    (List.length made <= 11)%nat.
Proof.
  intros Hchain Hsup Hquery.
  rewrite (POST_search_run body chainId query log Hchain Hsup Hquery). cbv zeta.
  set (found := if truthy (trim query) then foundTokens _ else []).
  set (batch := firstn 10 (sortByTvlDesc found)).
  assert (Hbatch : (List.length batch <= 10)%nat) by apply firstn_le_length.
  set (log1 := if truthy (trim query) then _ else log).
  exists (enrichedFrom (List.length log1) chainId batch).
  assert (Hpools :
    map (fun entry : TokenWithPools.t =>
           {| Client.inv_chainId := chainId;
              Client.inv_query := Pools.POOLS_FOR_TOKEN_QUERY;
              Client.inv_variables :=
                Client.PoolsForTokenVars (toLowerCase (TokenWithPools.address entry)) 10 |})
      (enrichedFrom (List.length log1) chainId batch) =
    map (poolsInvocation chainId) batch).
  { rewrite <- (map_map TokenWithPools.address
                  (fun a => {| Client.inv_chainId := chainId;
                               Client.inv_query := Pools.POOLS_FOR_TOKEN_QUERY;
                               Client.inv_variables :=
                                 Client.PoolsForTokenVars (toLowerCase a) 10 |})).
    rewrite enrichedFrom_addresses, map_map. reflexivity. }
  rewrite Hpools. split; [|split].
  - subst log1. destruct (truthy (trim query)).
    + now rewrite <- app_assoc.
    + reflexivity.
  - now rewrite enrichedFrom_length.
  - rewrite length_app, length_map.
    assert (Hsearch : forall A (x : A), (List.length (if truthy (trim query) then [x] else []) <= 1)%nat)
      by (intros A x; destruct (truthy (trim query)); cbn; lia).
    match goal with |- (List.length ?l + _ <= 11)%nat => pose proof (Hsearch _ _ : (List.length l <= 1)%nat) end.
    lia.
Qed.

(** Descending TVL. *)
Local Abbreviation byTvlDesc :=
  (fun a b : UniswapToken => (tvlUSD b <= tvlUSD a)%Q).

Lemma insertByTvl_sorted (a : UniswapToken) (sorted : list UniswapToken) :
  StronglySorted byTvlDesc sorted -> StronglySorted byTvlDesc (insertByTvl a sorted).
Proof.
  induction 1 as [|b rest Hrest IH Hb]; cbn [insertByTvl].
  - repeat constructor.
  - destruct (Qle_bool (tvlUSD b) (tvlUSD a)) eqn:Hle.
    + apply Qle_bool_iff in Hle.
      constructor; [now constructor|].
      constructor; [exact Hle|].
      eapply Forall_impl; [|exact Hb]. cbv beta. intros x Hx.
      now apply Qle_trans with (tvlUSD b).
    + constructor; [exact IH|].
      assert (Hab : (tvlUSD a <= tvlUSD b)%Q).
      { apply Qlt_le_weak, Qnot_le_lt. intros H.
        apply Qle_bool_iff in H. congruence. }
      apply Forall_forall. intros x Hx.
      apply (Permutation_in _ (insertByTvl_permutation a rest)) in Hx.
      destruct Hx as [<- | Hx]; [exact Hab|].
      rewrite Forall_forall in Hb. now apply Hb.
Qed.

Lemma sortByTvlDesc_sorted (tokens : list UniswapToken) :
  StronglySorted byTvlDesc (sortByTvlDesc tokens).
Proof.
  induction tokens as [|a rest IH]; cbn.
  - constructor.
  - now apply insertByTvl_sorted.
Qed.

Lemma StronglySorted_app_inv {A : Type} (R : A -> A -> Prop) (l1 l2 : list A) :
  StronglySorted R (l1 ++ l2) ->
  StronglySorted R l1 /\ forall x y, In x l1 -> In y l2 -> R x y.
Proof.
  induction l1 as [|a l1 IH]; cbn; intros H.
  - split; [constructor | contradiction].
  - apply StronglySorted_inv in H as [Hs Ha].
    destruct (IH Hs) as [Hs1 Hcross].
    apply Forall_app in Ha as [Ha1 Ha2].
    split; [now constructor|].
    intros x y [<- | Hx] Hy; [|now apply Hcross].
    rewrite Forall_forall in Ha2. now apply Ha2.
Qed.

Lemma enrichedFrom_tokens (chainId : Z) (batch : list UniswapToken) :
  forall n,
    Forall2 (fun entry token => exists pools, entry = withPools token pools)
      (enrichedFrom n chainId batch) batch.
Proof.
  induction batch as [|token rest IH]; intros n; cbn [Route.enrichedFrom];
    constructor; eauto.
Qed.

(** X10. The tokens of a response are the found tokens with the largest TVL:
    they come in descending order of TVL, each is a found token with its
    pools added, and every found token that is left out has a TVL no
    larger than any token returned. *)
Theorem POST_returns_top_tokens (body : JsValue) (chainId : Z) (query : string)
    (log : list Client.Invocation) :
  property body "chainId" = Some (JNumber chainId) ->
  isChainSupported chainId = true ->
  property body "query" = Some (JString query) ->
  exists searchResult tokensWithPools kept dropped,
    fst (TokenSearch.searchTokens THE_GRAPH_API_KEY network chainId query 10 log) =
      Normal searchResult /\
    fst (POST {| json := Normal body |} log) =
      Normal {| status := 200;
                body := {| error := None; Route.chainId := Some chainId;
                           tokens := Some tokensWithPools |} |} /\
    Forall2 (fun entry token => exists pools, entry = withPools token pools)
      tokensWithPools kept /\
    Permutation (kept ++ dropped) (TokenSearch.tokens searchResult) /\
    StronglySorted byTvlDesc kept /\
    (forall x y, In x kept -> In y dropped -> (tvlUSD y <= tvlUSD x)%Q).
Proof.
  intros Hchain Hsup Hquery.
  rewrite (POST_search_run body chainId query log Hchain Hsup Hquery). cbv zeta.
  rewrite searchTokens_run. change (Z.min 10 100) with 10.
  set (found := if truthy (trim query) then foundTokens _ else []).
  exists {| TokenSearch.chainId := chainId; TokenSearch.tokens := found |}.
  eexists. exists (firstn 10 (sortByTvlDesc found)), (skipn 10 (sortByTvlDesc found)).
  split; [unfold found; now destruct (truthy (trim query))|].
  split; [reflexivity|].
  split; [apply enrichedFrom_tokens|].
  rewrite firstn_skipn. cbn [TokenSearch.tokens].
  split; [apply sortByTvlDesc_permutation|].
  apply StronglySorted_app_inv. rewrite firstn_skipn. apply sortByTvlDesc_sorted.
Qed.

Lemma leadingDigits_stop (v : Z) (rest : string) :
  startsWithDigit rest = false -> leadingDigits (Some v) rest = Some v.
Proof.
  destruct rest as [|c r]; cbn [startsWithDigit leadingDigits]; [reflexivity|].
  destruct (digitValue c) as [d|]; [|reflexivity].
  now intros ->.
Qed.

Lemma leadingDigits_digits (d : Decimal.uint) (rest : string) :
  startsWithDigit rest = false ->
  forall a v,
    digitsValue 10 a (NilEmpty.string_of_uint d) = Some v ->
    leadingDigits (Some a) (NilEmpty.string_of_uint d ++ rest) = Some v.
Proof.
  intros Hrest.
  induction d; intros a v;
    cbn [NilEmpty.string_of_uint digitsValue leadingDigits String.append];
    [ intros H; injection H as <-; now apply leadingDigits_stop | .. ];
    match goal with
    | |- context [digitValue ?c] =>
        let k := eval vm_compute in (digitValue c) in
        change (digitValue c) with k; cbv iota beta
    end;
    match goal with
    | |- context [?x <? 10] => change (x <? 10) with true; cbv iota
    end;
    apply IHd.
Qed.

Lemma parseInt_digits (d : Decimal.uint) (rest : string) :
  d <> Decimal.Nil ->
  startsWithDigit rest = false ->
  parseInt (NilEmpty.string_of_uint d ++ rest) =
    digitsValue 10 0 (NilEmpty.string_of_uint d).
Proof.
  intros Hd Hrest.
  destruct (digitsValue 10 0 (NilEmpty.string_of_uint d)) as [v|] eqn:Hv.
  - pose proof (leadingDigits_digits d rest Hrest 0 v Hv) as H.
    destruct d; try congruence;
      cbn [NilEmpty.string_of_uint String.append] in *;
      unfold parseInt; cbn [trimStart];
      match goal with
      | |- context [isWhiteSpace ?c] => change (isWhiteSpace c) with false; cbv iota
      end;
      cbn [leadingDigits] in *; exact H.
  - rewrite digitsValue_of_uint in Hv. discriminate Hv.
Qed.

(** [parseInt] reads back the decimal rendering of an integer, and stops
    at the first character that is no digit. *)
Lemma parseInt_Z_toString (z : Z) (rest : string) :
  startsWithDigit rest = false ->
  parseInt (Z_toString z ++ rest) = Some z.
Proof.
  intros Hrest. unfold Z_toString. destruct z as [|p|p].
  - cbn. unfold parseInt. cbn [trimStart]. change (isWhiteSpace "0") with false.
    cbv iota. cbn [leadingDigits]. change (digitValue "0") with (Some 0).
    cbv iota beta. change (0 <? 10) with true. cbv iota.
    now apply leadingDigits_stop.
  - cbn [Z.to_int NilZero.string_of_int].
    pose proof (Unsigned.to_uint_nonnil p) as Hnil.
    replace (NilZero.string_of_uint (Pos.to_uint p))
      with (NilEmpty.string_of_uint (Pos.to_uint p))
      by (unfold NilZero.string_of_uint; now destruct (Pos.to_uint p)).
    rewrite (parseInt_digits _ rest Hnil Hrest), digitsValue_of_uint, Unsigned.of_to.
    reflexivity.
  - cbn [Z.to_int NilZero.string_of_int].
    pose proof (Unsigned.to_uint_nonnil p) as Hnil.
    replace (NilZero.string_of_uint (Pos.to_uint p))
      with (NilEmpty.string_of_uint (Pos.to_uint p))
      by (unfold NilZero.string_of_uint; now destruct (Pos.to_uint p)).
    unfold parseInt. cbn [String.append trimStart].
    change (isWhiteSpace "-") with false. cbv iota.
    pose proof (parseInt_digits _ rest Hnil Hrest) as H.
    rewrite digitsValue_of_uint, Unsigned.of_to in H.
    destruct (NilEmpty.string_of_uint (Pos.to_uint p)) as [|c r] eqn:Hstr.
    + destruct (Pos.to_uint p); try congruence; discriminate Hstr.
    + assert (Hlead : leadingDigits None (String c r ++ rest) = Some (Z.pos p)).
      { pose proof (digitsValue_of_uint (Pos.to_uint p)) as Hv.
        rewrite Unsigned.of_to, Hstr in Hv.
        pose proof (leadingDigits_digits (Pos.to_uint p) rest Hrest 0 (Z.pos p)) as Hl.
        rewrite Hstr in Hl. specialize (Hl Hv).
        cbn [String.append leadingDigits] in Hl |- *.
        cbn [digitsValue] in Hv.
        destruct (digitValue c) as [k|]; [|discriminate Hv].
        destruct (k <? 10); [|discriminate Hv].
        exact Hl. }
      rewrite Hlead. reflexivity.
Qed.

Lemma GET_validated_run (chainIdParam query : string) (chainId : Z)
    (log : list Client.Invocation) :
  parseInt chainIdParam = Some chainId ->
  query <> "" ->
  GET {| Route.chainIdParam := Some chainIdParam; queryParam := Some query |} log =
    POST {| json := Normal (JObject [("chainId", JNumber chainId);
                                     ("query", JString query)]) |} log.
Proof.
  intros Hparse Hquery. unfold Route.GET. cbn [Route.chainIdParam queryParam].
  destruct chainIdParam as [|c cs]; [discriminate Hparse|].
  destruct query as [|q qs]; [congruence|].
  rewrite Hparse. unfold tryCatch, bodyOf.
  destruct (POST_never_throws THE_GRAPH_API_KEY network
              {| json := Normal (JObject [("chainId", JNumber chainId);
                                          ("query", JString (String q qs))]) |} log)
    as (r & l & ->).
  reflexivity.
Qed.

(** X11. GET reads the chain id as [parseInt] does: the decimal rendering of
    an integer, followed by anything that does not begin with a digit
    (nothing, or text as in [1abc]), selects that chain: the request is
    answered as POST answers any body that carries that integer as
    [chainId] and the query as [query]. *)
Theorem GET_reads_leading_integer (chainId : Z) (rest query : string) (body : JsValue)
    (log : list Client.Invocation) :
  startsWithDigit rest = false ->
  query <> "" ->
  property body "chainId" = Some (JNumber chainId) ->
  property body "query" = Some (JString query) ->
  GET {| chainIdParam := Some (Z_toString chainId ++ rest)%string;
         queryParam := Some query |} log =
    POST {| json := Normal body |} log.
Proof.
  intros Hrest Hquery Hchain Hmember.
  rewrite (POST_reads_two_members THE_GRAPH_API_KEY network body chainId query log
             Hchain Hmember).
  apply GET_validated_run; [now apply parseInt_Z_toString | assumption].
Qed.

(** X12. GET never answers 500: its status is 200 or 400. *)
Theorem GET_statuses (request : GetRequest) (log : list Client.Invocation) :
  exists response log',
    GET request log = (Normal response, log') /\
    (status response = 200 \/ status response = 400).
Proof.
  destruct request as [[c|] [q|]].
  - destruct (parseInt c) as [n|] eqn:Hparse.
    + destruct q as [|q0 qs].
      * unfold Route.GET, tryCatch, ret. cbn [Route.chainIdParam queryParam].
        destruct c; do 2 eexists; (split; [reflexivity|]); now right.
      * rewrite (GET_validated_run c (String q0 qs) n log Hparse) by discriminate.
        destruct (isChainSupported n) eqn:Hsup.
        -- rewrite (POST_search_run
                      (JObject [("chainId", JNumber n); ("query", JString (String q0 qs))])
                      n (String q0 qs) log eq_refl Hsup eq_refl).
           cbv zeta. do 2 eexists. split; [reflexivity|]. now left.
        -- rewrite (POST_rejects_unsupported THE_GRAPH_API_KEY network
                      (JObject [("chainId", JNumber n); ("query", JString (String q0 qs))])
                      n log eq_refl Hsup).
           do 2 eexists. split; [reflexivity|]. now right.
    + unfold Route.GET, tryCatch, ret. cbn [Route.chainIdParam queryParam].
      rewrite Hparse.
      destruct c; destruct q; do 2 eexists; (split; [reflexivity|]); now right.
  - unfold Route.GET, tryCatch, ret. cbn [Route.chainIdParam queryParam].
    destruct c; do 2 eexists; (split; [reflexivity|]); now right.
  - do 2 eexists. split; [reflexivity|]. now right.
  - do 2 eexists. split; [reflexivity|]. now right.
Qed.

Lemma queryResult_without_key (n : nat) (chainId : Z) (query : string)
    (variables : Client.Variables) :
  THE_GRAPH_API_KEY = None \/ THE_GRAPH_API_KEY = Some "" ->
  isChainSupported chainId = true ->
  exists e, queryResult n chainId query variables = Throw e.
Proof.
  intros Hkey Hsup. unfold isChainSupported, hasSubgraphId in Hsup.
  apply andb_prop in Hsup as [_ Hsup].
  destruct (subgraphIdOf chainId) as [id|] eqn:Hid; [|discriminate].
  unfold Client.queryResult, getUniswapV3SubgraphEndpoint, getSubgraphUrl.
  rewrite Hid, Hsup. unfold buildSubgraphUrl, getGraphApiKey.
  destruct Hkey as [-> | ->]; eexists; reflexivity.
Qed.

(** X13. Without an API key (unset or empty) the configuration failure is
    swallowed by the token search: on every supported chain, mainnet
    included, a string query is answered 200 with no tokens. *)
Theorem POST_without_api_key (body : JsValue) (chainId : Z) (query : string)
    (log : list Client.Invocation) :
  THE_GRAPH_API_KEY = None \/ THE_GRAPH_API_KEY = Some "" ->
  property body "chainId" = Some (JNumber chainId) ->
  isChainSupported chainId = true ->
  property body "query" = Some (JString query) ->
  fst (POST {| json := Normal body |} log) =
    Normal {| status := 200;
              body := {| error := None; Route.chainId := Some chainId;
                         tokens := Some [] |} |}.
Proof.
  intros Hkey Hchain Hsup Hquery.
  rewrite (POST_search_run body chainId query log Hchain Hsup Hquery). cbv zeta.
  destruct (queryResult_without_key (List.length log) chainId TOKEN_SEARCH_QUERY
              (Client.TokenSearchVars (trim query) 10) Hkey Hsup) as [e ->].
  now destruct (truthy (trim query)).
Qed.

End EndpointFacts.

Section EndpointExamples.
Import Subgraphs TokenSearch Route.

(** A body whose chain id is the string "1". *)
Lemma POST_malformed_request_example :
  Route.POST (Some "key") twoTokenIndexer
    {| json := Normal (JObject [("chainId", JString "1"); ("query", JString "usdc")]) |} [] =
    (Normal {| status := 400;
               body := {| error := Some "chainId must be a number";
                          Route.chainId := None; tokens := None |} |},
     []).
Proof.
  apply (proj1 (POST_malformed_request (Some "key") twoTokenIndexer
                  (JObject [("chainId", JString "1"); ("query", JString "usdc")]) []
                  ltac:(discriminate))).
  intros n. discriminate.
Defined.

(** A query of three spaces on mainnet. *)
Lemma POST_blank_query_example :
  Route.POST (Some "key") twoTokenIndexer {| json := Normal (bodyOf 1 "   ") |} [] =
    (Normal {| status := 200;
               body := {| error := None; Route.chainId := Some 1; tokens := Some [] |} |},
     []).
Proof.
  apply (POST_blank_query (Some "key") twoTokenIndexer (bodyOf 1 "   ") 1 "   " []);
    reflexivity.
Defined.

Lemma POST_bounded_fan_out_example :
  exists tokensWithPools,
    let poolQuery (entry : TokenWithPools.t) :=
      {| Client.inv_chainId := 1;
         Client.inv_query := Pools.POOLS_FOR_TOKEN_QUERY;
         Client.inv_variables :=
           Client.PoolsForTokenVars (toLowerCase (TokenWithPools.address entry)) 10 |} in
    let made :=
      {| Client.inv_chainId := 1;
         Client.inv_query := TokenSearch.TOKEN_SEARCH_QUERY;
         Client.inv_variables := Client.TokenSearchVars "a" 10 |}
      :: map poolQuery tokensWithPools in
    Route.POST (Some "key") twoTokenIndexer {| json := Normal (bodyOf 1 "a") |} [] =
      (Normal {| status := 200;
                 body := {| error := None; Route.chainId := Some 1;
                            tokens := Some tokensWithPools |} |},
       made) /\
    (List.length tokensWithPools <= 10)%nat /\
    (List.length made <= 11)%nat.
Proof.
  apply (POST_bounded_fan_out (Some "key") twoTokenIndexer (bodyOf 1 "a") 1 "a" []);
    reflexivity.
Defined.

(** The queries of that request: the search, then one pool query for
    each of the two tokens found, largest TVL first. *)
Lemma POST_fan_out_example_queries :
  snd (Route.POST (Some "key") twoTokenIndexer {| json := Normal (bodyOf 1 "a") |} []) =
    [ {| Client.inv_chainId := 1;
         Client.inv_query := TokenSearch.TOKEN_SEARCH_QUERY;
         Client.inv_variables := Client.TokenSearchVars "a" 10 |};
      {| Client.inv_chainId := 1;
         Client.inv_query := Pools.POOLS_FOR_TOKEN_QUERY;
         Client.inv_variables := Client.PoolsForTokenVars "0xbbb" 10 |};
      {| Client.inv_chainId := 1;
         Client.inv_query := Pools.POOLS_FOR_TOKEN_QUERY;
         Client.inv_variables := Client.PoolsForTokenVars "0xaaa" 10 |} ].
Proof. vm_compute. reflexivity. Qed.

Lemma POST_returns_top_tokens_example :
  exists searchResult tokensWithPools kept dropped,
    fst (TokenSearch.searchTokens (Some "key") twoTokenIndexer 1 "a" 10 []) =
      Normal searchResult /\
    fst (Route.POST (Some "key") twoTokenIndexer {| json := Normal (bodyOf 1 "a") |} []) =
      Normal {| status := 200;
                body := {| error := None; Route.chainId := Some 1;
                           tokens := Some tokensWithPools |} |} /\
    Forall2 (fun entry token => exists pools, entry = withPools token pools)
      tokensWithPools kept /\
    Permutation (kept ++ dropped) (TokenSearch.tokens searchResult) /\
    StronglySorted (fun a b : UniswapToken => (tvlUSD b <= tvlUSD a)%Q) kept /\
    (forall x y, In x kept -> In y dropped -> (tvlUSD y <= tvlUSD x)%Q).
Proof.
  apply (POST_returns_top_tokens (Some "key") twoTokenIndexer (bodyOf 1 "a") 1 "a" []);
    reflexivity.
Defined.

(** [GET ?chainId=1abc&query=usdc] is answered as chain 1. *)
Lemma GET_reads_leading_integer_example :
  Route.GET (Some "key") twoTokenIndexer
    {| chainIdParam := Some "1abc"; queryParam := Some "usdc" |} [] =
  Route.POST (Some "key") twoTokenIndexer
    {| json := Normal (JObject [("query", JString "usdc"); ("chainId", JNumber 1)]) |} [].
Proof.
  apply (GET_reads_leading_integer (Some "key") twoTokenIndexer 1 "abc" "usdc"
           (JObject [("query", JString "usdc"); ("chainId", JNumber 1)]) []).
  - reflexivity.
  - discriminate.
  - reflexivity.
  - reflexivity.
Defined.

(** Mainnet without an API key. *)
Lemma POST_without_api_key_example :
  fst (Route.POST None twoTokenIndexer {| json := Normal (bodyOf 1 "usdc") |} []) =
    Normal {| status := 200;
              body := {| error := None; Route.chainId := Some 1; tokens := Some [] |} |}.
Proof.
  apply (POST_without_api_key None twoTokenIndexer (bodyOf 1 "usdc") 1 "usdc" []);
    try reflexivity.
  now left.
Defined.

End EndpointExamples.

Section RegistryFacts.
Import Subgraphs.

Lemma endpoint_supported_helper (chainId : Z) :
  isChainSupported chainId = true ->
  exists id, subgraphIdOf chainId = Some id /\ truthy id = true.
Proof.
  unfold isChainSupported, hasSubgraphId. intros H.
  apply andb_prop in H as [_ H].
  destruct (subgraphIdOf chainId) as [id|]; [eauto | discriminate].
Qed.

(** [isChainSupported] and the endpoint resolution agree: with an API key
    configured, a chain is supported exactly when its endpoint resolves,
    and that is the case for the nine chain ids 1, 10, 56, 137, 42161,
    43114, 8453, 42220 and 81457 only (Sepolia and Arbitrum Sepolia are
    keys of the registry without a subgraph). *)
Theorem supported_iff_endpoint_resolves (apiKey : string) (chainId : Z) :
  apiKey <> "" ->
  (isChainSupported chainId = true <->
   exists url, getUniswapV3SubgraphEndpoint (Some apiKey) chainId = Normal url) /\
  (isChainSupported chainId = true <->
   In chainId [1; 10; 56; 137; 42161; 43114; 8453; 42220; 81457]) /\
  hasKey 11155111 = true /\ isChainSupported 11155111 = false /\
  hasKey 421614 = true /\ isChainSupported 421614 = false.
Proof.
  intros Hkey. split; [|split; [|repeat split]].
  - split.
    + intros Hsup.
      destruct (endpoint_supported_helper chainId Hsup) as (id & Hid & Hne).
      unfold getUniswapV3SubgraphEndpoint, getSubgraphUrl. rewrite Hid, Hne.
      unfold buildSubgraphUrl, getGraphApiKey.
      destruct apiKey; [congruence|]. eexists. reflexivity.
    + intros [url Hurl].
      destruct (isChainSupported chainId) eqn:Hsup; [reflexivity|].
      unfold getUniswapV3SubgraphEndpoint in Hurl.
      rewrite (unsupported_has_no_url (Some apiKey) chainId Hsup) in Hurl.
      discriminate Hurl.
  - apply isChainSupported_spec.
Qed.

End RegistryFacts.

(* ----------------------------------------------------------------- *)
(** ** More on the orderbook monitor *)

Section MonitorFacts.
Import CowApi.

Lemma sum_permutation (l l' : list Z) :
  Permutation l l' -> fold_right Z.add 0 l = fold_right Z.add 0 l'.
Proof.
  induction 1; cbn; lia.
Qed.

(** The amounts of the orders, when all of them are integer literals. *)
Lemma calculateLiquidity_amounts (orders : list CowOrder) (l : LiquidityData) :
  calculateLiquidity orders = Normal l ->
  exists amounts, Forall2 (fun o a => parseBigInt (sellAmount o) = Some a) orders amounts.
Proof.
  intros H.
  assert (Hall : Forall (fun o => parseBigInt (sellAmount o) <> None) orders).
  { apply Forall_forall. intros o Ho Hnone.
    assert (Hex : Exists (fun o => parseBigInt (sellAmount o) = None) orders)
      by (apply Exists_exists; eauto).
    destruct (calculateLiquidity_malformed orders Hex) as [e He]. congruence. }
  clear H. induction Hall as [|o orders Ho _ [amounts IH]].
  - exists []. constructor.
  - destruct (parseBigInt (sellAmount o)) as [a|] eqn:Ha; [|congruence].
    exists (a :: amounts). now constructor.
Qed.

Lemma calculateLiquidity_of_amounts (orders : list CowOrder) (amounts : list Z) :
  Forall2 (fun o a => parseBigInt (sellAmount o) = Some a) orders amounts ->
  calculateLiquidity orders =
    Normal {| totalLiquidity := Z_toString (fold_right Z.add 0 amounts);
              orderCount := Z.of_nat (List.length orders);
              direction := sell |}.
Proof.
  intros H. unfold calculateLiquidity.
  rewrite (reduce_exact orders amounts H 0). reflexivity.
Qed.

(** X14. The liquidity of an order list does not depend on the order in which
    the orders are listed. *)
Theorem calculateLiquidity_permutation (orders orders' : list CowOrder)
    (l : LiquidityData) :
  Permutation orders orders' ->
  calculateLiquidity orders = Normal l ->
  calculateLiquidity orders' = Normal l.
Proof.
  intros Hperm H.
  destruct (calculateLiquidity_amounts orders l H) as [amounts Hamounts].
  destruct (Permutation_Forall2 Hperm Hamounts) as (amounts' & Hperm' & Hamounts').
  rewrite (calculateLiquidity_of_amounts orders amounts Hamounts) in H.
  rewrite (calculateLiquidity_of_amounts orders' amounts' Hamounts').
  rewrite <- H, (sum_permutation _ _ Hperm'), (Permutation_length Hperm).
  reflexivity.
Qed.

(** X15. The monitor is dormant off mainnet, when disabled, and when a token
    is missing or empty: a run makes no request and leaves no data and no
    error. *)
Theorem fetchLiquidity_dormant
    (network : nat -> string -> FetchReply) (now : Z)
    (tokenA tokenB : option string) (chainId : Z) (enabled : bool)
    (st : HookState) (log : list string) :
  chainId <> 1 \/ enabled = false \/
  tokenA = None \/ tokenA = Some "" \/ tokenB = None \/ tokenB = Some "" ->
  fetchLiquidity network now tokenA tokenB chainId enabled st log =
    (Normal {| liquidity := None; loading := loading st; error := None |}, log).
Proof.
  intros H. unfold fetchLiquidity.
  destruct tokenA as [a|]; [|reflexivity].
  destruct tokenB as [b|]; [|reflexivity].
  assert (Hguard : negb (truthy a) || negb (truthy b) || negb (chainId =? 1)
                   || negb enabled = true).
  { destruct H as [H | [-> | [H | [H | [H | H]]]]]; try discriminate H.
    - apply Z.eqb_neq in H. rewrite H. cbn. now rewrite !orb_true_r.
    - now rewrite !orb_true_r.
    - injection H as ->. reflexivity.
    - injection H as ->. cbn. now destruct (truthy a). }
  now rewrite Hguard.
Qed.

(** X16. A [sellAmount] that is no integer literal, in either direction, ends
    a run on mainnet with no data and the message "No liquidity data
    available"; both requests were made. *)
Theorem fetchLiquidity_malformed_amount
    (network : nat -> string -> FetchReply) (now : Z) (A B : string)
    (st : HookState) :
  A <> "" -> B <> "" ->
  Exists (fun o => parseBigInt (sellAmount o) = None)
    (deliveredOrders (network 0%nat (ordersUrl A B)) ++
     deliveredOrders (network 1%nat (ordersUrl B A))) ->
  fetchLiquidity network now (Some A) (Some B) 1 true st [] =
    (Normal {| liquidity := None; loading := false;
               error := Some "No liquidity data available" |},
     [ordersUrl A B; ordersUrl B A]).
Proof.
  intros HA HB Hbad. unfold fetchLiquidity.
  destruct A as [|a0 A']; [congruence|]. destruct B as [|b0 B']; [congruence|].
  cbn [truthy negb orb Z.eqb Pos.eqb].
  unfold bind, tryCatch. rewrite fetchPairLiquidity_run. cbn [List.length app].
  apply Exists_app in Hbad.
  assert (Hnull : pairOf now (String a0 A') (String b0 B')
            (calculateLiquidity (deliveredOrders (network 0%nat (ordersUrl (String a0 A') (String b0 B')))))
            (calculateLiquidity (deliveredOrders (network 1%nat (ordersUrl (String b0 B') (String a0 A')))))
          = None).
  { destruct Hbad as [Hbad | Hbad];
      destruct (calculateLiquidity_malformed _ Hbad) as [e ->]; [reflexivity|].
    unfold pairOf. now destruct (calculateLiquidity _). }
  rewrite Hnull. reflexivity.
Qed.

End MonitorFacts.

(* ----------------------------------------------------------------- *)
(** ** More on the search orchestrator *)

Section ResultFacts.
Import Subgraphs SearchBar.

Variable chainId : Z.
Variable getTokensByChain : Z -> list Token.t.

Local Abbreviation performSearch := (SearchBar.performSearch chainId getTokensByChain).
Local Abbreviation searchAlone := (SearchBar.searchAlone chainId getTokensByChain).
Local Abbreviation localTokenMatches := (SearchBar.localTokenMatches chainId getTokensByChain).
Local Abbreviation remoteEntry := (SearchBar.liquidityTokenToSearchResult chainId).
Local Abbreviation localEntry := (SearchBar.localTokenToSearchResult chainId).

Lemma append_injective (p a b : string) : (p ++ a)%string = (p ++ b)%string -> a = b.
Proof.
  induction p as [|c p IH]; cbn; [auto|].
  intros H. injection H as H. auto.
Qed.

Lemma NoDup_map_append (p : string) (l : list string) :
  NoDup l -> NoDup (map (String.append p) l).
Proof.
  intros H. apply NoDup_map_NoDup_ForallPairs; [|assumption].
  intros x y _ _. apply append_injective.
Qed.

Lemma NoDup_map_filter {A B : Type} (h : A -> B) (f : A -> bool) (l : list A) :
  NoDup (map h l) -> NoDup (map h (filter f l)).
Proof.
  induction l as [|x l IH]; cbn; [auto|].
  intros H. apply NoDup_cons_iff in H as [Hx Hl].
  destruct (f x); cbn; [|auto].
  constructor; [|auto].
  intros Hin. apply Hx. apply in_map_iff in Hin as (y & Hy & Hin).
  apply filter_In in Hin as [Hin _]. apply in_map_iff. eauto.
Qed.

Lemma NoDup_map_firstn {A B : Type} (h : A -> B) (n : nat) (l : list A) :
  NoDup (map h l) -> NoDup (map h (firstn n l)).
Proof.
  intros H. rewrite <- (firstn_skipn n l), map_app in H.
  now apply NoDup_app_remove_r in H.
Qed.

Lemma remote_ids (tokens : list LiquidityTokenResult) :
  map id (map remoteEntry tokens) =
    map (String.append "uniswap-token-") (map Route.TokenWithPools.address tokens).
Proof. rewrite !map_map. reflexivity. Qed.

Lemma local_ids (tokens : list Token.t) :
  map id (map localEntry tokens) =
    map (String.append "local-token-") (map Token.address tokens).
Proof. rewrite !map_map. reflexivity. Qed.

Lemma merged_ids_NoDup (listed : list LiquidityTokenResult) (searchQuery : string) :
  NoDup (map Route.TokenWithPools.address listed) ->
  NoDup (map Token.address (getTokensByChain chainId)) ->
  NoDup (map id (map remoteEntry listed
                 ++ localTokenMatches searchQuery (map remoteEntry listed)
                 ++ suggestionsFor searchQuery)).
Proof.
  intros Hremote Hlocal.
  set (found := map remoteEntry listed).
  assert (Hfound : NoDup (map id found) /\
                   forall x, In x (map id found) -> exists t, x = String "u" t).
  { unfold found. rewrite remote_ids. split; [now apply NoDup_map_append|].
    intros x Hx. apply in_map_iff in Hx as (a & <- & _). cbn. eauto. }
  destruct Hfound as [Hfound Hu].
  assert (Hloc : NoDup (map id (localTokenMatches searchQuery found)) /\
                 forall x, In x (map id (localTokenMatches searchQuery found)) ->
                           exists t, x = String "l" t).
  { unfold SearchBar.localTokenMatches. rewrite local_ids. split.
    - apply NoDup_map_append, NoDup_map_filter, NoDup_map_firstn, NoDup_map_filter.
      exact Hlocal.
    - intros x Hx. apply in_map_iff in Hx as (a & <- & _). cbn. eauto. }
  destruct Hloc as [Hloc Hl].
  assert (Hcmd : NoDup (map id (suggestionsFor searchQuery)) /\
                 forall x, In x (map id (suggestionsFor searchQuery)) ->
                           exists t, x = String "c" t).
  { unfold suggestionsFor. destruct (String.length searchQuery <? 2)%nat; cbn.
    - split.
      + constructor; [intros [H|[]]; discriminate H|]. constructor; [intros []|constructor].
      + intros x [<- | [<- | []]]; eauto.
    - split; [constructor | contradiction]. }
  destruct Hcmd as [Hcmd Hc].
  rewrite !map_app. apply NoDup_app; [assumption | |].
  - apply NoDup_app; [assumption | assumption |].
    intros x Hx Hx'. destruct (Hl x Hx) as [t ->]. destruct (Hc _ Hx') as [t' H].
    discriminate H.
  - intros x Hx Hx'. destruct (Hu x Hx) as [t ->].
    apply in_app_or in Hx' as [Hx' | Hx'].
    + destruct (Hl _ Hx') as [t' H]. discriminate H.
    + destruct (Hc _ Hx') as [t' H]. discriminate H.
Qed.

(** X17. Result ids are unique across the three sources: when the response
    lists no address twice and the registry lists no address twice, no
    two entries of the merged list share an id. *)
Theorem merged_ids_unique (reply : ApiReply) (searchQuery : string) (st : State) :
  trim searchQuery <> "" ->
  isAddressPattern (trim searchQuery) = false ->
  NoDup (map Route.TokenWithPools.address
           (remoteTokens (fetchUniswapLiquidity chainId reply))) ->
  NoDup (map Token.address (getTokensByChain chainId)) ->
  NoDup (map id (results (searchAlone reply searchQuery st))).
Proof.
  intros Hblank Haddr Hremote Hlocal.
  rewrite (searchAlone_tokens chainId getTokensByChain reply searchQuery st Hblank Haddr).
  destruct (isChainSupported chainId).
  - destruct (fetchUniswapLiquidity chainId reply) as [data | | e m];
      [|constructor | constructor].
    now apply merged_ids_NoDup.
  - apply (merged_ids_NoDup [] searchQuery); [constructor | assumption].
Qed.

End ResultFacts.

Section SearchOutcomes.
Import Subgraphs SearchBar.

Variable chainId : Z.
Variable getTokensByChain : Z -> list Token.t.

Local Abbreviation performSearch := (SearchBar.performSearch chainId getTokensByChain).
Local Abbreviation searchAlone := (SearchBar.searchAlone chainId getTokensByChain).
Local Abbreviation localTokenMatches := (SearchBar.localTokenMatches chainId getTokensByChain).
Local Abbreviation mergeAndRender := (SearchBar.mergeAndRender chainId getTokensByChain).
Local Abbreviation remoteEntry := (SearchBar.liquidityTokenToSearchResult chainId).
Local Abbreviation localEntry := (SearchBar.localTokenToSearchResult chainId).

Lemma query_cases (searchQuery : string) :
  trim searchQuery = "" \/
  (trim searchQuery <> "" /\ isAddressPattern (trim searchQuery) = true) \/
  (trim searchQuery <> "" /\ isAddressPattern (trim searchQuery) = false).
Proof.
  destruct (string_dec (trim searchQuery) "") as [H|H]; [now left|right].
  destruct (isAddressPattern (trim searchQuery)); [left | right]; now split.
Qed.

Lemma searchAlone_blank (reply : ApiReply) (searchQuery : string) (st : State) :
  trim searchQuery = "" ->
  searchAlone reply searchQuery st = setSearchError None (setResults [] st).
Proof.
  intros H. unfold SearchBar.searchAlone.
  now rewrite (performSearch_blank chainId getTokensByChain searchQuery st H).
Qed.

Lemma searchAlone_address (reply : ApiReply) (searchQuery : string) (st : State) :
  trim searchQuery <> "" ->
  isAddressPattern (trim searchQuery) = true ->
  searchAlone reply searchQuery st =
    setIsLoading false
      (setIsLoading false
         (setResults [addressResult chainId searchQuery]
            (replaceAbortController (setSearchError None (setIsLoading true st))))).
Proof.
  intros Hblank Haddr. unfold SearchBar.searchAlone, SearchBar.performSearch.
  rewrite (truthy_nonempty _ Hblank), Haddr. reflexivity.
Qed.

Lemma localTokenMatches_nil (searchQuery : string) :
  localTokenMatches searchQuery [] =
    map localEntry (firstn 5 (filter (matchesQuery searchQuery) (getTokensByChain chainId))).
Proof.
  unfold SearchBar.localTokenMatches. f_equal.
  apply forallb_filter_id. apply forallb_forall. reflexivity.
Qed.

Lemma merged_entries_close (listed : list LiquidityTokenResult) (searchQuery : string) :
  Forall (fun r => exists first, action r = Some [first; SetIsOpen false; SetQuery ""])
    (map remoteEntry listed
     ++ localTokenMatches searchQuery (map remoteEntry listed)
     ++ suggestionsFor searchQuery).
Proof.
  apply Forall_app; split; [|apply Forall_app; split].
  - apply Forall_forall. intros r Hr. apply in_map_iff in Hr as (t & <- & _).
    cbn. eexists. reflexivity.
  - apply Forall_forall. intros r Hr. unfold SearchBar.localTokenMatches in Hr.
    apply in_map_iff in Hr as (t & <- & _). cbn. eexists. reflexivity.
  - unfold suggestionsFor. destruct (String.length searchQuery <? 2)%nat; [|constructor].
    repeat constructor; cbn; eexists; reflexivity.
Qed.

(** X18. Every entry a search lists has an action, and the action ends by
    closing the dropdown and clearing the query, whatever the query and
    the reply were. *)
Theorem every_result_closes_the_search (reply : ApiReply) (searchQuery : string)
    (st : State) :
  Forall (fun r => exists first, action r = Some [first; SetIsOpen false; SetQuery ""])
    (results (searchAlone reply searchQuery st)).
Proof.
  destruct (query_cases searchQuery) as [H | [[H Ha] | [H Ha]]].
  - rewrite (searchAlone_blank reply searchQuery st H). constructor.
  - rewrite (searchAlone_address reply searchQuery st H Ha). cbn [results setIsLoading setResults].
    constructor; [|constructor]. cbn. eexists. reflexivity.
  - rewrite (searchAlone_tokens chainId getTokensByChain reply searchQuery st H Ha).
    destruct (isChainSupported chainId).
    + destruct (fetchUniswapLiquidity chainId reply) as [data | | e m];
        [apply merged_entries_close | apply Forall_nil | apply Forall_nil].
    + apply (merged_entries_close [] searchQuery).
Qed.

(** A search of a non-blank query ends with the loading flag cleared and
    is loading while it waits for its reply; a blank query returns before
    the flag is touched, so a flag that was set stays set. *)
Theorem loading_flag (reply : ApiReply) (searchQuery : string) (st : State) :
  isLoading (searchAlone reply searchQuery st) =
    (if truthy (trim searchQuery) then false else isLoading st) /\
  (forall st' resume,
     performSearch searchQuery st = Await st' resume -> isLoading st' = true).
Proof.
  split.
  - destruct (query_cases searchQuery) as [H | [[H Ha] | [H Ha]]].
    + rewrite (searchAlone_blank reply searchQuery st H), H. reflexivity.
    + rewrite (searchAlone_address reply searchQuery st H Ha), (truthy_nonempty _ H).
      reflexivity.
    + rewrite (truthy_nonempty _ H).
      unfold SearchBar.searchAlone, SearchBar.performSearch.
      rewrite (truthy_nonempty _ H), Ha. cbn [negb].
      destruct (isChainSupported chainId); [|reflexivity]. cbv beta iota zeta.
      destruct (fetchUniswapLiquidity chainId reply) as [data | | e [| |]];
        reflexivity.
  - intros st' resume. unfold SearchBar.performSearch.
    destruct (negb (truthy (trim searchQuery))); [discriminate|].
    destruct (isAddressPattern (trim searchQuery)); [discriminate|].
    destruct (isChainSupported chainId); [|discriminate].
    intros H. injection H as <- _. reflexivity.
Qed.

(** X19. On a chain without a subgraph the search asks no endpoint: it
    finishes at once with the first five registry matches (none of them
    excluded) and the suggestions, no error, and the registry as its only
    outside call. *)
Theorem unsupported_chain_searches_registry_only (searchQuery : string) (st : State) :
  isChainSupported chainId = false ->
  trim searchQuery <> "" ->
  isAddressPattern (trim searchQuery) = false ->
  exists st',
    performSearch searchQuery st = Done st' /\
    results st' =
      map localEntry (firstn 5 (filter (matchesQuery searchQuery) (getTokensByChain chainId)))
      ++ suggestionsFor searchQuery /\
    calls st' = calls st ++ [GetTokensByChain chainId] /\
    searchError st' = None /\
    isLoading st' = false.
Proof.
  intros Hsup Hblank Haddr. unfold SearchBar.performSearch.
  rewrite (truthy_nonempty _ Hblank), Haddr, Hsup. cbn [negb].
  eexists. split; [reflexivity|].
  rewrite mergeAndRender_results, localTokenMatches_nil. repeat split.
Qed.




End SearchOutcomes.

Section TopPool.
Import SearchBar.

Local Abbreviation tvl := Route.Pool.tvlUSD.

Lemma reduce_max (rest : list LiquidityPoolResult) :
  forall (before : list LiquidityPoolResult) (max : LiquidityPoolResult)
         (after : list LiquidityPoolResult),
    Forall (fun p => (tvl p < tvl max)%Q) before ->
    Forall (fun p => (tvl p <= tvl max)%Q) after ->
    let top :=
      fold_left
        (fun max pool => if negb (Qle_bool (tvl pool) (tvl max)) then pool else max)
        rest max in
    exists before' after',
      before ++ max :: after ++ rest = before' ++ top :: after' /\
      Forall (fun p => (tvl p < tvl top)%Q) before' /\
      Forall (fun p => (tvl p <= tvl top)%Q) after'.
Proof.
  induction rest as [|pool rest IH]; intros before max after Hb Ha; cbn.
  - exists before, after. now rewrite app_nil_r.
  - destruct (Qle_bool (tvl pool) (tvl max)) eqn:Hle; cbn [negb].
    + apply Qle_bool_iff in Hle.
      destruct (IH before max (after ++ [pool]) Hb) as (b' & a' & Heq & Hb' & Ha').
      { apply Forall_app. split; [assumption | now constructor]. }
      exists b', a'. rewrite <- Heq, <- app_assoc. now split.
    + assert (Hlt : (tvl max < tvl pool)%Q).
      { apply Qnot_le_lt. intros H. apply Qle_bool_iff in H. congruence. }
      destruct (IH (before ++ max :: after) pool [] ) as (b' & a' & Heq & Hb' & Ha').
      { apply Forall_app. split.
        - eapply Forall_impl; [|exact Hb]. intros p Hp. cbv beta in *.
          eapply Qlt_trans; eassumption.
        - constructor; [assumption|].
          eapply Forall_impl; [|exact Ha]. intros p Hp. cbv beta in *.
          eapply Qle_lt_trans; eassumption. }
      { constructor. }
      exists b', a'. rewrite <- Heq, <- app_assoc. now split.
Qed.

(** X21. The top pool of an entry is the first pool of largest TVL: every pool
    listed before it has a strictly smaller TVL and none has a larger
    one; there is no top pool exactly when the token has no pools. *)
Theorem topPoolOf_first_maximum (pools : list LiquidityPoolResult) :
  match topPoolOf pools with
  | None => pools = []
  | Some top =>
      exists before after,
        pools = before ++ top :: after /\
        Forall (fun p => (tvl p < tvl top)%Q) before /\
        Forall (fun p => (tvl p <= tvl top)%Q) after
  end.
Proof.
  destruct pools as [|first rest]; [reflexivity|].
  cbn [topPoolOf].
  destruct (reduce_max rest [] first []) as (b & a & Heq & Hb & Ha); try constructor.
  exists b, a. now split.
Qed.

End TopPool.

(* ----------------------------------------------------------------- *)
(** ** Abort controllers *)

Section ControllerFacts.
Import Subgraphs SearchBar Invariants.

Variable chainId : Z.
Variable getTokensByChain : Z -> list Token.t.

Local Abbreviation performSearch := (SearchBar.performSearch chainId getTokensByChain).
Local Abbreviation runTask := (SearchBar.runTask chainId getTokensByChain).
Local Abbreviation runTasks := (SearchBar.runTasks chainId getTokensByChain).

Lemma setNth_last (n : nat) :
  setNth n true (repeat true n ++ [false]) = repeat true (S n).
Proof.
  induction n as [|n IH]; [reflexivity|].
  cbn [repeat app setNth]. now rewrite IH.
Qed.

Lemma replaceAbortController_live (st : State) :
  oneLiveController st -> oneLiveController (replaceAbortController st).
Proof.
  unfold oneLiveController, replaceAbortController.
  cbn [abortControllerRef controllers].
  destruct (abortControllerRef st) as [current|]; intros ->.
  - rewrite setNth_last, repeat_length. reflexivity.
  - reflexivity.
Qed.

Lemma mergeAndRender_controllers (searchQuery : string) (found : list SearchResult)
    (st : State) :
  controllers (mergeAndRender chainId getTokensByChain searchQuery found st) = controllers st /\
  abortControllerRef (mergeAndRender chainId getTokensByChain searchQuery found st) =
    abortControllerRef st.
Proof. split; reflexivity. Qed.

Lemma performSearch_live (searchQuery : string) (st : State) :
  oneLiveController st ->
  match performSearch searchQuery st with
  | Done st' => oneLiveController st'
  | Await st' resume => oneLiveController st' /\ keepsControllers resume
  end.
Proof.
  intros Hst. unfold SearchBar.performSearch.
  destruct (negb (truthy (trim searchQuery))); [exact Hst|].
  pose proof (replaceAbortController_live
                (setSearchError None (setIsLoading true st)) Hst) as Hnew.
  destruct (isAddressPattern (trim searchQuery)); [exact Hnew|].
  destruct (isChainSupported chainId); [|exact Hnew].
  split; [exact Hnew|].
  intros reply st'. cbv beta zeta.
  destruct (fetchUniswapLiquidity chainId reply) as [data | | e [| |]];
    cbn [readError readTokens]; try (split; reflexivity).
  - destruct (error data) as [e|]; [destruct (truthy e)|]; split; reflexivity.
  - destruct e as [e|]; [destruct (truthy e)|]; split; reflexivity.
  - destruct e as [e|]; [destruct (truthy e)|]; split; reflexivity.
  - destruct e as [e|]; [destruct (truthy e)|]; split; reflexivity.
Qed.

Lemma runTask_live (w : Surface) (t : Task) :
  oneLiveController (state w) ->
  Forall (fun p => keepsControllers (snd p)) (suspended w) ->
  oneLiveController (state (runTask w t)) /\
  Forall (fun p => keepsControllers (snd p)) (suspended (runTask w t)).
Proof.
  intros Hst Hsusp. destruct t as [searchQuery | invocation reply]; cbn [SearchBar.runTask].
  - pose proof (performSearch_live searchQuery (state w) Hst) as H.
    destruct (performSearch searchQuery (state w)) as [st' | st' resume];
      cbn [state suspended].
    + now split.
    + destruct H as [H1 H2]. split; [assumption|].
      apply Forall_app. split; [assumption|]. now constructor.
  - destruct (find _ (suspended w)) as [[i resume]|] eqn:Hfind; [|now split].
    cbn [state suspended]. apply find_some in Hfind as [Hin _].
    pose proof (proj1 (Forall_forall _ _) Hsusp _ Hin) as Hkeeps. cbn in Hkeeps.
    destruct (Hkeeps reply (state w)) as [Hc Hr]. split.
    + unfold oneLiveController in *. now rewrite Hc, Hr.
    + apply Forall_forall. intros p Hp. apply filter_In in Hp as [Hp _].
      exact (proj1 (Forall_forall _ _) Hsusp _ Hp).
Qed.

(** X22. However searches are issued and replies delivered, at most one abort
    controller is live: the one the ref holds is the last one created,
    and every controller created before it has been aborted. *)
Theorem at_most_one_live_controller (ts : list Task) :
  let st := state (runTasks initialSurface ts) in
  match abortControllerRef st with
  | None => controllers st = []
  | Some current => controllers st = repeat true current ++ [false]
  end.
Proof.
  cbv zeta.
  assert (H : forall w,
             oneLiveController (state w) ->
             Forall (fun p => keepsControllers (snd p)) (suspended w) ->
             oneLiveController (state (runTasks w ts))).
  { induction ts as [|t ts IH]; intros w Hst Hsusp; [exact Hst|].
    cbn [SearchBar.runTasks fold_left].
    destruct (runTask_live w t Hst Hsusp) as [H1 H2].
    exact (IH _ H1 H2). }
  apply (H initialSurface); [reflexivity | constructor].
Qed.

End ControllerFacts.

(* ----------------------------------------------------------------- *)
(** ** Keyboard handling and the dropdown *)

Section KeyboardFacts.
Import SearchBar Keyboard.

Lemma key_is_not (e : KeyboardEvent) (name other : string) :
  key e = name -> String.eqb name other = false -> String.eqb (key e) other = false.
Proof. now intros ->. Qed.

Lemma arrowDown_run (results : list SearchResult) (e : KeyboardEvent) (p : Panel) :
  key e = "ArrowDown" -> isOpen p = true -> results <> [] ->
  handleKeyDown results e p =
    (setSelectedIndex (fun prev => Z.rem (prev + 1) (Z.of_nat (List.length results))) p,
     [PreventDefault]).
Proof.
  intros Hkey Hopen Hres. unfold handleKeyDown.
  rewrite Hkey, Hopen. cbn [String.eqb Ascii.eqb Bool.eqb andb orb fst snd app].
  rewrite andb_false_r.
  destruct results; [congruence|]. reflexivity.
Qed.

Lemma arrowUp_run (results : list SearchResult) (e : KeyboardEvent) (p : Panel) :
  key e = "ArrowUp" -> isOpen p = true -> results <> [] ->
  handleKeyDown results e p =
    (setSelectedIndex
       (fun prev => Z.rem (prev - 1 + Z.of_nat (List.length results))
                      (Z.of_nat (List.length results))) p,
     [PreventDefault]).
Proof.
  intros Hkey Hopen Hres. unfold handleKeyDown.
  rewrite Hkey, Hopen. cbn [String.eqb Ascii.eqb Bool.eqb andb orb fst snd app].
  rewrite andb_false_r.
  destruct results; [congruence|]. reflexivity.
Qed.

Lemma rem_next (i n : Z) :
  0 <= i < n -> Z.rem (i + 1) n = if i =? n - 1 then 0 else i + 1.
Proof.
  intros H. rewrite Z.rem_mod_nonneg by lia.
  destruct (Z.eqb_spec i (n - 1)) as [-> | Hne].
  - replace (n - 1 + 1) with n by lia. apply Z_mod_same_full.
  - apply Z.mod_small. lia.
Qed.

Lemma rem_previous (i n : Z) :
  0 <= i < n -> Z.rem (i - 1 + n) n = if i =? 0 then n - 1 else i - 1.
Proof.
  intros H. rewrite Z.rem_mod_nonneg by lia.
  destruct (Z.eqb_spec i 0) as [-> | Hne].
  - replace (0 - 1 + n) with (n - 1) by lia. apply Z.mod_small. lia.
  - replace (i - 1 + n) with (i - 1 + 1 * n) by lia.
    rewrite Z_mod_plus_full. apply Z.mod_small. lia.
Qed.

(** X23. With the dropdown open and the selection on a row, the arrow keys
    move the selection by one row and wrap around at either end, the
    selection stays on a row, and either arrow undoes the other. *)
Theorem arrow_keys_cycle (results : list SearchResult) (down up : KeyboardEvent)
    (p : Panel) :
  key down = "ArrowDown" ->
  key up = "ArrowUp" ->
  isOpen p = true ->
  0 <= selectedIndex p < Z.of_nat (List.length results) ->
  let rows := Z.of_nat (List.length results) in
  let next := fst (handleKeyDown results down p) in
  let previous := fst (handleKeyDown results up p) in
  selectedIndex next = (if selectedIndex p =? rows - 1 then 0 else selectedIndex p + 1) /\
  selectedIndex previous = (if selectedIndex p =? 0 then rows - 1 else selectedIndex p - 1) /\
  0 <= selectedIndex next < rows /\
  0 <= selectedIndex previous < rows /\
  fst (handleKeyDown results up next) = p /\
  fst (handleKeyDown results down previous) = p.
Proof.
  intros Hdown Hup Hopen Hsel rows next previous.
  assert (Hres : results <> []) by (intros ->; cbn in Hsel; lia).
  subst rows next previous.
  rewrite (arrowDown_run results down p Hdown Hopen Hres).
  rewrite (arrowUp_run results up p Hup Hopen Hres).
  cbn [fst].
  remember (Z.of_nat (List.length results)) as rows eqn:Hrows.
  destruct p as [o q i]. cbn [selectedIndex isOpen query] in *.
  unfold setSelectedIndex. cbn [selectedIndex isOpen query].
  rewrite (rem_next _ _ Hsel), (rem_previous _ _ Hsel).
  assert (Hn : 0 <= (if i =? rows - 1 then 0 else i + 1) < rows)
    by (destruct (Z.eqb_spec i (rows - 1)); lia).
  assert (Hp : 0 <= (if i =? 0 then rows - 1 else i - 1) < rows)
    by (destruct (Z.eqb_spec i 0); lia).
  split; [reflexivity|]. split; [reflexivity|].
  split; [exact Hn|]. split; [exact Hp|]. split.
  - rewrite (arrowUp_run results up _ Hup) by assumption.
    cbn [fst]. unfold setSelectedIndex. cbn [selectedIndex isOpen query].
    rewrite <- Hrows, (rem_previous _ _ Hn). f_equal.
    destruct (Z.eqb_spec i (rows - 1)) as [-> | Hne].
    + reflexivity.
    + destruct (Z.eqb_spec (i + 1) 0); lia.
  - rewrite (arrowDown_run results down _ Hdown) by assumption.
    cbn [fst]. unfold setSelectedIndex. cbn [selectedIndex isOpen query].
    rewrite <- Hrows, (rem_next _ _ Hp). f_equal.
    destruct (Z.eqb_spec i 0) as [-> | Hne].
    + rewrite Z.eqb_refl. reflexivity.
    + destruct (Z.eqb_spec (i - 1) (rows - 1)); lia.
Qed.

(** While the dropdown is closed the handler runs no action and changes
    neither the query nor the selection: Cmd/Ctrl+K opens it, every
    other key does nothing. *)
Theorem closed_dropdown_ignores_keys (results : list SearchResult) (e : KeyboardEvent)
    (p : Panel) :
  isOpen p = false ->
  handleKeyDown results e p =
    if (metaKey e || ctrlKey e) && String.eqb (key e) "k"
    then (setIsOpen true p, [PreventDefault; FocusInput])
    else (p, []).
Proof.
  intros Hopen. unfold handleKeyDown. rewrite Hopen, andb_false_r. cbn [andb].
  destruct ((metaKey e || ctrlKey e) && String.eqb (key e) "k"); reflexivity.
Qed.

Lemma at_in (results : list SearchResult) (i : Z) (r : SearchResult) :
  at_ results i = Some r -> In r results.
Proof.
  unfold at_. destruct (i <? 0); [discriminate|]. apply nth_error_In.
Qed.

Lemma at_defined (results : list SearchResult) (i : Z) :
  0 <= i < Z.of_nat (List.length results) -> exists r, at_ results i = Some r.
Proof.
  intros H. unfold at_. destruct (Z.ltb_spec i 0); [lia|].
  destruct (nth_error results (Z.to_nat i)) eqn:Hnth; [eauto|].
  apply nth_error_None in Hnth. lia.
Qed.

Section AfterSearch.
Variable chainId : Z.
Variable getTokensByChain : Z -> list Token.t.

Lemma results_close_the_search (reply : ApiReply) (searchQuery : string) (st : State) :
  Forall (fun r => exists first, action r = Some [first; SetIsOpen false; SetQuery ""])
    (results (searchAlone chainId getTokensByChain reply searchQuery st)).
Proof.
  destruct (query_cases searchQuery) as [H | [[H Ha] | [H Ha]]].
  - rewrite (searchAlone_blank chainId getTokensByChain reply searchQuery st H). constructor.
  - rewrite (searchAlone_address chainId getTokensByChain reply searchQuery st H Ha).
    cbn [results setIsLoading setResults].
    constructor; [|constructor]. cbn. eexists. reflexivity.
  - rewrite (searchAlone_tokens chainId getTokensByChain reply searchQuery st H Ha).
    destruct (Subgraphs.isChainSupported chainId).
    + destruct (fetchUniswapLiquidity chainId reply) as [data | | e m];
        [apply merged_entries_close | apply Forall_nil | apply Forall_nil].
    + apply (merged_entries_close chainId getTokensByChain [] searchQuery).
Qed.

(** X24. Enter on the open dropdown, with the selection on a row of what a
    search listed, runs that row's action: the dropdown ends closed and
    the query empty, and the selection is left where it was. *)
Theorem enter_runs_the_selected_action (reply : ApiReply) (searchQuery : string)
    (st : State) (e : KeyboardEvent) (p : Panel) :
  let listed := results (searchAlone chainId getTokensByChain reply searchQuery st) in
  key e = "Enter" ->
  isOpen p = true ->
  0 <= selectedIndex p < Z.of_nat (List.length listed) ->
  exists row first,
    nth_error listed (Z.to_nat (selectedIndex p)) = Some row /\
    action row = Some [first; SetIsOpen false; SetQuery ""] /\
    handleKeyDown listed e p =
      ({| isOpen := false; query := ""; selectedIndex := selectedIndex p |},
       PreventDefault ::
       match first with
       | SetIsOpen _ | SetQuery _ => []
       | _ => [Performed first]
       end).
Proof.
  intros listed Hkey Hopen Hsel.
  destruct (at_defined listed _ Hsel) as [row Hrow].
  pose proof (at_in _ _ _ Hrow) as Hin.
  pose proof (proj1 (Forall_forall _ _)
                (results_close_the_search reply searchQuery st) row Hin) as [first Hact].
  exists row, first. split.
  { unfold at_ in Hrow. destruct (Z.ltb_spec (selectedIndex p) 0); [lia | exact Hrow]. }
  split; [exact Hact|].
  unfold handleKeyDown. rewrite Hkey, Hopen.
  cbn [String.eqb Ascii.eqb Bool.eqb andb orb fst snd app].
  rewrite andb_false_r.
  assert (Hlen : (0 <? Z.of_nat (List.length listed)) = true) by (apply Z.ltb_lt; lia).
  fold listed. rewrite Hlen, Hrow. unfold runAction. rewrite Hact.
  destruct p as [o q i]. destruct first; reflexivity.
Qed.

End AfterSearch.

(** The open dropdown shows no part at all exactly while the loading
    flag is set and the query is blank; a closed dropdown shows none. *)
Theorem dropdown_is_blank (p : Panel) (st : State) :
  dropdown p st = [] <->
  isOpen p = false \/ (isLoading st = true /\ trim (query p) = "").
Proof.
  unfold dropdown. destruct (isOpen p); [|split; [now left | reflexivity]].
  destruct (isLoading st) eqn:Hloading; cbn [andb negb app].
  - destruct (trim (query p)) eqn:Hq; cbn [truthy].
    + destruct (searchError st) as [e|]; [rewrite andb_false_r|];
        (split; [intros _; right; now split | reflexivity]).
    + split; [discriminate|]. intros [H | [_ H]]; discriminate H.
  - split; [|intros [H | [H _]]; discriminate H].
    intros H. exfalso.
    destruct (searchError st) as [e|]; [destruct (truthy e) eqn:He|];
      cbn [andb negb app] in H; try discriminate H;
      destruct (List.length (results st) =? 0)%nat; cbn [andb negb app] in H;
      try discriminate H;
      destruct (truthy (trim (query p))); discriminate H.
Qed.

Section PendingSearch.
Variable chainId : Z.
Variable getTokensByChain : Z -> list Token.t.

(** X25. Clearing the query while a search waits for its reply leaves the
    open dropdown without any part: the blank query empties the results
    and returns before the loading flag is cleared. *)
Theorem clearing_the_query_blanks_the_dropdown (searchQuery blank : string)
    (st pending : State) (resume : ApiReply -> State -> State) (selected : Z) :
  performSearch chainId getTokensByChain searchQuery st = Await pending resume ->
  trim blank = "" ->
  exists cleared,
    performSearch chainId getTokensByChain blank pending = Done cleared /\
    results cleared = [] /\
    isLoading cleared = true /\
    dropdown {| isOpen := true; query := blank; selectedIndex := selected |} cleared = [].
Proof.
  intros Hrun Hblank.
  assert (Hloading : isLoading pending = true).
  { revert Hrun. unfold performSearch.
    destruct (negb (truthy (trim searchQuery))); [discriminate|].
    destruct (isAddressPattern (trim searchQuery)); [discriminate|].
    destruct (Subgraphs.isChainSupported chainId); [|discriminate].
    intros H. injection H as <- _. reflexivity. }
  rewrite (performSearch_blank chainId getTokensByChain blank pending Hblank).
  eexists. split; [reflexivity|]. split; [reflexivity|]. split; [exact Hloading|].
  unfold dropdown. cbn [isOpen query isLoading setSearchError setResults searchError results].
  rewrite Hloading, Hblank. reflexivity.
Qed.

End PendingSearch.

End KeyboardFacts.

(* ----------------------------------------------------------------- *)
(** ** The orderbook display *)

Section DisplayFacts.
Import CowApi CowFormat Display.

Variable decimalsOf : string -> option Z.
Variable network : nat -> string -> FetchReply.
Variable now : Z.

Lemma BigInt_Z_toString (z : Z) : BigInt (Z_toString z) = Normal z.
Proof. unfold BigInt. now rewrite parseBigInt_Z_toString. Qed.

Lemma enabled_distinct (A B : string) :
  A <> "" -> B <> "" -> A <> B -> enabled A B = true.
Proof.
  intros HA HB HAB. unfold enabled.
  rewrite (truthy_nonempty _ HA), (truthy_nonempty _ HB).
  apply String.eqb_neq in HAB. now rewrite HAB.
Qed.

Lemma monitor_mainnet_run (A B : string) :
  A <> "" -> B <> "" -> A <> B ->
  monitor 1 decimalsOf network now A B =
    (render 1 decimalsOf A B
       {| liquidity :=
            pairOf now A B
              (calculateLiquidity (deliveredOrders (network 0%nat (ordersUrl A B))))
              (calculateLiquidity (deliveredOrders (network 1%nat (ordersUrl B A))));
          loading := false;
          error :=
            match pairOf now A B
                    (calculateLiquidity (deliveredOrders (network 0%nat (ordersUrl A B))))
                    (calculateLiquidity (deliveredOrders (network 1%nat (ordersUrl B A))))
            with
            | Some _ => None
            | None => Some "No liquidity data available"
            end |},
     [ordersUrl A B; ordersUrl B A]).
Proof.
  intros HA HB HAB. unfold monitor, fetchLiquidity.
  rewrite (enabled_distinct A B HA HB HAB), (truthy_nonempty _ HA), (truthy_nonempty _ HB).
  cbn [negb orb Z.eqb Pos.eqb].
  unfold bind, tryCatch. rewrite fetchPairLiquidity_run. cbn [List.length app].
  reflexivity.
Qed.

(** X26. Choosing the same token on both sides keeps the monitor off: no
    request is made and, on mainnet, the liquidity part stays blank. *)
Theorem same_token_is_not_monitored (chainId : Z) (A : string) :
  monitor chainId decimalsOf network now A A =
    (if chainId =? 1
     then Normal (Some {| clearButton := truthy A;
                          block := if truthy A then Some Blank else None;
                          helperText := negb (truthy A) |})
     else Normal None,
     []).
Proof.
  unfold monitor, fetchLiquidity, enabled. rewrite String.eqb_refl, andb_false_r.
  cbn [negb]. rewrite orb_true_r. unfold ret, render.
  cbn [liquidity loading error bindC].
  destruct (chainId =? 1); cbn [negb]; [|reflexivity].
  destruct (truthy A); reflexivity.
Qed.

(** X27. When the orderbook fails in both directions the display reports "no
    active orderbook liquidity" for the pair, not an error. *)
Theorem dead_orderbook_shows_no_active_liquidity (A B : string) :
  A <> "" -> B <> "" -> A <> B ->
  upstreamFailed (network 0%nat (ordersUrl A B)) = true ->
  upstreamFailed (network 1%nat (ordersUrl B A)) = true ->
  monitor 1 decimalsOf network now A B =
    (Normal (Some {| clearButton := true;
                     block := Some NoActiveLiquidity;
                     helperText := false |}),
     [ordersUrl A B; ordersUrl B A]).
Proof.
  intros HA HB HAB H1 H2.
  rewrite (monitor_mainnet_run A B HA HB HAB).
  rewrite (upstreamFailed_no_orders _ H1), (upstreamFailed_no_orders _ H2).
  unfold render. rewrite (truthy_nonempty _ HA), (truthy_nonempty _ HB). reflexivity.
Qed.

(** X28. The low-liquidity warning looks at the A-to-B direction only: when
    that direction has no open orders and the other one has a positive
    total, from however many orders, the display shows the B-to-A row
    alone, with the total of its amounts and its order count, and the
    warning. *)
Theorem one_sided_liquidity_warns (A B : string) (orders : list CowOrder)
    (amounts : list Z) :
  A <> "" -> B <> "" -> A <> B ->
  deliveredOrders (network 0%nat (ordersUrl A B)) = [] ->
  deliveredOrders (network 1%nat (ordersUrl B A)) = orders ->
  Forall2 (fun o a => parseBigInt (sellAmount o) = Some a) orders amounts ->
  0 < fold_right Z.add 0 amounts ->
  exists text,
    formatLiquidity (Z_toString (fold_right Z.add 0 amounts))
      (decimalsOr18 decimalsOf B) = Normal text /\
    fst (monitor 1 decimalsOf network now A B) =
      Normal (Some {| clearButton := true;
                      block := Some (Liquidity None
                                       (Some {| amount := text;
                                                orders := Z.of_nat (List.length orders) |})
                                       true);
                      helperText := false |}).
Proof.
  intros HA HB HAB H1 H2 Hamounts Hpos.
  rewrite (monitor_mainnet_run A B HA HB HAB). cbn [fst].
  rewrite H1, H2, calculateLiquidity_nil, (calculateLiquidity_of_amounts _ _ Hamounts).
  set (total := fold_right Z.add 0 amounts) in *.
  assert (Htext : exists text, formatLiquidity (Z_toString total) (decimalsOr18 decimalsOf B)
                               = Normal text).
  { unfold formatLiquidity. rewrite BigInt_Z_toString. cbn [bindC].
    destruct (powerOfTen _); [|eauto]. destruct (_ =? 0); eauto. }
  destruct Htext as [text Htext]. exists text. split; [exact Htext|].
  unfold render, pairOf. rewrite (truthy_nonempty _ HA), (truthy_nonempty _ HB).
  cbn [negb Z.eqb Pos.eqb liquidity loading error andb liquidityAtoB liquidityBtoA].
  unfold row, positive. cbn [totalLiquidity orderCount zeroLiquidity].
  rewrite BigInt_Z_toString.
  change (BigInt "0") with (@Normal Z 0). cbn [bindC Z.ltb Z.compare].
  apply Z.ltb_lt in Hpos. rewrite Hpos. cbn [bindC]. rewrite Htext. reflexivity.
Qed.

End DisplayFacts.

(* ----------------------------------------------------------------- *)
(** ** Formatting of amounts *)

Section FormatFacts.
Import CowFormat.

Lemma isDigit_facts (c : ascii) :
  isDigit c = true ->
  exists d,
    digitValue c = Some d /\ 0 <= d < 10 /\
    (Ascii.eqb c "0" = true -> d = 0) /\ (Ascii.eqb c "0" = false -> d <> 0) /\
    Ascii.eqb c "," = false /\ Ascii.eqb c "." = false /\ isWordChar c = true.
Proof.
  intros H. exists (Z.of_N (N_of_ascii c - 48)).
  destruct c as [[] [] [] [] [] [] [] []]; try discriminate H;
    (split; [reflexivity|]); (split; [cbn; lia|]);
    repeat split; try reflexivity; try (intros E; discriminate E);
    intros _; cbn; lia.
Qed.

Lemma pow10_succ (n : nat) : 10 ^ Z.of_nat (S n) = 10 * 10 ^ Z.of_nat n.
Proof. rewrite Nat2Z.inj_succ, Z.pow_succ_r by lia. reflexivity. Qed.

Lemma pow10_pos (n : nat) : 0 < 10 ^ Z.of_nat n.
Proof. apply Z.pow_pos_nonneg; lia. Qed.

(** The value of a digit string. *)
Lemma digitsValue_digits (s : string) :
  allDigits s = true ->
  exists v,
    0 <= v < 10 ^ Z.of_nat (String.length s) /\
    forall acc, digitsValue 10 acc s = Some (acc * 10 ^ Z.of_nat (String.length s) + v).
Proof.
  induction s as [|c r IH]; intros H.
  - exists 0. split; [cbn; lia|]. intros acc. cbn. f_equal. lia.
  - cbn [allDigits] in H. apply andb_prop in H as [Hc Hr].
    destruct (isDigit_facts c Hc) as (d & Hd & Hrange & _).
    destruct (IH Hr) as (v & Hv & Hval).
    exists (d * 10 ^ Z.of_nat (String.length r) + v).
    cbn [String.length]. rewrite pow10_succ. split; [nia|].
    intros acc. cbn [digitsValue]. rewrite Hd.
    destruct (Z.ltb_spec d 10); [|lia]. rewrite Hval. f_equal. ring.
Qed.

Lemma digitsValue_app (a b : string) :
  forall acc,
    digitsValue 10 acc (a ++ b) =
      match digitsValue 10 acc a with
      | Some x => digitsValue 10 x b
      | None => None
      end.
Proof.
  induction a as [|c r IH]; intros acc; cbn [append digitsValue]; [reflexivity|].
  destruct (digitValue c) as [d|]; [|reflexivity].
  destruct (d <? 10); [apply IH | reflexivity].
Qed.

Lemma digitsValue_zeros (n : nat) :
  forall acc, digitsValue 10 acc (zeros n) = Some (acc * 10 ^ Z.of_nat n).
Proof.
  induction n as [|n IH]; intros acc.
  - cbn. f_equal. lia.
  - change (zeros (S n)) with (String "0" (zeros n)).
    cbn [digitsValue]. change (digitValue "0") with (Some 0). cbn [Z.ltb Z.compare].
    rewrite IH, pow10_succ. f_equal. ring.
Qed.

Lemma zeros_length (n : nat) : String.length (zeros n) = n.
Proof. induction n as [|n IH]; [reflexivity|]. cbn. f_equal. exact IH. Qed.

Lemma allDigits_zeros (n : nat) : allDigits (zeros n) = true.
Proof. induction n as [|n IH]; [reflexivity|]. exact IH. Qed.

Lemma allDigits_app (a b : string) :
  allDigits (a ++ b) = allDigits a && allDigits b.
Proof.
  induction a as [|c r IH]; cbn [append allDigits]; [reflexivity|].
  now rewrite IH, andb_assoc.
Qed.

Lemma append_length (a b : string) :
  String.length (a ++ b) = (String.length a + String.length b)%nat.
Proof. induction a as [|c r IH]; cbn; [reflexivity | now rewrite IH]. Qed.

(** Decimal renderings. *)
Lemma allDigits_of_uint (d : Decimal.uint) :
  allDigits (NilEmpty.string_of_uint d) = true.
Proof. induction d; cbn; auto. Qed.

Lemma to_uint_no_leading_zero (p : positive) (d : Decimal.uint) :
  Pos.to_uint p <> Decimal.D0 d.
Proof.
  intros H.
  pose proof (Unsigned.to_of (Pos.to_uint p)) as Hnorm.
  rewrite Unsigned.of_to in Hnorm. cbn [N.to_uint] in Hnorm.
  unfold Decimal.unorm in Hnorm.
  destruct (Decimal.nzhead (Pos.to_uint p)) eqn:Hhead;
    [ exact (Unsigned.to_uint_nonzero p Hnorm)
    | exact (DecimalFacts.nzhead_nonzero _ _ Hhead)
    | rewrite Hnorm in H; discriminate H .. ].
Qed.

Lemma Z_toString_pos (p : positive) :
  Z_toString (Z.pos p) = NilEmpty.string_of_uint (Pos.to_uint p).
Proof.
  unfold Z_toString. cbn [Z.to_int NilZero.string_of_int].
  unfold NilZero.string_of_uint.
  pose proof (Unsigned.to_uint_nonnil p). now destruct (Pos.to_uint p).
Qed.

Lemma Z_toString_digits (z : Z) :
  0 <= z ->
  allDigits (Z_toString z) = true /\
  Z_toString z <> "" /\
  digitsValue 10 0 (Z_toString z) = Some z.
Proof.
  intros Hz. destruct z as [|p|p]; [repeat split; discriminate | | lia].
  rewrite Z_toString_pos. split; [apply allDigits_of_uint|]. split.
  - pose proof (Unsigned.to_uint_nonnil p). destruct (Pos.to_uint p); congruence || discriminate.
  - rewrite digitsValue_of_uint, Unsigned.of_to. reflexivity.
Qed.

Lemma Z_toString_leading (z : Z) :
  0 < z ->
  exists c r, Z_toString z = String c r /\ Ascii.eqb c "0" = false.
Proof.
  intros Hz. destruct z as [|p|p]; try lia.
  rewrite Z_toString_pos.
  pose proof (Unsigned.to_uint_nonnil p) as Hnil.
  pose proof (to_uint_no_leading_zero p) as Hzero.
  destruct (Pos.to_uint p) as [|d|d|d|d|d|d|d|d|d|d]; try congruence;
    try (eexists; eexists; split; reflexivity);
    now destruct (Hzero d).
Qed.

Lemma Z_toString_length (z : Z) (n : nat) :
  0 <= z < 10 ^ Z.of_nat n -> z <> 0 -> (String.length (Z_toString z) <= n)%nat.
Proof.
  intros Hz Hne.
  destruct (Z_toString_digits z) as (Hall & _ & Hval); [lia|].
  destruct (Z_toString_leading z) as (c & r & Hs & Hc); [lia|].
  rewrite Hs in *. cbn [allDigits] in Hall. apply andb_prop in Hall as [Hdc Hr].
  destruct (isDigit_facts c Hdc) as (d & Hd & Hrange & _ & Hnz & _).
  destruct (digitsValue_digits r Hr) as (v & Hv & Hvalr).
  cbn [digitsValue] in Hval. rewrite Hd in Hval.
  destruct (Z.ltb_spec d 10); [|lia]. rewrite Hvalr in Hval. injection Hval as Hval.
  specialize (Hnz Hc).
  assert (Hlt : 10 ^ Z.of_nat (String.length r) < 10 ^ Z.of_nat n) by nia.
  apply Z.pow_lt_mono_r_iff in Hlt; [|lia|lia].
  cbn [String.length]. lia.
Qed.

(** Padding. *)
Lemma padStart_digits (n : nat) (s : string) (v : Z) :
  allDigits s = true -> (String.length s <= n)%nat ->
  digitsValue 10 0 s = Some v ->
  allDigits (padStart n s) = true /\
  String.length (padStart n s) = n /\
  digitsValue 10 0 (padStart n s) = Some v.
Proof.
  intros Hall Hlen Hval. unfold padStart. fold (zeros (n - String.length s)).
  split; [|split].
  - now rewrite allDigits_app, allDigits_zeros, Hall.
  - rewrite append_length, zeros_length. lia.
  - rewrite digitsValue_app, digitsValue_zeros. exact Hval.
Qed.

(** Trailing zeros. *)
Lemma zerosToEnd_zeros (s : string) :
  zerosToEnd s = true -> s = zeros (String.length s).
Proof.
  induction s as [|c r IH]; [discriminate|].
  cbn [zerosToEnd]. intros H. apply andb_prop in H as [Hc Hr].
  apply Ascii.eqb_eq in Hc. subst c. cbn [String.length].
  change (zeros (S (String.length r))) with (String "0" (zeros (String.length r))).
  f_equal. destruct r as [|c' r']; [reflexivity|]. exact (IH Hr).
Qed.

Lemma pointZerosToEnd_digits (s : string) :
  allDigits s = true -> pointZerosToEnd s = zerosToEnd s.
Proof.
  destruct s as [|c r]; [reflexivity|]. cbn [allDigits]. intros H.
  apply andb_prop in H as [Hc _].
  destruct (isDigit_facts c Hc) as (d & _ & _ & _ & _ & _ & Hpoint & _).
  unfold pointZerosToEnd.
  destruct c as [[] [] [] [] [] [] [] []]; try reflexivity; discriminate Hpoint.
Qed.

Lemma stripZeros_digits (s : string) :
  allDigits s = true ->
  allDigits (stripZeros s) = true /\
  (exists j, s = (stripZeros s ++ zeros j)%string) /\
  (stripZeros s <> "" ->
   forall acc v, digitsValue 10 acc (stripZeros s) = Some v -> v mod 10 <> 0).
Proof.
  induction s as [|c r IH]; intros Hall.
  - split; [reflexivity|]. split; [exists 0%nat; reflexivity|].
    intros H. now destruct H.
  - cbn [stripZeros]. rewrite (pointZerosToEnd_digits _ Hall).
    destruct (zerosToEnd (String c r)) eqn:Hz.
    + split; [reflexivity|]. split; [|congruence].
      exists (String.length (String c r)). exact (zerosToEnd_zeros _ Hz).
    + cbn [allDigits] in Hall. apply andb_prop in Hall as [Hc Hr].
      destruct (IH Hr) as (Hall' & [j Hj] & Hlast).
      split; [cbn [allDigits]; now rewrite Hc, Hall'|].
      split; [exists j; cbn [append]; now rewrite <- Hj|].
      intros _ acc v. cbn [digitsValue].
      destruct (isDigit_facts c Hc) as (d & Hd & Hrange & H0 & Hn0 & _).
      rewrite Hd. destruct (Z.ltb_spec d 10); [|lia].
      destruct (stripZeros r) as [|c' r'] eqn:Hstrip.
      * cbn [digitsValue]. intros Hv. injection Hv as <-.
        assert (Hcz : Ascii.eqb c "0" = false).
        { destruct (Ascii.eqb c "0") eqn:Hc0; [|reflexivity].
          cbn [zerosToEnd] in Hz. rewrite Hc0 in Hz. cbn [andb] in Hz.
          cbn [append] in Hj. subst r.
          destruct j as [|j]; [discriminate Hz|].
          change (zeros (S j)) with (String "0" (zeros j)) in Hz.
          assert (Hzz : forall k, zerosToEnd (String "0" (zeros k)) = true).
          { induction k as [|k IHk]; [reflexivity|].
            change (zeros (S k)) with (String "0" (zeros k)).
            cbn [zerosToEnd]. cbn [zerosToEnd] in IHk. exact IHk. }
          rewrite Hzz in Hz. discriminate Hz. }
        specialize (Hn0 Hcz).
        change ((10 * acc + d) mod 10 <> 0).
        replace (10 * acc + d) with (d + acc * 10) by ring.
        rewrite Z_mod_plus_full, Z.mod_small by lia. exact Hn0.
      * apply Hlast. discriminate.
Qed.

(** Commas and the point. *)
Lemma removeCommas_groupFrom (s : string) :
  forall prev, removeCommas (groupFrom prev s) = removeCommas s.
Proof.
  induction s as [|c r IH]; intros prev; cbn [groupFrom].
  - destruct (notWordBoundary prev "" && groupsAhead ""); reflexivity.
  - destruct (notWordBoundary prev (String c r) && groupsAhead (String c r));
      cbn [append removeCommas Ascii.eqb Bool.eqb]; now rewrite IH.
Qed.

Lemma removeCommas_app (a b : string) :
  removeCommas (a ++ b) = (removeCommas a ++ removeCommas b)%string.
Proof.
  induction a as [|c r IH]; cbn [append removeCommas]; [reflexivity|].
  destruct (Ascii.eqb c ","); cbn [append]; now rewrite IH.
Qed.

Lemma removeCommas_digits (s : string) : allDigits s = true -> removeCommas s = s.
Proof.
  induction s as [|c r IH]; [reflexivity|]. cbn [allDigits removeCommas].
  intros H. apply andb_prop in H as [Hc Hr].
  destruct (isDigit_facts c Hc) as (d & _ & _ & _ & _ & Hcomma & _).
  now rewrite Hcomma, (IH Hr).
Qed.

Lemma splitAtPoint_digits (s : string) :
  allDigits s = true ->
  splitAtPoint s = (s, None) /\
  forall f, splitAtPoint (s ++ "." ++ f) = (s, Some f).
Proof.
  induction s as [|c r IH]; [split; reflexivity|]. cbn [allDigits].
  intros H. apply andb_prop in H as [Hc Hr].
  destruct (isDigit_facts c Hc) as (d & _ & _ & _ & _ & _ & Hpoint & _).
  destruct (IH Hr) as [H1 H2]. split.
  - cbn [splitAtPoint]. now rewrite Hpoint, H1.
  - intros f. cbn [append splitAtPoint]. rewrite Hpoint.
    change (r ++ String "." f)%string with (r ++ "." ++ f)%string. now rewrite H2.
Qed.

Lemma nonEmptyDigits_value (s : string) (v : Z) :
  s <> "" -> digitsValue 10 0 s = Some v -> nonEmptyDigits 10 s = Some v.
Proof. destruct s; [congruence | auto]. Qed.

(** X29. The text shown for a non-negative amount denotes the amount divided
    by ten to the [decimals], exactly: read back with its commas dropped,
    it is a mantissa with at most [decimals] digits after the point, no
    trailing zero among them, whose value scaled back is the amount. *)
Theorem formatLiquidity_reads_back (amount : string) (decimals value : Z) :
  parseBigInt amount = Some value ->
  0 <= value ->
  0 <= decimals <= 22 ->
  exists text mantissa digits,
    formatLiquidity amount decimals = Normal (Some text) /\
    readDecimal text = Some (mantissa, digits) /\
    Z.of_nat digits <= decimals /\
    mantissa * 10 ^ (decimals - Z.of_nat digits) = value /\
    (digits <> 0%nat -> mantissa mod 10 <> 0).
Proof.
  intros Hparse Hvalue Hdecimals.
  unfold formatLiquidity, BigInt, powerOfTen. rewrite Hparse. cbn [bindC].
  destruct (Z.leb_spec 0 decimals); [|lia]. destruct (Z.leb_spec decimals 22); [|lia].
  cbn [andb].
  assert (Hdiv : 0 < 10 ^ decimals) by (apply Z.pow_pos_nonneg; lia).
  rewrite Z.quot_div_nonneg, Z.rem_mod_nonneg by lia.
  pose proof (Z.div_mod value (10 ^ decimals) ltac:(lia)) as Hsplit.
  pose proof (Z.mod_pos_bound value (10 ^ decimals) Hdiv) as Hfrac.
  assert (Hwhole : 0 <= value / 10 ^ decimals) by (apply Z.div_pos; lia).
  set (whole := value / 10 ^ decimals) in *.
  set (fraction := value mod 10 ^ decimals) in *.
  destruct (Z_toString_digits whole Hwhole) as (HWd & HWne & HWv).
  destruct (splitAtPoint_digits _ HWd) as [HsplitW HsplitWF].
  destruct (Z.eqb_spec fraction 0) as [Hzero | Hnonzero].
  - exists (groupThousands (Z_toString whole)), whole, 0%nat.
    split; [reflexivity|]. split.
    + unfold readDecimal, groupThousands.
      rewrite removeCommas_groupFrom, (removeCommas_digits _ HWd), HsplitW.
      now rewrite (nonEmptyDigits_value _ _ HWne HWv).
    + split; [lia|]. split; [|congruence].
      rewrite Z.sub_0_r. lia.
  - set (n := Z.to_nat decimals).
    assert (Hn : Z.of_nat n = decimals) by (subst n; lia).
    destruct (Z_toString_digits fraction ltac:(lia)) as (HFd & HFne & HFv).
    assert (HFlen : (String.length (Z_toString fraction) <= n)%nat).
    { apply Z_toString_length; [rewrite Hn; lia | exact Hnonzero]. }
    destruct (padStart_digits n _ _ HFd HFlen HFv) as (HPd & HPlen & HPv).
    set (padded := padStart n (Z_toString fraction)) in *.
    destruct (stripZeros_digits padded HPd) as (HTd & [j Hj] & Hlast).
    set (trimmed := stripZeros padded) in *.
    destruct (digitsValue_digits trimmed HTd) as (t & Ht & HTv).
    assert (Hscaled : t * 10 ^ Z.of_nat j = fraction).
    { rewrite Hj, digitsValue_app, HTv, digitsValue_zeros in HPv.
      injection HPv as HPv. lia. }
    assert (HTne : trimmed <> "").
    { intros E. rewrite E in HTv. specialize (HTv 0). cbn in HTv.
      injection HTv as HTv. subst t. lia. }
    assert (Hlen : (String.length trimmed + j = n)%nat).
    { rewrite <- HPlen, Hj at 1. fold trimmed. now rewrite append_length, zeros_length. }
    exists (groupThousands (Z_toString whole) ++ "." ++ trimmed)%string,
           (whole * 10 ^ Z.of_nat (String.length trimmed) + t),
           (String.length trimmed).
    split; [reflexivity|]. split.
    + unfold readDecimal, groupThousands.
      rewrite removeCommas_app, removeCommas_groupFrom, (removeCommas_digits _ HWd).
      rewrite removeCommas_app. cbn [removeCommas Ascii.eqb Bool.eqb].
      rewrite (removeCommas_digits _ HTd).
      change (String "." "" ++ trimmed)%string with ("." ++ trimmed)%string.
      rewrite HsplitWF, (nonEmptyDigits_value _ _ HWne HWv).
      assert (HTv0 : digitsValue 10 0 trimmed = Some t) by (rewrite HTv; f_equal; lia).
      now rewrite (nonEmptyDigits_value _ _ HTne HTv0).
    + split; [lia|]. split.
      * replace (decimals - Z.of_nat (String.length trimmed)) with (Z.of_nat j) by lia.
        rewrite Z.mul_add_distr_r, <- Z.mul_assoc, <- Z.pow_add_r by lia.
        replace (Z.of_nat (String.length trimmed) + Z.of_nat j) with decimals by lia.
        lia.
      * intros Hdigits.
        assert (Htmod : t mod 10 <> 0).
        { apply (Hlast HTne 0). rewrite HTv. f_equal; lia. }
        destruct (String.length trimmed) as [|k] eqn:Hk; [congruence|].
        rewrite pow10_succ.
        replace (whole * (10 * 10 ^ Z.of_nat k) + t)
          with (t + (whole * 10 ^ Z.of_nat k) * 10) by ring.
        now rewrite Z_mod_plus_full.
Qed.

End FormatFacts.

Section GroupingFacts.
Import CowFormat.

Lemma digitRun_digits (s : string) :
  allDigits s = true -> digitRun s = String.length s.
Proof.
  induction s as [|c r IH]; [reflexivity|]. cbn [allDigits digitRun String.length].
  intros H. apply andb_prop in H as [Hc Hr]. now rewrite Hc, (IH Hr).
Qed.

Lemma digitRun_app (s t : string) :
  allDigits s = true -> digitRun (s ++ t) = (String.length s + digitRun t)%nat.
Proof.
  induction s as [|c r IH]; [reflexivity|]. cbn [allDigits append digitRun String.length].
  intros H. apply andb_prop in H as [Hc Hr]. now rewrite Hc, (IH Hr).
Qed.

Lemma groupFrom_short (s : string) :
  forall prev, (digitRun s < 3)%nat -> allDigits s = true -> groupFrom prev s = s.
Proof.
  induction s as [|c r IH]; intros prev Hlen Hall.
  - cbn. now rewrite andb_false_r.
  - cbn [groupFrom]. unfold groupsAhead at 1.
    destruct (Nat.leb_spec 3 (digitRun (String c r))); [lia|].
    rewrite andb_false_r. cbn [andb append]. f_equal.
    cbn [allDigits] in Hall. apply andb_prop in Hall as [Hc Hr].
    cbn [digitRun] in Hlen. rewrite Hc in Hlen.
    apply IH; [lia | exact Hr].
Qed.

Lemma groupsAhead_app (s t : string) :
  allDigits s = true -> allDigits t = true -> String.length t = 3%nat -> s <> "" ->
  groupsAhead (s ++ t) = groupsAhead s.
Proof.
  intros Hs Ht Hlen Hne. unfold groupsAhead.
  rewrite (digitRun_app s t Hs), (digitRun_digits t Ht), (digitRun_digits s Hs), Hlen.
  assert (Hpos : (0 < String.length s)%nat) by (destruct s; [congruence | cbn; lia]).
  set (k := String.length s) in *.
  assert (Hmod : ((k + 3) mod 3 = k mod 3)%nat).
  { replace (k + 3)%nat with (k + 1 * 3)%nat by lia. now rewrite Nat.Div0.mod_add. }
  rewrite Hmod.
  destruct (Nat.eqb_spec (k mod 3) 0) as [Hz | Hnz].
  - assert (3 <= k)%nat.
    { destruct (Nat.ltb_spec k 3) as [Hlt|]; [|lia].
      rewrite Nat.mod_small in Hz by lia. lia. }
    rewrite !andb_true_r.
    destruct (Nat.leb_spec 3 (k + 3)); [|lia]. destruct (Nat.leb_spec 3 k); [reflexivity | lia].
  - now rewrite !andb_false_r.
Qed.

Lemma append_assoc (a b c : string) : ((a ++ b) ++ c = a ++ b ++ c)%string.
Proof. induction a as [|x a IH]; cbn; [reflexivity | now rewrite IH]. Qed.

Lemma groupFrom_append (t : string) :
  allDigits t = true -> String.length t = 3%nat ->
  forall (s : string) (prev : option ascii),
    allDigits s = true ->
    (s = "" -> exists c, prev = Some c /\ isWordChar c = true) ->
    groupFrom prev (s ++ t) = (groupFrom prev s ++ "," ++ t)%string.
Proof.
  intros Ht Hlen. induction s as [|c r IH]; intros prev Hs Hprev.
  - destruct (Hprev eq_refl) as (p & -> & Hp).
    destruct t as [|t0 t']; [discriminate Hlen|].
    cbn [append groupFrom]. unfold groupsAhead at 1 2.
    rewrite (digitRun_digits _ Ht), Hlen.
    cbn [allDigits] in Ht. apply andb_prop in Ht as [Ht0 Ht'].
    destruct (isDigit_facts t0 Ht0) as (d & _ & _ & _ & _ & _ & _ & Hword).
    unfold notWordBoundary. rewrite Hp, Hword.
    cbn [Bool.eqb andb Nat.leb Nat.eqb Nat.modulo Nat.divmod fst snd Nat.sub digitRun append].
    do 2 f_equal. apply groupFrom_short; [|exact Ht'].
    rewrite (digitRun_digits _ Ht'). cbn in Hlen. lia.
  - cbn [append groupFrom].
    change (String c (r ++ t)) with (String c r ++ t)%string.
    rewrite (groupsAhead_app (String c r) t Hs Ht Hlen) by discriminate.
    assert (Hboundary : notWordBoundary prev (String c r ++ t) =
                        notWordBoundary prev (String c r)) by reflexivity.
    rewrite Hboundary.
    cbn [allDigits] in Hs. apply andb_prop in Hs as [Hc Hr].
    destruct (isDigit_facts c Hc) as (d & _ & _ & _ & _ & _ & _ & Hword).
    rewrite (IH (Some c) Hr) by (intros _; eauto).
    destruct (notWordBoundary prev (String c r) && groupsAhead (String c r));
      reflexivity.
Qed.

(** X30. Thousands separators on a digit string: up to three digits get no
    comma, and three more digits after a non-empty digit string add one
    comma, in front of them. *)
Theorem groupThousands_groups_of_three (s : string) :
  allDigits s = true ->
  ((String.length s <= 3)%nat -> groupThousands s = s) /\
  (forall t,
     s <> "" -> allDigits t = true -> String.length t = 3%nat ->
     groupThousands (s ++ t) = (groupThousands s ++ "," ++ t)%string).
Proof.
  intros Hs. split.
  - intros Hlen. unfold groupThousands.
    destruct s as [|c r]; [reflexivity|].
    cbn [groupFrom]. cbn [allDigits] in Hs. apply andb_prop in Hs as [Hc Hr].
    destruct (isDigit_facts c Hc) as (d & _ & _ & _ & _ & _ & _ & Hword).
    unfold notWordBoundary. rewrite Hword. cbn [Bool.eqb andb append]. f_equal.
    apply groupFrom_short; [|exact Hr].
    rewrite (digitRun_digits _ Hr). cbn in Hlen. lia.
  - intros t Hne Ht Hlen. unfold groupThousands.
    apply groupFrom_append; try assumption. congruence.
Qed.

End GroupingFacts.

(* ----------------------------------------------------------------- *)
(** ** Runs on concrete inputs *)

Section MonitorExamples.
Import CowApi CowFormat Display Cases.

Lemma calculateLiquidity_permutation_example :
  calculateLiquidity [orderSelling "7"; orderSelling "5"] =
    Normal {| totalLiquidity := "12"; orderCount := 2; direction := sell |}.
Proof.
  apply (calculateLiquidity_permutation [orderSelling "5"; orderSelling "7"]);
    [apply perm_swap | reflexivity].
Defined.

Lemma fetchLiquidity_dormant_example :
  fetchLiquidity halfDeadOrderbook 1700000000 (Some "0xaa") (Some "0xbb") 42161 true
    {| liquidity := None; loading := false; error := Some "stale" |} [] =
    (Normal {| liquidity := None; loading := false; error := None |}, []).
Proof.
  apply (fetchLiquidity_dormant halfDeadOrderbook 1700000000 (Some "0xaa") (Some "0xbb")
           42161 true). left. discriminate.
Defined.

Lemma fetchLiquidity_malformed_amount_example :
  fetchLiquidity malformedOrderbook 1700000000 (Some "0xaa") (Some "0xbb") 1 true
    {| liquidity := None; loading := false; error := None |} [] =
    (Normal {| liquidity := None; loading := false;
               error := Some "No liquidity data available" |},
     [ordersUrl "0xaa" "0xbb"; ordersUrl "0xbb" "0xaa"]).
Proof.
  apply (fetchLiquidity_malformed_amount malformedOrderbook 1700000000 "0xaa" "0xbb");
    [discriminate | discriminate | apply Exists_cons_hd; reflexivity].
Defined.

Lemma dead_orderbook_shows_no_active_liquidity_example :
  monitor 1 sixDecimals deadOrderbook 1700000000 "0xaa" "0xbb" =
    (Normal (Some {| clearButton := true;
                     block := Some NoActiveLiquidity;
                     helperText := false |}),
     [ordersUrl "0xaa" "0xbb"; ordersUrl "0xbb" "0xaa"]).
Proof.
  apply (dead_orderbook_shows_no_active_liquidity sixDecimals deadOrderbook 1700000000
           "0xaa" "0xbb");
    [discriminate | discriminate | discriminate | reflexivity | reflexivity].
Defined.

Lemma one_sided_liquidity_warns_example :
  exists text,
    formatLiquidity "3500000" 6 = Normal text /\
    fst (monitor 1 sixDecimals oneSidedOrderbook 1700000000 "0xaa" "0xbb") =
      Normal (Some {| clearButton := true;
                      block := Some (Liquidity None
                                       (Some {| amount := text; orders := 6 |})
                                       true);
                      helperText := false |}).
Proof.
  apply (one_sided_liquidity_warns sixDecimals oneSidedOrderbook 1700000000 "0xaa" "0xbb"
           [orderSelling "2500000"; orderSelling "500000"; orderSelling "100000";
            orderSelling "100000"; orderSelling "100000"; orderSelling "200000"]
           [2500000; 500000; 100000; 100000; 100000; 200000]);
    [discriminate | discriminate | discriminate | reflexivity | reflexivity
    | repeat constructor | reflexivity].
Defined.

Lemma formatLiquidity_reads_back_example :
  exists text mantissa digits,
    formatLiquidity "1234567890" 6 = Normal (Some text) /\
    readDecimal text = Some (mantissa, digits) /\
    Z.of_nat digits <= 6 /\
    mantissa * 10 ^ (6 - Z.of_nat digits) = 1234567890 /\
    (digits <> 0%nat -> mantissa mod 10 <> 0).
Proof.
  apply (formatLiquidity_reads_back "1234567890" 6 1234567890); [reflexivity | lia | lia].
Defined.

Lemma groupThousands_groups_of_three_example :
  ((String.length "12" <= 3)%nat -> groupThousands "12" = "12") /\
  (forall t,
     "12" <> "" -> allDigits t = true -> String.length t = 3%nat ->
     groupThousands ("12" ++ t) = (groupThousands "12" ++ "," ++ t)%string).
Proof.
  apply (groupThousands_groups_of_three "12"). reflexivity.
Defined.

End MonitorExamples.

Section SearchExamples.
Import Subgraphs SearchBar Keyboard Cases.

Lemma merged_ids_unique_example :
  NoDup (map id (results (searchAlone 1 registry (okReply [remoteUsdc]) "usd" initialState))).
Proof.
  apply (merged_ids_unique 1 registry (okReply [remoteUsdc]) "usd" initialState).
  - discriminate.
  - reflexivity.
  - constructor; [intros [] | constructor].
  - constructor; [intros [H | []]; discriminate H|].
    constructor; [intros [] | constructor].
Defined.

Lemma unsupported_chain_searches_registry_only_example :
  exists st',
    performSearch 11155111 everywhere "usd" initialState = Done st' /\
    results st' =
      map (localTokenToSearchResult 11155111)
        (firstn 5 (filter (matchesQuery "usd") (everywhere 11155111)))
      ++ suggestionsFor "usd" /\
    calls st' = calls initialState ++ [GetTokensByChain 11155111] /\
    searchError st' = None /\
    isLoading st' = false.
Proof.
  apply (unsupported_chain_searches_registry_only 11155111 everywhere "usd" initialState);
    [reflexivity | discriminate | reflexivity].
Defined.


(** An error status whose body is [null]: the message shown is that of
    the [TypeError]. *)
Lemma failed_fetch_with_null_body :
  searchError (searchAlone 1 registry (NotOk 502 (Normal Route.JNull)) "usd" initialState) =
    Some "Cannot read properties of null (reading 'error')".
Proof. reflexivity. Qed.

Lemma arrow_keys_cycle_example :
  selectedIndex (fst (handleKeyDown commandSuggestions (pressed "ArrowDown") (openAt "" 1))) = 0 /\
  selectedIndex (fst (handleKeyDown commandSuggestions (pressed "ArrowUp") (openAt "" 0))) = 1.
Proof.
  split.
  - exact (proj1 (arrow_keys_cycle commandSuggestions (pressed "ArrowDown")
                    (pressed "ArrowUp") (openAt "" 1) eq_refl eq_refl eq_refl
                    (conj (Z.le_0_1) eq_refl))).
  - exact (proj1 (proj2 (arrow_keys_cycle commandSuggestions (pressed "ArrowDown")
                           (pressed "ArrowUp") (openAt "" 0) eq_refl eq_refl eq_refl
                           (conj (Z.le_refl 0) eq_refl)))).
Defined.

Lemma enter_runs_the_selected_action_example :
  handleKeyDown
    (results (searchAlone 1 registry (okReply [remoteUsdc]) "usd" initialState))
    (pressed "Enter") (openAt "usd" 0) =
  ({| isOpen := false; query := ""; selectedIndex := 0 |},
   [PreventDefault; Performed (ConsoleLog "Selected token:" usdcAddress)]).
Proof.
  destruct (enter_runs_the_selected_action 1 registry (okReply [remoteUsdc]) "usd"
              initialState (pressed "Enter") (openAt "usd" 0))
    as (row & first & Hrow & Haction & Hrun).
  - reflexivity.
  - reflexivity.
  - split; [apply Z.le_refl | reflexivity].
  - rewrite Hrun. injection Hrow as <-. injection Haction as <-. reflexivity.
Defined.

Lemma clearing_the_query_blanks_the_dropdown_example :
  exists cleared,
    performSearch 1 registry "  "
      (logCall (FetchLiquidity 1 "usd")
         (replaceAbortController (setSearchError None (setIsLoading true initialState)))) =
      Done cleared /\
    results cleared = [] /\
    isLoading cleared = true /\
    dropdown {| isOpen := true; query := "  "; selectedIndex := 0 |} cleared = [].
Proof.
  exact (clearing_the_query_blanks_the_dropdown 1 registry "usd" "  " initialState
           _ _ 0 eq_refl eq_refl).
Defined.

End SearchExamples.
